(** * The burner manager of dojo.js (packages/create-burner)

    A shallow embedding of [BurnerManager] (manager/burnerManager.ts) and of
    [prefundAccount] (manager/prefundAccount.ts).

    The manager is a stateful class that sequences calls to the starknet SDK
    and mirrors their results into [localStorage].  The embedding is a state
    and exception monad over a record holding the fields of the class, the
    local storage, the trace of the outward calls issued so far and the
    console.  What the outside world answers to a call (the SDK, the chain,
    the user's callbacks, the clipboard) is decided by an oracle that sees
    the whole history, so that every theorem quantified over the oracle
    holds for every behaviour of the outside world.

    Conventions.
    - A JS object used as a dictionary ([BurnerStorage]) is an association
      list in insertion order, which is the order [Object.keys] and
      [for ... in] enumerate string keys that are not array indices
      (the addresses the SDK computes are hex strings ["0x..."]).  A JS
      object has no duplicate key: statements that depend on it assume
      [NoDup] of the keys.
    - The stored object is a plain object: besides its own properties it
      inherits those of [Object.prototype], so that [storage[address]] is
      a built-in, and truthy, when [address] is not stored and names one of
      them (["toString"], ["constructor"], ["__proto__"], ...).  The
      built-ins are those of a fresh realm; a write that lands on one of
      them is recorded in the trace, and what the realm makes of it later
      is not followed.
    - [await] on a single promise is sequencing.  The two places where
      promises run side by side ([Promise.all] in [clear], the promise of
      [clear] that [init] drops) are modelled with explicit suspended
      computations.
    - The callbacks registered with [setIsDeployingCallback] and
      [setAfterDeployingCallback] are calls to the outside world: they may
      return or throw, and do not call back into the manager.
    - The pure functions of the SDK ([getStarkKey], [CallData.compile],
      ...) are uninterpreted total functions. *)

From stdpp Require Import gmap strings list.

Local Open Scope string_scope.

(** ** Data *)

(** The third argument of [new Account(...)]: a private key, or
    [undefined] when it is read off a value that has none. *)
Inductive Key : Type :=
| defined (key : string)
| undefined.
Coercion defined : string >-> Key.

(** [new Account(provider, address, privateKey, "1")]: the provider is the
    manager's and the cairo version is the constant ["1"] everywhere. *)
Record Account := mkAccount {
  address : string;
  signer : Key (* the private key the account signs with *)
}.

(** One value of [BurnerStorage] (types/index.ts). *)
Record BurnerRecord := mkBurnerRecord {
  chainId : string;
  privateKey : string;
  publicKey : string;
  deployTx : string;
  masterAccount : string;
  active : bool;
  accountIndex : option Z;
  metadata : option string
}.

(** [BurnerStorage = { [address: string]: ... }]. *)
Abbreviation BurnerStorage := (list (string * BurnerRecord)).

(** An element of the array [list()] returns ([Burner]). *)
Record Burner := mkBurner {
  burner_address : string;
  burner_active : bool;
  burner_masterAccount : string;
  burner_accountIndex : option Z
}.

(** [InvocationsDetails] of the SDK, as far as the manager fills it. *)
Record InvocationsDetails := mkDetails {
  nonce : option string;
  maxFee : option Z;
  version : option string
}.

Record BurnerCreateOptions := mkOptions {
  secret : option string;
  index : option Z;
  opt_metadata : option string;
  prefundedAmount : option string;
  transactionDetails : option InvocationsDetails
}.

(** [create()] called without argument: every [options?.x] is undefined. *)
Definition noOptions : BurnerCreateOptions := mkOptions None None None None None.

Record BurnerKeys := mkKeys {
  keys_privateKey : string;
  keys_publicKey : string;
  keys_address : string
}.

(** One call of [account.execute]. *)
Record ContractCall := mkCall {
  contractAddress : string;
  entrypoint : string;
  calldata : list string
}.

(** The payload of [deployAccount]. *)
Record DeployPayload := mkPayload {
  classHash : string;
  constructorCalldata : list string;
  addressSalt : string
}.

Record WaitOptions := mkWait {
  retryInterval : Z;
  successStates : option (list string)
}.

(** A thrown value is represented by its message. *)
Inductive Result (A : Type) : Type :=
| Ok (a : A)
| Throw (e : string).
Arguments Ok {A} a.
Arguments Throw {A} e.

(** ** Calls to the outside world *)

(** The calls the code awaits or invokes, with their arguments.  A receipt
    is kept as an opaque string; [None] is a falsy answer ([null]). *)
Inductive Call : Type :=
| GetChainId                                   (* provider.getChainId() *)
| GetNonce (a : Account)                       (* a.getNonce() *)
| Execute (a : Account) (calls : list ContractCall) (d : InvocationsDetails)
| WaitForTransaction (a : Account) (tx : string) (o : WaitOptions)
| DeployAccount (a : Account) (p : DeployPayload) (d : InvocationsDetails)
| GetTransactionReceipt (a : Account) (tx : string)
| EmptyAccount (masterAddress : string) (a : Account) (feeToken : string)
               (d : option InvocationsDetails) (* ./emptyAccount, not in the sources read *)
| RandomAddress                                (* stark.randomAddress() *)
| SetIsDeployingCallback (status : bool)       (* this.setIsDeploying(status) *)
| AfterDeployingCallback (a : Account) (tx : string)
| ClipboardReadText.                           (* navigator.clipboard.readText() *)

(** What a call resolves to when it does not throw. *)
Definition Resp (c : Call) : Type :=
  match c with
  | GetChainId => string
  | GetNonce _ => string
  | Execute _ _ _ => string                    (* transaction_hash *)
  | WaitForTransaction _ _ _ => option string
  | DeployAccount _ _ _ => string              (* transaction_hash *)
  | GetTransactionReceipt _ _ => option string
  | EmptyAccount _ _ _ _ => unit
  | RandomAddress => string
  | SetIsDeployingCallback _ => unit
  | AfterDeployingCallback _ _ => unit
  | ClipboardReadText => string
  end.

(** What the trace records: the outward calls, the writes to
    [localStorage], and a write of [active] that lands on the built-in
    [Object.prototype[name]]. *)
Inductive Event : Type :=
| Called (c : Call)
| StorageSet (key : string) (value : BurnerStorage)
| StorageRemove (key : string)
| BuiltinSetActive (name : string).

(** The outside world: its answer to a call may depend on everything that
    happened before. *)
Definition Oracle := ∀ (history : list Event) (c : Call), Result (Resp c).

(** The pure functions of the SDK the manager uses, uninterpreted, but
    for the one thing the code relies on: the address
    [hash.calculateContractAddressFromHash] returns is a hex string. *)
Record Starknet := mkStarknet {
  decodeShortString : string → string;
  getStarkKey : string → string;
  calculateContractAddressFromHash :
    string → string → list string → Z → string;
  CallData_compile : list string → list string;
  JSON_parse : string → Result BurnerStorage;
  address_is_hex : ∀ salt classHash calldata deployer,
    ∃ digits,
      calculateContractAddressFromHash salt classHash calldata deployer
      = "0x" +:+ digits
}.

(** ** State *)

(** The constructor's arguments and the two callbacks (whether one was
    registered: what it does is the oracle's). *)
Record Config := mkConfig {
  this_masterAccount : Account;
  this_accountClassHash : string;
  this_feeTokenAddress : string;
  this_setIsDeploying : bool;
  this_afterDeploying : bool
}.

Record State := mkState {
  config : Config;
  this_chainId : string;
  this_account : option Account;
  this_isDeploying : bool;
  this_isInitialized : bool;
  localStorage : gmap string BurnerStorage;
  trace : list Event;
  console : list string
}.

Definition set_chainId (c : string) (s : State) : State :=
  mkState (config s) c (this_account s) (this_isDeploying s)
    (this_isInitialized s) (localStorage s) (trace s) (console s).
Definition set_account (a : option Account) (s : State) : State :=
  mkState (config s) (this_chainId s) a (this_isDeploying s)
    (this_isInitialized s) (localStorage s) (trace s) (console s).
Definition set_isDeploying (b : bool) (s : State) : State :=
  mkState (config s) (this_chainId s) (this_account s) b
    (this_isInitialized s) (localStorage s) (trace s) (console s).
Definition set_isInitialized (b : bool) (s : State) : State :=
  mkState (config s) (this_chainId s) (this_account s) (this_isDeploying s)
    b (localStorage s) (trace s) (console s).
Definition set_localStorage (l : gmap string BurnerStorage) (s : State) : State :=
  mkState (config s) (this_chainId s) (this_account s) (this_isDeploying s)
    (this_isInitialized s) l (trace s) (console s).
Definition set_trace (t : list Event) (s : State) : State :=
  mkState (config s) (this_chainId s) (this_account s) (this_isDeploying s)
    (this_isInitialized s) (localStorage s) t (console s).
Definition set_console (c : list string) (s : State) : State :=
  mkState (config s) (this_chainId s) (this_account s) (this_isDeploying s)
    (this_isInitialized s) (localStorage s) (trace s) c.

(** A manager as [new BurnerManager({...})] leaves it, over a given local
    storage. *)
Definition new_BurnerManager (c : Config) (l : gmap string BurnerStorage) : State :=
  mkState c "" None false false l [] [].

(** ** The monad *)

Definition M (A : Type) : Type := State → Result A * State.

Definition ret {A} (a : A) : M A := λ s, (Ok a, s).
Definition throw {A} (e : string) : M A := λ s, (Throw e, s).
Definition bind {A B} (m : M A) (k : A → M B) : M B :=
  λ s, match m s with
       | (Ok a, s') => k a s'
       | (Throw e, s') => (Throw e, s')
       end.
(** [try { m } catch (e) { h e }] *)
Definition try_catch {A} (m : M A) (h : string → M A) : M A :=
  λ s, match m s with
       | (Ok a, s') => (Ok a, s')
       | (Throw e, s') => h e s'
       end.
Definition gets {A} (f : State → A) : M A := λ s, (Ok (f s), s).
Definition modify (f : State → State) : M unit := λ s, (Ok tt, f s).

Notation "x <- m ;; k" := (bind m (λ x, k))
  (at level 100, m at next level, right associativity,
   format "x  <-  m  ;;  '/' k").
Notation "m ;;; k" := (bind m (λ _, k))
  (at level 100, right associativity, format "m  ;;;  '/' k").

Definition emit (e : Event) : M unit :=
  modify (λ s, set_trace (trace s ++ [e]) s).
Definition console_log (msg : string) : M unit :=
  modify (λ s, set_console (console s ++ [msg]) s).

(** A JS value used as a condition. *)
Definition truthy_string (o : option string) : bool :=
  match o with
  | Some s => negb (String.eqb s "")
  | None => false
  end.

(** ** The dictionary operations on [BurnerStorage] *)

(** [Object.keys(storage)] *)
Definition keys (s : BurnerStorage) : list string := s.*1.

(** The own property [address] of [storage] *)
Fixpoint lookup_burner (a : string) (s : BurnerStorage) : option BurnerRecord :=
  match s with
  | [] => None
  | (k, b) :: s' => if String.eqb k a then Some b else lookup_burner a s'
  end.

(** The properties of [Object.prototype] (ECMA-262, 20.1.3 and B.2.2):
    functions, and for ["__proto__"] the prototype object itself.  Every
    one is truthy, and none has a field of a burner. *)
Definition Object_prototype : list string :=
  ["constructor"; "hasOwnProperty"; "isPrototypeOf"; "propertyIsEnumerable";
   "toLocaleString"; "toString"; "valueOf"; "__proto__";
   "__defineGetter__"; "__defineSetter__"; "__lookupGetter__";
   "__lookupSetter__"].

(** [address] names a property every plain object inherits:
    [storage[address]] is then the own property when there is one, else
    the built-in, and [undefined] only when [address] is neither stored
    nor inherited. *)
Definition inherited (a : string) : bool :=
  existsb (String.eqb a) Object_prototype.

Definition set_active (v : bool) (b : BurnerRecord) : BurnerRecord :=
  mkBurnerRecord (chainId b) (privateKey b) (publicKey b) (deployTx b)
    (masterAccount b) v (accountIndex b) (metadata b).

(** [for (let addr in storage) storage[addr].active = false] *)
Definition deactivate_all (s : BurnerStorage) : BurnerStorage :=
  map (λ kb, (kb.1, set_active false kb.2)) s.

(** [storage[address].active = true]: on a key that is not stored the
    write does not reach the store *)
Definition activate (a : string) (s : BurnerStorage) : BurnerStorage :=
  map (λ kb, if String.eqb kb.1 a then (kb.1, set_active true kb.2) else kb) s.

(** [delete storage[address]] *)
Definition remove_burner (a : string) (s : BurnerStorage) : BurnerStorage :=
  List.filter (λ kb, negb (String.eqb kb.1 a)) s.

(** [storage[address] = b]: a present key keeps its place, a new one goes
    last. *)
Fixpoint assign_burner (a : string) (b : BurnerRecord) (s : BurnerStorage)
  : BurnerStorage :=
  match s with
  | [] => [(a, b)]
  | (k, b') :: s' =>
      if String.eqb k a then (k, b) :: s' else (k, b') :: assign_burner a b s'
  end.

(** The number of burners marked active. *)
Definition count_active (s : BurnerStorage) : nat :=
  length (List.filter (λ kb, active kb.2) s).

Definition at_most_one_active (s : BurnerStorage) : Prop :=
  (count_active s ≤ 1)%nat.

(** ** Local storage *)

(** Modelled from the spec: [utils/storage] ([Storage.get], [Storage.set],
    [Storage.remove]) is not among the sources; the spec calls it "a local
    persistent key-value store" that the manager mirrors its results into.
    A value is stored and read back as it is (the JSON round trip is the
    identity on [BurnerStorage]); reading a key that is not stored gives
    nothing, so that [Storage.get(key) || {}] is the empty object. *)
Definition Storage_get (key : string) : M (option BurnerStorage) :=
  gets (λ s, localStorage s !! key).

Definition Storage_set (key : string) (value : BurnerStorage) : M unit :=
  modify (λ s, set_localStorage (<[key := value]> (localStorage s)) s) ;;;
  emit (StorageSet key value).

Definition Storage_remove (key : string) : M unit :=
  modify (λ s, set_localStorage (delete key (localStorage s)) s) ;;;
  emit (StorageRemove key).

(** The key the burners of the current chain are stored under
    ([`burners_${this.chainId}`]), and what is stored there. *)
Definition burner_key (s : State) : string := "burners_" +:+ this_chainId s.

Definition stored (s : State) : BurnerStorage :=
  default [] (localStorage s !! burner_key s).

(** ** Calls *)

Section Calls.

Variable world : Oracle.
Variable starknet : Starknet.

(** Issue a call: it is appended to the trace whether it resolves or
    throws. *)
Definition call (c : Call) : M (Resp c) :=
  λ s, (world (trace s) c, set_trace (trace s ++ [Called c]) s).

(** [{ maxFee: 0, nonce, ...transactionDetails }] *)
Definition with_details (n : option string) (td : option InvocationsDetails)
  : InvocationsDetails :=
  match td with
  | None => mkDetails n (Some 0%Z) None
  | Some d =>
      mkDetails (match nonce d with Some x => Some x | None => n end)
                (match maxFee d with Some x => Some x | None => Some 0%Z end)
                (version d)
  end.

Definition transfer_call (feeTokenAddress to amount : string) : ContractCall :=
  mkCall feeTokenAddress "transfer"
    (CallData_compile starknet [to; amount; "0x0"]).

(** manager/prefundAccount.ts *)
Definition prefundAccount (to : string) (account : Account)
    (feeTokenAddress prefundAmount : string)
    (td : option InvocationsDetails) : M string :=
  try_catch
    (let transferOptions := transfer_call feeTokenAddress to prefundAmount in
     n <- call (GetNonce account) ;;
     transaction_hash <-
       call (Execute account [transferOptions] (with_details (Some n) td)) ;;
     result <-
       call (WaitForTransaction account transaction_hash
               (mkWait 1000 (Some ["ACCEPTED_ON_L2"]))) ;;
     match result with
     | None => throw "Transaction did not complete successfully."
     | Some r => ret r
     end)
    (λ error, console_log error ;;; throw error).

End Calls.

(** ** The class *)

Module BurnerManager.

Section Methods.

Variable world : Oracle.
Variable starknet : Starknet.
(** [utils/keyDerivation], a module of this repository that is not among
    the sources read: taken as a parameter. *)
Variable derivePrivateKeyFromSeed : string → Z → string.

Abbreviation call := (call world).

Definition PREFUND_AMOUNT : string := "0x2386f26fc10000".

Definition updateIsDeploying (status : bool) : M unit :=
  modify (set_isDeploying status) ;;;
  cb <- gets (λ s, this_setIsDeploying (config s)) ;;
  if cb then call (SetIsDeployingCallback status) else ret tt.

Definition getBurnerKey : M string := gets burner_key.

Definition getBurnerStorage : M BurnerStorage :=
  key <- getBurnerKey ;;
  o <- Storage_get key ;;
  ret (default [] o).

(** The first entry marked active, in the order of [for ... in]. *)
Fixpoint first_active (s : BurnerStorage) : option (string * BurnerRecord) :=
  match s with
  | [] => None
  | (a, b) :: s' => if active b then Some (a, b) else first_active s'
  end.

Definition setActiveBurnerAccount (storage : BurnerStorage) : M unit :=
  match first_active storage with
  | Some (a, b) => modify (set_account (Some (mkAccount a (privateKey b))))
  | None => ret tt
  end.

Definition isBurnerDeployed (tx : string) : M bool :=
  try_catch
    (master <- gets (λ s, this_masterAccount (config s)) ;;
     receipt <- call (GetTransactionReceipt master tx) ;;
     ret (match receipt with Some _ => true | None => false end))
    (λ _, ret false).

Definition select (a : string) : M unit :=
  storage <- getBurnerStorage ;;
  match lookup_burner a storage with
  | Some b =>
      let storage' := activate a (deactivate_all storage) in
      key <- getBurnerKey ;;
      Storage_set key storage' ;;;
      modify (set_account (Some (mkAccount a (privateKey b))))
  | None =>
      if inherited a
      then
        (* [storage[address]] is a built-in: the guard lets it through,
           [active = true] is written on the built-in and its
           [privateKey] is undefined *)
        let storage' := deactivate_all storage in
        emit (BuiltinSetActive a) ;;;
        key <- getBurnerKey ;;
        Storage_set key storage' ;;;
        modify (set_account (Some (mkAccount a undefined)))
      else throw "burner not found"
  end.

Definition deselect : M unit :=
  storage <- getBurnerStorage ;;
  key <- getBurnerKey ;;
  Storage_set key (deactivate_all storage) ;;;
  modify (set_account None).

Definition get (a : string) : M Account :=
  storage <- getBurnerStorage ;;
  match lookup_burner a storage with
  | Some b => ret (mkAccount a (privateKey b))
  | None =>
      if inherited a then ret (mkAccount a undefined)
      else throw "burner not found"
  end.

Definition getActiveAccount : M (option Account) :=
  storage <- getBurnerStorage ;;
  ret (match first_active storage with
       | Some (a, b) => Some (mkAccount a (privateKey b))
       | None => None
       end).

(** *** delete

    [delete] is an async function with one [await].  It is split at that
    point: [delete_begin] is what runs when the function is called (up to
    [await emptyAccount(...)], whose outcome the oracle fixes), and
    [delete_resume] what runs, in one piece, once that promise has
    settled. *)
Inductive Pending : Type :=
| Rejected (e : string)
    (* the function threw before its await: its promise is rejected *)
| Awaiting (a : string) (storage : BurnerStorage) (drain : Result unit).
    (* suspended in [delete(a)] with its local [storage]; [drain] is how
       [emptyAccount] settles *)

Definition delete_begin (a : string) (td : option InvocationsDetails)
  : State → Pending * State :=
  λ s, match getBurnerStorage s with
       | (Ok storage, s1) =>
           let m :=
             burner <- get a ;;
             master <- gets (λ s, this_masterAccount (config s)) ;;
             feeToken <- gets (λ s, this_feeTokenAddress (config s)) ;;
             call (EmptyAccount (address master) burner feeToken td) in
           let started :=
             match m s1 with
             | (r, s2) => (Awaiting a storage r, s2)
             end in
           match lookup_burner a storage with
           | Some _ => started
           | None =>
               (* [!storage[address]] is false of a built-in too *)
               if inherited a then started
               else (Rejected "burner not found", s1)
           end
       | (Throw e, s1) => (Rejected e, s1)
       end.

Definition delete_resume (a : string) (storage : BurnerStorage)
    (drain : Result unit) : M unit :=
  match drain with
  | Throw e =>
      console_log ("burner manager delete() while emptying account error: " +:+ e)
  | Ok _ =>
      let storage' := remove_burner a storage in
      key <- getBurnerKey ;;
      Storage_set key storage' ;;;
      match keys storage' with
      | first :: _ => select first
      | [] => modify (set_account None)
      end
  end.

Definition settle (p : Pending) : M unit :=
  match p with
  | Rejected e => throw e
  | Awaiting a storage drain => delete_resume a storage drain
  end.

Definition delete (a : string) (td : option InvocationsDetails) : M unit :=
  λ s, match delete_begin a td s with
       | (p, s1) => settle p s1
       end.

(** *** clear

    [addresses.map((address) => this.delete(address, ...))] starts every
    [delete] at once: each runs up to its await on the storage as it is
    then.  The promises settle in an order the code does not control;
    [order] lists addresses in the order their drains settle, and a
    [delete] not named there settles after those, in the order of
    [addresses]. *)
Fixpoint start_all (addresses : list string) (td : option InvocationsDetails)
  : State → list Pending * State :=
  λ s, match addresses with
       | [] => ([], s)
       | a :: rest =>
           match delete_begin a td s with
           | (p, s1) =>
               match start_all rest td s1 with
               | (ps, s2) => (p :: ps, s2)
               end
           end
       end.

Definition clear_begin (td : option InvocationsDetails)
  : State → list Pending * State :=
  λ s, match getBurnerStorage s with
       | (Ok storage, s1) => start_all (keys storage) td s1
       | (Throw e, s1) => ([Rejected e], s1)
       end.

Definition is_awaiting (a : string) (p : Pending) : bool :=
  match p with
  | Awaiting a' _ _ => String.eqb a' a
  | Rejected _ => false
  end.

Fixpoint take_pending (a : string) (ps : list Pending)
  : option (Pending * list Pending) :=
  match ps with
  | [] => None
  | p :: ps' =>
      if is_awaiting a p then Some (p, ps')
      else match take_pending a ps' with
           | Some (q, qs) => Some (q, p :: qs)
           | None => None
           end
  end.

Fixpoint settle_rest (ps : list Pending) : M unit :=
  match ps with
  | [] => ret tt
  | p :: ps' => settle p ;;; settle_rest ps'
  end.

Fixpoint settle_in_order (order : list string) (ps : list Pending) : M unit :=
  match order with
  | [] => settle_rest ps
  | a :: order' =>
      match take_pending a ps with
      | Some (p, ps') => settle p ;;; settle_in_order order' ps'
      | None => settle_in_order order' ps
      end
  end.

Fixpoint first_rejected (ps : list Pending) : option string :=
  match ps with
  | [] => None
  | Rejected e :: _ => Some e
  | Awaiting _ _ _ :: ps' => first_rejected ps'
  end.

(** [await Promise.all(deletePromises); Storage.remove(key)].  A rejected
    promise rejects [Promise.all], and [clear] with it, before the removal
    ([clear_never_throws] below shows that no [delete] started by [clear]
    is ever rejected, so how the others would go on is left out). *)
Definition clear_finish (order : list string) (ps : list Pending) : M unit :=
  match first_rejected ps with
  | Some e => throw e
  | None =>
      settle_in_order order ps ;;;
      key <- getBurnerKey ;;
      Storage_remove key
  end.

Definition clear (td : option InvocationsDetails) (order : list string)
  : M unit :=
  λ s, match clear_begin td s with
       | (ps, s1) => clear_finish order ps s1
       end.

(** *** init *)

(** [Promise.all(addresses.map(async (address) => ...))]: the receipts are
    asked for in the order of [addresses]; the answers are only collected. *)
Fixpoint checks (storage : BurnerStorage) : M (list (option string)) :=
  match storage with
  | [] => ret []
  | (a, b) :: rest =>
      isDeployed <- isBurnerDeployed (deployTx b) ;;
      others <- checks rest ;;
      ret ((if isDeployed then None else Some a) :: others)
  end.

(** [toRemove.forEach(...)] *)
Fixpoint remove_each (keepNonDeployed : bool) (toRemove : list string)
    (storage : BurnerStorage) : M BurnerStorage :=
  match toRemove with
  | [] => ret storage
  | a :: rest =>
      if keepNonDeployed then remove_each keepNonDeployed rest storage
      else
        console_log ("Removing non-deployed burner at address " +:+ a +:+ ".") ;;;
        remove_each keepNonDeployed rest (remove_burner a storage)
  end.

(** [init] resolves to nothing; the embedding returns what [init] leaves
    running: the [delete]s of the [clear()] it calls without awaiting it,
    to be finished by [clear_finish], or [None] when it did not call
    [clear]. *)
Definition init (keepNonDeployed : bool) : M (option (list Pending)) :=
  initialized <- gets this_isInitialized ;;
  if initialized then throw "BurnerManager is already initialized"
  else
    id <- call GetChainId ;;
    modify (set_chainId (decodeShortString starknet id)) ;;;
    storage <- getBurnerStorage ;;
    answers <- checks storage ;;
    let toRemove := omap (λ x, x) answers in
    storage' <- remove_each keepNonDeployed toRemove storage ;;
    detached <-
      (match keys storage' with
       | _ :: _ =>
           key <- getBurnerKey ;;
           Storage_set key storage' ;;;
           setActiveBurnerAccount storage' ;;;
           ret None
       | [] =>
           λ s, match clear_begin None s with
                | (ps, s1) => (Ok (Some ps), s1)
                end
       end) ;;
    modify (set_isInitialized true) ;;;
    ret detached.

(** *** create *)

Definition generateKeysAndAddress (options : BurnerCreateOptions)
  : M BurnerKeys :=
  privateKey <-
    (if truthy_string (secret options)
     then ret (derivePrivateKeyFromSeed (default "" (secret options))
                 (default 0%Z (index options)))
     else call RandomAddress) ;;
  let publicKey := getStarkKey starknet privateKey in
  accountClassHash <- gets (λ s, this_accountClassHash (config s)) ;;
  ret (mkKeys privateKey publicKey
         (calculateContractAddressFromHash starknet publicKey accountClassHash
            (CallData_compile starknet [publicKey]) 0)).

(** The record [create] stores under the new address. *)
Definition new_record (options : BurnerCreateOptions) (chain : string)
    (k : BurnerKeys) (tx master : string) : BurnerRecord :=
  mkBurnerRecord chain (keys_privateKey k) (keys_publicKey k) tx master true
    (if truthy_string (secret options) then index options else None)
    (if truthy_string (opt_metadata options) then opt_metadata options
     else None).

Definition create (options : BurnerCreateOptions) : M Account :=
  initialized <- gets this_isInitialized ;;
  if negb initialized then throw "BurnerManager is not initialized"
  else
    updateIsDeploying true ;;;
    k <- generateKeysAndAddress options ;;
    (* [if (!this.masterAccount)]: an Account object is truthy *)
    master <- gets (λ s, this_masterAccount (config s)) ;;
    feeToken <- gets (λ s, this_feeTokenAddress (config s)) ;;
    try_catch
      (prefundAccount world starknet (keys_address k) master feeToken
         (if truthy_string (prefundedAmount options)
          then default "" (prefundedAmount options) else PREFUND_AMOUNT)
         (transactionDetails options) ;;;
       ret tt)
      (λ e,
         console_log ("burner manager create() error: " +:+ e) ;;;
         updateIsDeploying false) ;;;
    accountClassHash <- gets (λ s, this_accountClassHash (config s)) ;;
    let accountOptions :=
      mkPayload accountClassHash
        (CallData_compile starknet [keys_publicKey k]) (keys_publicKey k) in
    let burner := mkAccount (keys_address k) (keys_privateKey k) in
    tx <-
      try_catch
        (current <- gets this_account ;;
         n <- (match current with
               | Some a => x <- call (GetNonce a) ;; ret (Some x)
               | None => ret None
               end) ;;
         call (DeployAccount burner accountOptions
                 (with_details n (transactionDetails options))))
        (λ error, updateIsDeploying false ;;; throw error) ;;
    isDeployed <- try_catch (isBurnerDeployed tx) (λ _, ret false) ;;
    (if isDeployed then ret tt
     else
       receipt <- call (WaitForTransaction master tx (mkWait 100 None)) ;;
       match receipt with
       | None => throw "Transaction did not complete successfully."
       | Some _ => ret tt
       end) ;;;
    storage <- getBurnerStorage ;;
    chain <- gets this_chainId ;;
    let storage' :=
      assign_burner (keys_address k)
        (new_record options chain k tx (address master))
        (deactivate_all storage) in
    modify (set_account (Some burner)) ;;;
    updateIsDeploying false ;;;
    key <- getBurnerKey ;;
    Storage_set key storage' ;;;
    cb <- gets (λ s, this_afterDeploying (config s)) ;;
    (if cb
     then try_catch (call (AfterDeployingCallback burner tx))
            (λ e, console_log ("error on afterDeploying " +:+ e))
     else ret tt) ;;;
    ret burner.

(** *** The clipboard *)

Definition setBurnersFromClipboard : M unit :=
  try_catch
    (text <- call ClipboardReadText ;;
     burners <- (match JSON_parse starknet text with
                 | Ok b => ret b
                 | Throw e => throw e
                 end) ;;
     let activeAddress := fst <$> first_active burners in
     key <- getBurnerKey ;;
     Storage_set key burners ;;;
     (* [if (activeAddress)]: the empty string is falsy *)
     if truthy_string activeAddress
     then select (default "" activeAddress)
     else ret tt)
    (λ error, throw error).

(** *** list *)

Definition to_burner (kb : string * BurnerRecord) : Burner :=
  mkBurner kb.1 (active kb.2) (masterAccount kb.2) (accountIndex kb.2).

Definition list : M (list Burner) :=
  storage <- getBurnerStorage ;;
  master <- gets (λ s, this_masterAccount (config s)) ;;
  ret (List.filter
         (λ burner, String.eqb (burner_masterAccount burner) (address master))
         (map to_burner storage)).

End Methods.

End BurnerManager.

(** ** Notions used in the statements *)

(** The stored entries recorded under a given master address. *)
Definition owned_by (master : string) (storage : BurnerStorage) : BurnerStorage :=
  List.filter (λ kb, String.eqb (masterAccount kb.2) master) storage.

(** The drain [delete(a)] asks for when [a] is stored with record [b]. *)
Definition drain_of (s : State) (a : string) (b : BurnerRecord)
    (td : option InvocationsDetails) : Call :=
  EmptyAccount (address (this_masterAccount (config s)))
    (mkAccount a (privateKey b)) (this_feeTokenAddress (config s)) td.

(** The drain [delete(a)] asks for when [a] is not stored and
    [storage[a]] is a built-in: of an account with no private key. *)
Definition drain_of_builtin (s : State) (a : string)
    (td : option InvocationsDetails) : Call :=
  EmptyAccount (address (this_masterAccount (config s)))
    (mkAccount a undefined) (this_feeTokenAddress (config s)) td.

(** What [delete(a)] leaves in the store when the drain succeeded. *)
Definition after_delete (a : string) (storage : BurnerStorage) : BurnerStorage :=
  let storage' := remove_burner a storage in
  match keys storage' with
  | first :: _ => activate first (deactivate_all storage')
  | [] => storage'
  end.

(** A store a JS object can be, with at most one burner marked active. *)
Definition well_formed (storage : BurnerStorage) : Prop :=
  NoDup (keys storage) ∧ at_most_one_active storage.

(** What the settling of the [delete]s of a [clear] keeps: the fields of
    the manager that name the store, and every other key of local
    storage. *)
Definition keeps (s s' : State) : Prop :=
  config s' = config s
  ∧ this_chainId s' = this_chainId s
  ∧ this_isInitialized s' = this_isInitialized s
  ∧ delete (burner_key s) (localStorage s') = delete (burner_key s) (localStorage s).

(** What a computation that only talks to the outside world keeps. *)
Definition only_calls (s s' : State) : Prop :=
  config s' = config s
  ∧ this_chainId s' = this_chainId s
  ∧ this_account s' = this_account s
  ∧ this_isInitialized s' = this_isInitialized s
  ∧ localStorage s' = localStorage s.

Definition awaiting (p : BurnerManager.Pending) : Prop :=
  match p with
  | BurnerManager.Awaiting _ _ _ => True
  | BurnerManager.Rejected _ => False
  end.

(** The suspended [delete] holds a store a JS object can be. *)
Definition snapshot_ok (p : BurnerManager.Pending) : Prop :=
  match p with
  | BurnerManager.Awaiting _ storage _ => NoDup (keys storage)
  | BurnerManager.Rejected _ => True
  end.

(** The calls of [prefundAccount], given what the previous ones resolved
    to. *)
Definition prefund_execute (starknet : Starknet) (to : string)
    (account : Account) (feeTokenAddress amount : string)
    (td : option InvocationsDetails) (n : string) : Call :=
  Execute account
    [mkCall feeTokenAddress "transfer"
       (CallData_compile starknet [to; amount; "0x0"])]
    (with_details (Some n) td).

Definition prefund_wait (account : Account) (tx : string) : Call :=
  WaitForTransaction account tx (mkWait 1000 (Some ["ACCEPTED_ON_L2"])).

(** The keys [generateKeysAndAddress] builds around a private key: the
    public key the SDK derives from it and the address the SDK computes
    from the public key and the class hash. *)
Definition keys_of (starknet : Starknet) (accountClassHash privateKey : string)
  : BurnerKeys :=
  let publicKey := getStarkKey starknet privateKey in
  mkKeys privateKey publicKey
    (calculateContractAddressFromHash starknet publicKey accountClassHash
       (CallData_compile starknet [publicKey]) 0).


(** C3 as it is worded, of the runs of [create(options)] from [s]: when
    it returns, the new address holds a record of the new burner, marked
    active, every burner stored before is stored with [active] false, and
    [this.account] is the returned account. *)
Definition persists_with_others_inactive (world : Oracle) (starknet : Starknet)
    (derive : string → Z → string) (options : BurnerCreateOptions) (s : State)
  : Prop :=
  ∀ burner s',
    BurnerManager.create world starknet derive options s = (Ok burner, s') →
    (∃ b, lookup_burner (address burner) (stored s') = Some b
          ∧ chainId b = this_chainId s
          ∧ signer burner = privateKey b
          ∧ masterAccount b = address (this_masterAccount (config s))
          ∧ active b = true)
    ∧ (∀ a b, lookup_burner a (stored s) = Some b →
         ∃ b', lookup_burner a (stored s') = Some b' ∧ active b' = false)
    ∧ this_account s' = Some burner.



(** Every run of [m] relates the state it starts from to the one it ends
    in, whether it returns or throws. *)
Definition steps (R : State → State → Prop) {A} (m : M A) : Prop :=
  ∀ s r s', m s = (r, s') → R s s'.

(** The run only added to the trace, and only events that satisfy [P]. *)
Definition emits (P : Event → Prop) (s s' : State) : Prop :=
  ∃ evs, trace s' = (trace s ++ evs)%list ∧ Forall P evs.

Definition not_deploy (e : Event) : Prop :=
  match e with
  | Called (DeployAccount _ _ _) => False
  | _ => True
  end.

Definition not_execute (e : Event) : Prop :=
  match e with
  | Called (Execute _ _ _) => False
  | _ => True
  end.

(** Every object held in local storage is a store a JS object can be, with
    at most one burner marked active. *)
Definition all_well_formed (s : State) : Prop :=
  ∀ key storage, localStorage s !! key = Some storage → well_formed storage.

(** What [JSON.parse] returns is an object, and no burner of it sits under
    the empty string. *)
Definition parses_addresses (starknet : Starknet) : Prop :=
  ∀ text burners, JSON_parse starknet text = Ok burners →
    NoDup (keys burners) ∧ "" ∉ keys burners.

(** The run left [this.isInitialized] as it was. *)
Definition same_flag (s s' : State) : Prop :=
  this_isInitialized s' = this_isInitialized s.

(** The outward calls of a trace, in order. *)
Definition calls_of (t : list Event) : list Call :=
  omap (λ e, match e with Called c => Some c | _ => None end) t.

(** What a run added to the trace. *)
Definition new_events (s s' : State) : list Event :=
  drop (length (trace s)) (trace s').

(** ** Concrete worlds, for the examples *)

(** A world that refuses the calls [fails] selects and resolves the
    others. *)
Definition answer (c : Call) : Resp c :=
  match c with
  | GetChainId => "KATANA"
  | GetNonce _ => "0x7"
  | Execute _ _ _ => "0xtransfer"
  | WaitForTransaction _ _ _ => Some "receipt"
  | DeployAccount _ _ _ => "0xdeploy"
  | GetTransactionReceipt _ _ => Some "receipt"
  | EmptyAccount _ _ _ _ => tt
  | RandomAddress => "0xrandom"
  | SetIsDeployingCallback _ => tt
  | AfterDeployingCallback _ _ => tt
  | ClipboardReadText => "pasted"
  end.

Definition world_failing (fails : Call → bool) : Oracle :=
  λ _ c, if fails c then Throw "rejected" else Ok (answer c).

Definition world_ok : Oracle := world_failing (λ _, false).

(** The master account cannot pay: its transfer is refused. *)
Definition world_no_funds : Oracle :=
  world_failing (λ c, match c with Execute _ _ _ => true | _ => false end).

(** The drain of every burner fails. *)
Definition world_no_drain : Oracle :=
  world_failing (λ c, match c with EmptyAccount _ _ _ _ => true | _ => false end).

Definition burner_0x1 : BurnerRecord :=
  mkBurnerRecord "KATANA" "0xk1" "0xp1" "0xt1" "0xmaster" true None None.
Definition burner_0x2 : BurnerRecord :=
  mkBurnerRecord "KATANA" "0xk2" "0xp2" "0xt2" "0xother" false None None.

(** What the clipboard holds in the examples: two burners marked active,
    the first one under the empty string. *)
Definition pasted : BurnerStorage :=
  [("", burner_0x1); ("0x2", set_active true burner_0x2)].

Definition katana : Starknet :=
  mkStarknet (λ x, x) (λ k, "pub" +:+ k) (λ salt _ _ _, "0x" +:+ salt) (λ l, l)
    (λ text, if String.eqb text "pasted" then Ok pasted
             else Throw "SyntaxError")
    (λ salt _ _ _, ex_intro _ salt eq_refl).

Definition derive_example (seed : string) (i : Z) : string := "0xkey" +:+ seed.

Definition config_example : Config :=
  mkConfig (mkAccount "0xmaster" "0xmasterkey") "0xclass" "0xfee" false false.

(** A fresh manager over a store of two burners, and the same after
    [init()]. *)
Definition manager_new : State :=
  new_BurnerManager config_example
    {[ "burners_KATANA" := [("0x1", burner_0x1); ("0x2", burner_0x2)] ]}.

Definition manager_ready : State :=
  (BurnerManager.init world_ok katana false manager_new).2.

(** A manager initialized over an empty local storage. *)
Definition manager_empty : State :=
  mkState config_example "KATANA" None false true ∅ [] [].

(** ** More notions used in the statements *)

(** The run left the field [f] of the state as it was. *)
Definition preserves {X} (f : State → X) (s s' : State) : Prop := f s' = f s.

(** When [m] throws, the state it throws from is related to the one it
    started from. *)
Definition throws_within (R : State → State → Prop) {A} (m : M A) : Prop :=
  ∀ s e s', m s = (Throw e, s') → R s s'.

Definition never_throws {A} (m : M A) : Prop :=
  ∀ s r s', m s = (r, s') → ∃ a, r = Ok a.

(** Every run of [m] ends with a result and in a state that satisfy [Q]. *)
Definition ensures {A} (Q : Result A → State → Prop) (m : M A) : Prop :=
  ∀ s r s', m s = (r, s') → Q r s'.

(** What [getTransactionReceipt] answers for a transaction does not change
    over time: [deployed tx] tells whether it resolves to a receipt. *)
Definition stable_receipts (world : Oracle) (master : Account)
    (deployed : string → bool) : Prop :=
  ∀ h tx,
    deployed tx = match world h (GetTransactionReceipt master tx) with
                  | Ok (Some _) => true
                  | _ => false
                  end.

(** The stored burners whose deploy transaction has a receipt. *)
Definition deployed_burners (deployed : string → bool) (storage : BurnerStorage)
  : BurnerStorage :=
  List.filter (λ kb, deployed (deployTx kb.2)) storage.

(** The account of the first burner marked active, as
    [setActiveBurnerAccount] and [getActiveAccount] build it. *)
Definition active_account (storage : BurnerStorage) : option Account :=
  match BurnerManager.first_active storage with
  | Some (a, b) => Some (mkAccount a (privateKey b))
  | None => None
  end.


(** ** More concrete worlds *)

(** The deployment of every account is refused. *)
Definition world_no_deploy : Oracle :=
  world_failing (λ c, match c with DeployAccount _ _ _ => true | _ => false end).

(** The node knows no receipt: it was restarted since the burners were
    deployed. *)
Definition world_no_receipts : Oracle :=
  world_failing
    (λ c, match c with GetTransactionReceipt _ _ => true | _ => false end).

(** A burner derived from a seed. *)
Definition options_seed : BurnerCreateOptions :=
  mkOptions (Some "seed") None None None None.
(** * Properties *)

(** ** The dictionary *)

Section Dictionary.

Implicit Types (s : BurnerStorage) (a k : string) (b : BurnerRecord).

Lemma lookup_burner_Some_elem a s b :
  lookup_burner a s = Some b → (a, b) ∈ s.
Proof.
  induction s as [|[k b'] s IH]; simpl; [done|].
  destruct (String.eqb k a) eqn:E.
  - apply String.eqb_eq in E as ->. intros [= ->]. left.
  - intros H. right. auto.
Qed.

Lemma lookup_burner_None a s : lookup_burner a s = None ↔ a ∉ keys s.
Proof.
  unfold keys. induction s as [|[k b'] s IH]; simpl.
  - split; [intros _ H'; by apply elem_of_nil in H' | done].
  - rewrite not_elem_of_cons. destruct (String.eqb k a) eqn:E.
    + apply String.eqb_eq in E as ->. split; [done | tauto].
    + apply String.eqb_neq in E. rewrite IH. simpl.
      split; [intros ?; split; [congruence | done] | tauto].
Qed.

Lemma lookup_burner_is_Some a s : is_Some (lookup_burner a s) ↔ a ∈ keys s.
Proof.
  destruct (lookup_burner a s) eqn:E.
  - split; [intros _ | eauto].
    destruct (decide (a ∈ keys s)) as [|n]; [done|].
    apply lookup_burner_None in n. congruence.
  - split; [intros [? ?]; done | intros H].
    apply lookup_burner_None in E. done.
Qed.

Lemma elem_lookup_burner a b s :
  NoDup (keys s) → (a, b) ∈ s → lookup_burner a s = Some b.
Proof.
  unfold keys. induction s as [|[k b'] s IH]; simpl; intros ND H.
  - by apply elem_of_nil in H.
  - apply NoDup_cons in ND as [Hk ND]. apply elem_of_cons in H as [[= <- <-]|H].
    + by rewrite String.eqb_refl.
    + destruct (String.eqb k a) eqn:E; [|auto].
      apply String.eqb_eq in E as ->. exfalso. apply Hk.
      apply list_elem_of_fmap. by exists (a, b).
Qed.

Lemma keys_deactivate_all s : keys (deactivate_all s) = keys s.
Proof.
  unfold keys, deactivate_all. induction s as [|[k b] s IH]; simpl; [done|].
  by f_equal.
Qed.

Lemma keys_activate a s : keys (activate a s) = keys s.
Proof.
  unfold keys, activate. induction s as [|[k b] s IH]; simpl; [done|].
  f_equal; [by destruct (String.eqb k a) | done].
Qed.

Lemma lookup_deactivate_all a s :
  lookup_burner a (deactivate_all s) = set_active false <$> lookup_burner a s.
Proof.
  induction s as [|[k b] s IH]; simpl; [done|].
  by destruct (String.eqb k a).
Qed.

Lemma lookup_activate a k s :
  lookup_burner k (activate a s)
  = (if String.eqb k a then set_active true else (λ b, b)) <$> lookup_burner k s.
Proof.
  induction s as [|[k' b] s IH]; simpl; [done|].
  destruct (String.eqb k' a) eqn:E1; simpl;
    destruct (String.eqb k' k) eqn:E2; simpl; try done.
  - apply String.eqb_eq in E1 as ->. apply String.eqb_eq in E2 as ->.
    by rewrite String.eqb_refl.
  - apply String.eqb_eq in E2 as ->. by rewrite E1.
Qed.

Lemma count_active_cons k b s :
  count_active ((k, b) :: s)
  = ((if active b then 1 else 0) + count_active s)%nat.
Proof. unfold count_active. simpl. by destruct (active b). Qed.

Lemma count_active_deactivate_all s : count_active (deactivate_all s) = 0%nat.
Proof.
  induction s as [|[k b] s IH]; [done|].
  change (deactivate_all ((k, b) :: s))
    with ((k, set_active false b) :: deactivate_all s).
  rewrite count_active_cons, IH. done.
Qed.

Lemma activate_absent a s : a ∉ keys s → activate a s = s.
Proof.
  unfold keys, activate. induction s as [|[k b] s IH]; simpl; [done|].
  rewrite not_elem_of_cons. intros [Hne H]. rewrite IH by done.
  destruct (String.eqb k a) eqn:E; [|done].
  apply String.eqb_eq in E. congruence.
Qed.

(** After the loop that clears every flag, setting the flag of one present
    key leaves exactly one active entry. *)
Lemma count_active_select a s :
  NoDup (keys s) → a ∈ keys s →
  count_active (activate a (deactivate_all s)) = 1%nat.
Proof.
  unfold keys. induction s as [|[k b] s IH]; simpl; intros ND H.
  - by apply elem_of_nil in H.
  - apply NoDup_cons in ND as [Hk ND].
    change (activate a (deactivate_all ((k, b) :: s)))
      with ((if String.eqb k a then (k, set_active true (set_active false b))
             else (k, set_active false b)) :: activate a (deactivate_all s)).
    destruct (String.eqb k a) eqn:E.
    + apply String.eqb_eq in E as ->. rewrite count_active_cons. simpl.
      rewrite activate_absent by (by rewrite keys_deactivate_all).
      by rewrite count_active_deactivate_all.
    + apply String.eqb_neq in E. rewrite count_active_cons. simpl.
      apply elem_of_cons in H as [->|H]; [done|]. auto.
Qed.

Lemma keys_remove_burner a s :
  keys (remove_burner a s) = List.filter (λ k, negb (String.eqb k a)) (keys s).
Proof.
  unfold keys, remove_burner. induction s as [|[k b] s IH]; simpl; [done|].
  destruct (String.eqb k a); simpl; [done | by f_equal].
Qed.

Lemma NoDup_filter_bool {A} (f : A → bool) (l : list A) :
  NoDup l → NoDup (List.filter f l).
Proof.
  induction 1 as [|x l Hx ND IH]; simpl; [constructor|].
  destruct (f x); [|done]. constructor; [|done].
  rewrite list_elem_of_In, filter_In, <- list_elem_of_In. tauto.
Qed.

Lemma NoDup_remove_burner a s :
  NoDup (keys s) → NoDup (keys (remove_burner a s)).
Proof. rewrite keys_remove_burner. apply NoDup_filter_bool. Qed.

Lemma lookup_remove_burner a k s :
  lookup_burner k (remove_burner a s)
  = if String.eqb k a then None else lookup_burner k s.
Proof.
  unfold remove_burner. induction s as [|[k' b] s IH]; simpl.
  - by destruct (String.eqb k a).
  - destruct (String.eqb k' a) eqn:E1; simpl.
    + rewrite IH. destruct (String.eqb k a) eqn:E2; [done|].
      destruct (String.eqb k' k) eqn:E3; [|done].
      apply String.eqb_eq in E1, E3. apply String.eqb_neq in E2. congruence.
    + rewrite IH. destruct (String.eqb k' k) eqn:E3; [|done].
      apply String.eqb_eq in E3 as ->. by rewrite E1.
Qed.

Lemma count_active_remove_burner a s :
  (count_active (remove_burner a s) ≤ count_active s)%nat.
Proof.
  unfold remove_burner. induction s as [|[k b] s IH]; simpl; [done|].
  rewrite count_active_cons. destruct (negb (String.eqb k a)).
  - rewrite count_active_cons. lia.
  - lia.
Qed.

Lemma lookup_assign_burner a b k s :
  lookup_burner k (assign_burner a b s)
  = if String.eqb k a then Some b else lookup_burner k s.
Proof.
  induction s as [|[k' b'] s IH]; simpl.
  - rewrite (String.eqb_sym a k). by destruct (String.eqb k a).
  - destruct (String.eqb k' a) eqn:E1; simpl.
    + apply String.eqb_eq in E1 as ->. rewrite (String.eqb_sym a k).
      by destruct (String.eqb k a).
    + destruct (String.eqb k' k) eqn:E2; [|done].
      apply String.eqb_eq in E2 as ->. by rewrite E1.
Qed.

Lemma count_active_assign_burner a b s :
  count_active s = 0%nat →
  count_active (assign_burner a b s) = if active b then 1%nat else 0%nat.
Proof.
  induction s as [|[k b'] s IH]; simpl.
  - intros _. rewrite count_active_cons. unfold count_active. simpl.
    destruct (active b); done.
  - rewrite count_active_cons. intros H.
    destruct (active b') eqn:Eb; [simpl in H; lia|]. simpl in H.
    destruct (String.eqb k a).
    + rewrite count_active_cons, H. destruct (active b); done.
    + rewrite count_active_cons, Eb. simpl. auto.
Qed.

Lemma keys_assign_burner a b s :
  keys (assign_burner a b s) = if bool_decide (a ∈ keys s) then keys s
                               else (keys s ++ [a])%list.
Proof.
  induction s as [|[k b'] s IH]; [done|].
  change (keys ((k, b') :: s)) with (k :: keys s).
  simpl. destruct (String.eqb k a) eqn:E.
  - apply String.eqb_eq in E as ->. rewrite bool_decide_eq_true_2; [done|left].
  - apply String.eqb_neq in E.
    change (keys ((k, b') :: assign_burner a b s))
      with (k :: keys (assign_burner a b s)).
    rewrite IH. destruct (bool_decide (a ∈ keys s)) eqn:Ed.
    + apply bool_decide_eq_true in Ed.
      rewrite bool_decide_eq_true_2; [done | by right].
    + apply bool_decide_eq_false in Ed.
      rewrite bool_decide_eq_false_2; [done|].
      rewrite not_elem_of_cons. split; [congruence | done].
Qed.

Lemma NoDup_assign_burner a b s :
  NoDup (keys s) → NoDup (keys (assign_burner a b s)).
Proof.
  intros ND. rewrite keys_assign_burner. case_bool_decide as H; [done|].
  apply NoDup_app. split_and!; [done | | apply NoDup_singleton].
  intros x Hx Hx'. apply list_elem_of_singleton in Hx' as ->. done.
Qed.

Lemma first_active_elem s a b :
  BurnerManager.first_active s = Some (a, b) → (a, b) ∈ s ∧ active b = true.
Proof.
  induction s as [|[k b'] s IH]; simpl; [done|].
  destruct (active b') eqn:E.
  - intros [= -> ->]. split; [left | done].
  - intros H. destruct (IH H). split; [by right | done].
Qed.

Lemma first_active_None s :
  BurnerManager.first_active s = None → count_active s = 0%nat.
Proof.
  induction s as [|[k b'] s IH]; simpl; [done|].
  rewrite count_active_cons. destruct (active b'); [done | auto].
Qed.

End Dictionary.

(** ** Reading and writing the store *)

Section Store.

Lemma getBurnerStorage_eq (s : State) :
  BurnerManager.getBurnerStorage s = (Ok (stored s), s).
Proof. reflexivity. Qed.

Lemma stored_same (s s' : State) :
  this_chainId s' = this_chainId s → localStorage s' = localStorage s →
  stored s' = stored s.
Proof. unfold stored, burner_key. by intros -> ->. Qed.

Lemma stored_written (s' : State) (k : string) (v : BurnerStorage) l :
  burner_key s' = k → localStorage s' = <[k := v]> l → stored s' = v.
Proof. unfold stored. intros -> ->. by rewrite lookup_insert_eq. Qed.

Lemma stored_removed (s' : State) (k : string) l :
  burner_key s' = k → localStorage s' = delete k l → stored s' = [].
Proof. unfold stored. intros -> ->. by rewrite lookup_delete_eq. Qed.

End Store.

(** Run the monad one layer at a time: the reading of the store is kept
    folded as [stored], everything else is unfolded. *)
Ltac state_simpl :=
  cbn [config this_chainId this_account this_isDeploying this_isInitialized
       localStorage trace console set_chainId set_account set_isDeploying
       set_isInitialized set_localStorage set_trace set_console fst snd
       Resp] in *.

Ltac mrun :=
  repeat first
    [ rewrite getBurnerStorage_eq
    | progress cbv beta iota zeta
    | progress unfold bind, ret, throw, gets, modify, emit, try_catch,
        console_log, call, Storage_set, Storage_remove,
        BurnerManager.getBurnerKey, BurnerManager.updateIsDeploying,
        BurnerManager.isBurnerDeployed ].

(** ** select and list *)

(** C4: for an address present in the stored burners, [select] marks that
    burner active and every other one inactive (each entry keeps its other
    fields and its place), writes the result to local storage under the
    burner key and sets [this.account] to an account of that address and of
    its stored private key.  For an absent address that does not name a
    property of [Object.prototype] it throws ["burner not found"] and
    changes nothing.  For an absent address that names one (["toString"],
    ["__proto__"], ...) the guard [!storage[address]] lets it through and
    [select] returns: every stored burner is written back marked inactive,
    [active] is set on the built-in, and [this.account] is an account of
    that address with no private key. *)
Theorem select_marks_exactly_one (a : string) (s : State) :
  (∀ b, lookup_burner a (stored s) = Some b →
     ∃ s', BurnerManager.select a s = (Ok tt, s')
       ∧ (∀ a', lookup_burner a' (stored s')
                = set_active (String.eqb a' a) <$> lookup_burner a' (stored s))
       ∧ keys (stored s') = keys (stored s)
       ∧ (NoDup (keys (stored s)) → count_active (stored s') = 1%nat)
       ∧ localStorage s'
         = <[burner_key s := activate a (deactivate_all (stored s))]> (localStorage s)
       ∧ trace s'
         = (trace s ++ [StorageSet (burner_key s) (stored s')])%list
       ∧ this_account s' = Some (mkAccount a (privateKey b)))
  ∧ (lookup_burner a (stored s) = None →
     if inherited a
     then ∃ s', BurnerManager.select a s = (Ok tt, s')
            ∧ (∀ a', lookup_burner a' (stored s')
                     = set_active false <$> lookup_burner a' (stored s))
            ∧ keys (stored s') = keys (stored s)
            ∧ count_active (stored s') = 0%nat
            ∧ localStorage s'
              = <[burner_key s := deactivate_all (stored s)]> (localStorage s)
            ∧ trace s'
              = (trace s ++ [BuiltinSetActive a;
                             StorageSet (burner_key s) (stored s')])%list
            ∧ this_account s' = Some (mkAccount a undefined)
     else BurnerManager.select a s = (Throw "burner not found", s)).
Proof.
  split.
  - intros b Hb. eexists. split.
    { unfold BurnerManager.select, bind. rewrite getBurnerStorage_eq, Hb.
      reflexivity. }
    erewrite stored_written; [|reflexivity|reflexivity].
    split_and!; try reflexivity.
    + intros a'. rewrite lookup_activate, lookup_deactivate_all.
      destruct (lookup_burner a' (stored s)) as [b'|]; [|done]. simpl.
      destruct (String.eqb a' a); reflexivity.
    + by rewrite keys_activate, keys_deactivate_all.
    + intros ND. apply count_active_select; [done|].
      apply lookup_burner_is_Some. eauto.
  - intros Hn. destruct (inherited a) eqn:Hi.
    + eexists. split.
      { unfold BurnerManager.select, bind.
        rewrite getBurnerStorage_eq, Hn, Hi. reflexivity. }
      erewrite stored_written; [|reflexivity|reflexivity].
      split_and!; try reflexivity.
      * intros a'. by rewrite lookup_deactivate_all.
      * by rewrite keys_deactivate_all.
      * apply count_active_deactivate_all.
      * state_simpl. by rewrite <- app_assoc.
    + unfold BurnerManager.select, bind.
      rewrite getBurnerStorage_eq, Hn, Hi. reflexivity.
Qed.

Lemma filter_map_comm {A B} (f : A → B) (p : B → bool) (l : list A) :
  List.filter p (map f l) = map f (List.filter (λ x, p (f x)) l).
Proof.
  induction l as [|x l IH]; simpl; [done|].
  destruct (p (f x)); simpl; by rewrite IH.
Qed.

Lemma list_eq (s : State) :
  BurnerManager.list s
  = (Ok (BurnerManager.to_burner
           <$> owned_by (address (this_masterAccount (config s))) (stored s)), s).
Proof.
  unfold BurnerManager.list, bind. rewrite getBurnerStorage_eq.
  unfold gets, ret. rewrite filter_map_comm. reflexivity.
Qed.

(** C5: [list()] returns, in the order of the store, one entry for each
    stored burner whose recorded [masterAccount] is the address of the
    current master account, carrying that burner's address, [active],
    [masterAccount] and [accountIndex], and nothing else; it changes
    nothing. *)
Theorem list_returns_own_burners (s : State) :
  let master := address (this_masterAccount (config s)) in
  ∃ l, BurnerManager.list s = (Ok l, s)
    ∧ l = BurnerManager.to_burner <$> owned_by master (stored s)
    ∧ (∀ burner, burner ∈ l ↔
         ∃ a r, (a, r) ∈ stored s ∧ masterAccount r = master
                ∧ burner = mkBurner a (active r) (masterAccount r) (accountIndex r))
    ∧ (NoDup (keys (stored s)) → NoDup (burner_address <$> l)).
Proof.
  intros master. exists (BurnerManager.to_burner <$> owned_by master (stored s)).
  split_and!.
  - apply list_eq.
  - reflexivity.
  - intros burner. rewrite list_elem_of_fmap. unfold owned_by. split.
    + intros [[a r] [-> H]].
      apply list_elem_of_In, filter_In in H as [H E].
      apply String.eqb_eq in E. apply list_elem_of_In in H.
      exists a, r. done.
    + intros (a & r & H & E & ->). exists (a, r). split; [done|].
      apply list_elem_of_In, filter_In. split; [by apply list_elem_of_In|].
      by apply String.eqb_eq.
  - intros ND. rewrite <- list_fmap_compose.
    assert (Hk : (burner_address ∘ BurnerManager.to_burner <$> owned_by master (stored s))
                 = List.filter (λ _, true) (keys (owned_by master (stored s)))).
    { unfold keys. induction (owned_by master (stored s)) as [|[a r] l IH]; simpl; [done|].
      by f_equal. }
    rewrite Hk. apply NoDup_filter_bool.
    unfold owned_by, keys. clear Hk.
    induction (stored s) as [|[a r] l IH]; simpl; [constructor|].
    apply NoDup_cons in ND as [Ha ND].
    destruct (String.eqb (masterAccount r) master); simpl; [|auto].
    constructor; [|auto]. intros H. apply Ha.
    apply list_elem_of_fmap in H as [[a' r'] [-> H]].
    apply list_elem_of_In, filter_In in H as [H _].
    apply list_elem_of_fmap. exists (a', r'). split; [done | by apply list_elem_of_In].
Qed.


(** ** delete *)

Section Delete.

Variable world : Oracle.

Lemma delete_begin_absent a td s :
  lookup_burner a (stored s) = None →
  inherited a = false →
  BurnerManager.delete_begin world a td s
  = (BurnerManager.Rejected "burner not found", s).
Proof.
  intros H Hi. unfold BurnerManager.delete_begin.
  rewrite getBurnerStorage_eq. cbv zeta. rewrite H, Hi. reflexivity.
Qed.

Lemma delete_begin_builtin a td s :
  lookup_burner a (stored s) = None →
  inherited a = true →
  BurnerManager.delete_begin world a td s
  = (BurnerManager.Awaiting a (stored s)
       (world (trace s) (drain_of_builtin s a td)),
     set_trace (trace s ++ [Called (drain_of_builtin s a td)]) s).
Proof.
  intros H Hi. unfold BurnerManager.delete_begin.
  unfold BurnerManager.get. repeat (mrun; rewrite ?H, ?Hi). reflexivity.
Qed.

Lemma delete_begin_present a b td s :
  lookup_burner a (stored s) = Some b →
  BurnerManager.delete_begin world a td s
  = (BurnerManager.Awaiting a (stored s) (world (trace s) (drain_of s a b td)),
     set_trace (trace s ++ [Called (drain_of s a b td)]) s).
Proof.
  intros H. unfold BurnerManager.delete_begin.
  unfold BurnerManager.get. repeat (mrun; rewrite ?H). reflexivity.
Qed.

Lemma lookup_first k (storage : BurnerStorage) rest :
  keys storage = k :: rest → is_Some (lookup_burner k storage).
Proof.
  intros H. apply lookup_burner_is_Some. rewrite H. left.
Qed.

Lemma delete_resume_failed a storage e s :
  BurnerManager.delete_resume a storage (Throw e) s
  = (Ok tt,
     set_console
       (console s ++ ["burner manager delete() while emptying account error: " +:+ e])
       s).
Proof. reflexivity. Qed.

Lemma delete_resume_drained a storage u s :
  ∃ s', BurnerManager.delete_resume a storage (Ok u) s = (Ok tt, s')
    ∧ config s' = config s
    ∧ this_chainId s' = this_chainId s
    ∧ this_isInitialized s' = this_isInitialized s
    ∧ localStorage s' = <[burner_key s := after_delete a storage]> (localStorage s)
    ∧ ∃ rest, trace s'
        = (trace s ++ StorageSet (burner_key s) (remove_burner a storage) :: rest)%list.
Proof.
  unfold BurnerManager.delete_resume, after_delete.
  destruct (keys (remove_burner a storage)) as [|first others] eqn:Ek.
  - eexists. split; [reflexivity|]. split_and!; try reflexivity.
    by exists [].
  - destruct (lookup_first _ _ _ Ek) as [b Hb].
    eexists. split.
    { unfold BurnerManager.select. mrun.
      erewrite stored_written; [|reflexivity|reflexivity].
      rewrite Hb. reflexivity. }
    split_and!; try reflexivity.
    + cbn. apply insert_insert_eq.
    + eexists. cbn. rewrite <- app_assoc. reflexivity.
Qed.

Lemma keys_after_delete a storage :
  keys (after_delete a storage) = keys (remove_burner a storage).
Proof.
  unfold after_delete.
  destruct (keys (remove_burner a storage)) eqn:E; [done|].
  by rewrite keys_activate, keys_deactivate_all.
Qed.

Lemma lookup_after_delete a storage :
  lookup_burner a (after_delete a storage) = None.
Proof.
  apply lookup_burner_None. rewrite keys_after_delete.
  intros H. apply lookup_burner_is_Some in H as [b H].
  rewrite lookup_remove_burner, String.eqb_refl in H. done.
Qed.

Lemma remove_burner_absent a (storage : BurnerStorage) :
  lookup_burner a storage = None → remove_burner a storage = storage.
Proof.
  unfold remove_burner. induction storage as [|[k b] l IH]; simpl; [done|].
  destruct (String.eqb k a); [done|]. intros H. by rewrite IH.
Qed.

(** C2: on a stored address [delete(address)] first asks for the drain of
    the burner to the master account; when the drain throws, [delete]
    returns normally, local storage is what it was and the burner is still
    stored; when the drain succeeds, the first write to local storage comes
    after the drain and stores the burners without that address, and the
    address is not stored when [delete] returns.  On an address that is
    not stored and does not name a property of [Object.prototype] it
    throws ["burner not found"] and changes nothing.  On an address that
    is not stored and names one (["__proto__"], ["toString"], ...) the
    guard [!storage[address]] lets it through: [delete] does not throw, it
    asks for the drain of an account of that address with no private key
    and, when that succeeds, writes the burners back, all of them, with
    the first one selected. *)
Theorem delete_drains_before_removing a td s :
  (lookup_burner a (stored s) = None →
     if inherited a
     then
       (∀ e, world (trace s) (drain_of_builtin s a td) = Throw e →
          ∃ s', BurnerManager.delete world a td s = (Ok tt, s')
            ∧ localStorage s' = localStorage s
            ∧ this_account s' = this_account s
            ∧ trace s' = (trace s ++ [Called (drain_of_builtin s a td)])%list)
       ∧ (∀ u, world (trace s) (drain_of_builtin s a td) = Ok u →
          ∃ s' rest, BurnerManager.delete world a td s = (Ok tt, s')
            ∧ localStorage s'
              = <[burner_key s := after_delete a (stored s)]> (localStorage s)
            ∧ keys (stored s') = keys (stored s)
            ∧ trace s'
              = (trace s ++ Called (drain_of_builtin s a td)
                   :: StorageSet (burner_key s) (stored s) :: rest)%list)
     else BurnerManager.delete world a td s = (Throw "burner not found", s))
  ∧ (∀ b, lookup_burner a (stored s) = Some b →
       (∀ e, world (trace s) (drain_of s a b td) = Throw e →
          ∃ s', BurnerManager.delete world a td s = (Ok tt, s')
            ∧ localStorage s' = localStorage s
            ∧ lookup_burner a (stored s') = Some b
            ∧ this_account s' = this_account s
            ∧ trace s' = (trace s ++ [Called (drain_of s a b td)])%list)
       ∧ (∀ u, world (trace s) (drain_of s a b td) = Ok u →
          ∃ s' rest, BurnerManager.delete world a td s = (Ok tt, s')
            ∧ localStorage s'
              = <[burner_key s := after_delete a (stored s)]> (localStorage s)
            ∧ lookup_burner a (stored s') = None
            ∧ keys (stored s')
              = List.filter (λ k, negb (String.eqb k a)) (keys (stored s))
            ∧ trace s'
              = (trace s ++ Called (drain_of s a b td)
                   :: StorageSet (burner_key s) (remove_burner a (stored s))
                   :: rest)%list)).
Proof.
  split; [|intros b Hb; split].
  - intros H. destruct (inherited a) eqn:Hi; [split|].
    + intros e He. unfold BurnerManager.delete.
      rewrite (delete_begin_builtin _ _ _ H Hi), He.
      cbn [BurnerManager.settle]. rewrite delete_resume_failed.
      eexists. split; [reflexivity|]. split_and!; reflexivity.
    + intros u Hu. unfold BurnerManager.delete.
      rewrite (delete_begin_builtin _ _ _ H Hi), Hu.
      cbn [BurnerManager.settle].
      destruct (delete_resume_drained a (stored s) u
                  (set_trace (trace s ++ [Called (drain_of_builtin s a td)]) s))
        as (s' & Hrun & _ & Hc & _ & Hl & rest & Ht).
      exists s', rest. split; [exact Hrun|]. state_simpl. split_and!.
      * exact Hl.
      * erewrite (stored_written s'); [| | exact Hl].
        -- by rewrite keys_after_delete, remove_burner_absent.
        -- unfold burner_key. by rewrite Hc.
      * rewrite Ht, <- app_assoc, remove_burner_absent by done. reflexivity.
    + unfold BurnerManager.delete. by rewrite delete_begin_absent.
  - intros e He. unfold BurnerManager.delete.
    rewrite (delete_begin_present _ _ _ _ Hb), He.
    cbn [BurnerManager.settle]. rewrite delete_resume_failed.
    eexists. split; [reflexivity|]. split_and!; try reflexivity.
    erewrite stored_same; [exact Hb | reflexivity | reflexivity].
  - intros u Hu. unfold BurnerManager.delete.
    rewrite (delete_begin_present _ _ _ _ Hb), Hu.
    cbn [BurnerManager.settle].
    destruct (delete_resume_drained a (stored s) u
                (set_trace (trace s ++ [Called (drain_of s a b td)]) s))
      as (s' & Hrun & _ & Hc & _ & Hl & rest & Ht).
    exists s', rest. split; [exact Hrun|]. state_simpl. split_and!.
    + exact Hl.
    + erewrite (stored_written s'); [apply lookup_after_delete | | exact Hl].
      unfold burner_key. by rewrite Hc.
    + erewrite (stored_written s'); [| | exact Hl].
      * by rewrite keys_after_delete, keys_remove_burner.
      * unfold burner_key. by rewrite Hc.
    + rewrite Ht, <- app_assoc. reflexivity.
Qed.

End Delete.

(** ** clear *)

Lemma well_formed_nil : well_formed [].
Proof. split; [constructor | unfold at_most_one_active, count_active; simpl; lia]. Qed.

Lemma well_formed_remove a storage :
  well_formed storage → well_formed (remove_burner a storage).
Proof.
  intros [ND H]. split; [by apply NoDup_remove_burner|].
  unfold at_most_one_active in *.
  pose proof (count_active_remove_burner a storage). lia.
Qed.

Lemma well_formed_select a storage :
  NoDup (keys storage) → a ∈ keys storage →
  well_formed (activate a (deactivate_all storage)).
Proof.
  intros ND H. split.
  - by rewrite keys_activate, keys_deactivate_all.
  - unfold at_most_one_active. by rewrite count_active_select.
Qed.

Lemma well_formed_deactivate storage :
  NoDup (keys storage) → well_formed (deactivate_all storage).
Proof.
  intros ND. split; [by rewrite keys_deactivate_all|].
  unfold at_most_one_active. rewrite count_active_deactivate_all. lia.
Qed.

Lemma well_formed_after_delete a storage :
  NoDup (keys storage) → well_formed (after_delete a storage).
Proof.
  intros ND. unfold after_delete.
  destruct (keys (remove_burner a storage)) as [|first rest] eqn:E.
  - split; [rewrite E; constructor|].
    destruct (remove_burner a storage); [|done].
    unfold at_most_one_active, count_active. simpl. lia.
  - apply well_formed_select; [by apply NoDup_remove_burner|].
    rewrite E. left.
Qed.

Lemma keeps_refl s : keeps s s.
Proof. by repeat split. Qed.

Lemma keeps_key s s' : keeps s s' → burner_key s' = burner_key s.
Proof. intros (_ & H & _). unfold burner_key. by rewrite H. Qed.

Lemma keeps_trans s1 s2 s3 : keeps s1 s2 → keeps s2 s3 → keeps s1 s3.
Proof.
  intros H12 H23. pose proof (keeps_key _ _ H12) as Hk.
  destruct H12 as (A1 & A2 & A3 & A4), H23 as (B1 & B2 & B3 & B4).
  rewrite Hk in B4. repeat split; congruence.
Qed.

Section Clear.

Variable world : Oracle.

Lemma settle_awaiting p s :
  awaiting p →
  ∃ s', BurnerManager.settle p s = (Ok tt, s') ∧ keeps s s'
    ∧ (snapshot_ok p → well_formed (stored s) → well_formed (stored s')).
Proof.
  destruct p as [e|a storage [u|e]]; [done| |]; intros _; cbn [BurnerManager.settle].
  - destruct (delete_resume_drained a storage u s)
      as (s' & Hrun & Hc & Hi & Hn & Hl & _).
    exists s'. split; [done|]. split.
    + repeat split; try done. rewrite Hl. apply delete_insert_eq.
    + intros ND _. cbn in ND.
      erewrite (stored_written s'); [by apply well_formed_after_delete| |exact Hl].
      unfold burner_key. by rewrite Hi.
  - rewrite delete_resume_failed. eexists. split; [reflexivity|].
    split; [by repeat split|]. intros _ H.
    erewrite stored_same; [exact H | reflexivity | reflexivity].
Qed.

Lemma settle_rest_ok ps s :
  Forall awaiting ps →
  ∃ s', BurnerManager.settle_rest ps s = (Ok tt, s') ∧ keeps s s'
    ∧ (Forall snapshot_ok ps → well_formed (stored s) → well_formed (stored s')).
Proof.
  intros H. revert s. induction H as [|p ps Hp Hps IH]; intros s.
  - exists s. split; [reflexivity|]. split; [apply keeps_refl | auto].
  - destruct (settle_awaiting p s Hp) as (s1 & H1 & K1 & W1).
    destruct (IH s1) as (s2 & H2 & K2 & W2).
    exists s2. split.
    { cbn [BurnerManager.settle_rest]. unfold bind. by rewrite H1. }
    split; [by eapply keeps_trans|].
    intros Hs Hw. apply Forall_cons in Hs as [? ?]. auto.
Qed.

Lemma take_pending_Forall (P : BurnerManager.Pending → Prop) a ps p ps' :
  BurnerManager.take_pending a ps = Some (p, ps') →
  Forall P ps → P p ∧ Forall P ps'.
Proof.
  revert p ps'. induction ps as [|q ps IH]; intros p ps'; simpl; [done|].
  destruct (BurnerManager.is_awaiting a q).
  - intros [= -> ->] H. by apply Forall_cons in H.
  - destruct (BurnerManager.take_pending a ps) as [[q' qs]|]; [|done].
    intros [= -> <-] H. apply Forall_cons in H as [Hq H].
    destruct (IH _ _ eq_refl H). split; [done|]. by constructor.
Qed.

Lemma settle_in_order_ok order ps s :
  Forall awaiting ps →
  ∃ s', BurnerManager.settle_in_order order ps s = (Ok tt, s') ∧ keeps s s'
    ∧ (Forall snapshot_ok ps → well_formed (stored s) → well_formed (stored s')).
Proof.
  revert ps s. induction order as [|a order IH]; intros ps s H.
  - by apply settle_rest_ok.
  - cbn [BurnerManager.settle_in_order].
    destruct (BurnerManager.take_pending a ps) as [[p ps']|] eqn:E; [|by apply IH].
    destruct (take_pending_Forall _ _ _ _ _ E H) as [Hp Hps'].
    destruct (settle_awaiting p s Hp) as (s1 & H1 & K1 & W1).
    destruct (IH ps' s1 Hps') as (s2 & H2 & K2 & W2).
    exists s2. split; [unfold bind; by rewrite H1|].
    split; [by eapply keeps_trans|]. intros Hs Hw.
    destruct (take_pending_Forall _ _ _ _ _ E Hs). auto.
Qed.

Lemma only_calls_stored s s' : only_calls s s' → stored s' = stored s.
Proof. intros (_ & ? & _ & _ & ?). by apply stored_same. Qed.

Lemma start_all_ok addresses td s :
  (∀ a, a ∈ addresses → is_Some (lookup_burner a (stored s))) →
  ∃ ps s1, BurnerManager.start_all world addresses td s = (ps, s1)
    ∧ only_calls s s1 ∧ Forall awaiting ps
    ∧ (NoDup (keys (stored s)) → Forall snapshot_ok ps).
Proof.
  revert s. induction addresses as [|a addresses IH]; intros s H.
  - exists [], s. by repeat split.
  - destruct (H a) as [b Hb]; [left|].
    cbn [BurnerManager.start_all]. rewrite (delete_begin_present _ _ _ _ _ Hb).
    set (s1 := set_trace _ s).
    assert (O1 : only_calls s s1) by by repeat split.
    destruct (IH s1) as (ps & s2 & H2 & O2 & A2 & S2).
    { intros a' Ha'. rewrite (only_calls_stored _ _ O1). apply H. by right. }
    rewrite H2. eexists _, s2. split; [reflexivity|]. split_and!.
    + destruct O1 as (?&?&?&?&?), O2 as (?&?&?&?&?).
      repeat split; congruence.
    + by constructor.
    + intros ND. constructor; [exact ND|]. apply S2.
      by rewrite (only_calls_stored _ _ O1).
Qed.

Lemma clear_begin_ok td s :
  ∃ ps s1, BurnerManager.clear_begin world td s = (ps, s1)
    ∧ only_calls s s1 ∧ Forall awaiting ps
    ∧ (NoDup (keys (stored s)) → Forall snapshot_ok ps).
Proof.
  unfold BurnerManager.clear_begin. rewrite getBurnerStorage_eq.
  apply start_all_ok. intros a. apply lookup_burner_is_Some.
Qed.

Lemma first_rejected_awaiting ps :
  Forall awaiting ps → BurnerManager.first_rejected ps = None.
Proof. induction 1 as [|[e|a st r] ps Hp Hps IH]; simpl; done. Qed.

Lemma clear_finish_ok order ps s :
  Forall awaiting ps →
  ∃ s', BurnerManager.clear_finish order ps s = (Ok tt, s')
    ∧ config s' = config s
    ∧ this_chainId s' = this_chainId s
    ∧ this_isInitialized s' = this_isInitialized s
    ∧ localStorage s' = delete (burner_key s) (localStorage s).
Proof.
  intros H. unfold BurnerManager.clear_finish.
  rewrite (first_rejected_awaiting _ H).
  destruct (settle_in_order_ok order ps s H) as (s1 & H1 & K1 & _).
  pose proof (keeps_key _ _ K1) as Hk. destruct K1 as (Hc & Hi & Hn & Hl).
  eexists. split; [unfold bind at 1; rewrite H1; mrun; reflexivity|].
  state_simpl. rewrite Hk. done.
Qed.

(** [clear] never rejects: no [delete] it starts is rejected, and none
    throws when it resumes. *)
Lemma clear_never_throws td order s :
  ∃ s', BurnerManager.clear world td order s = (Ok tt, s').
Proof.
  unfold BurnerManager.clear.
  destruct (clear_begin_ok td s) as (ps & s1 & H1 & _ & A & _). rewrite H1.
  destruct (clear_finish_ok order ps s1 A) as (s' & H' & _). eauto.
Qed.

(** C6: for every store, whatever the drains answer (some or all may
    throw) and in whatever order they settle, [clear()] resolves, the
    burner key of the current chain is then absent from local storage,
    every other key is as before, and [list()] returns the empty list. *)
Theorem clear_removes_burner_key td order s :
  ∃ s', BurnerManager.clear world td order s = (Ok tt, s')
    ∧ burner_key s' = burner_key s
    ∧ localStorage s' !! burner_key s' = None
    ∧ localStorage s' = delete (burner_key s) (localStorage s)
    ∧ BurnerManager.list s' = (Ok [], s').
Proof.
  unfold BurnerManager.clear.
  destruct (clear_begin_ok td s) as (ps & s1 & H1 & O & A & _). rewrite H1.
  destruct (clear_finish_ok order ps s1 A) as (s' & H' & Hc & Hi & _ & Hl).
  assert (Hk1 : burner_key s1 = burner_key s).
  { destruct O as (_ & E & _). unfold burner_key. by rewrite E. }
  assert (Hk : burner_key s' = burner_key s).
  { unfold burner_key in *. by rewrite Hi. }
  assert (Hl' : localStorage s' = delete (burner_key s) (localStorage s)).
  { rewrite Hl, Hk1. destruct O as (_&_&_&_&->). done. }
  exists s'. split_and!; try done.
  - rewrite Hk, Hl'. apply lookup_delete_eq.
  - rewrite list_eq.
    erewrite stored_removed; [reflexivity | exact Hk | exact Hl'].
Qed.

End Clear.

(** ** prefundAccount *)

Section Prefund.

Variable world : Oracle.
Variable starknet : Starknet.

(** C7: [prefundAccount] calls [getNonce] on the source account; if that
    resolves it calls [execute] with the single call ["transfer"] on the
    fee-token contract, whose calldata is compiled from the destination
    address and the amount, under the nonce it got; if that resolves it
    calls [waitForTransaction] on the hash [execute] returned.  It issues
    nothing else and writes nothing.  It returns the result of the wait
    when that is truthy, throws ["Transaction did not complete
    successfully."] when it is falsy, and rethrows what a call threw. *)
Theorem prefundAccount_calls_in_order to account feeTokenAddress amount td s :
  ∃ out s',
    prefundAccount world starknet to account feeTokenAddress amount td s
    = (out, s')
    ∧ localStorage s' = localStorage s
    ∧ this_account s' = this_account s
    ∧ let h0 := trace s in
      let h1 := (h0 ++ [Called (GetNonce account)])%list in
      match world h0 (GetNonce account) with
      | Throw e => trace s' = h1 ∧ out = Throw e
      | Ok n =>
          let exec := prefund_execute starknet to account feeTokenAddress amount td n in
          let h2 := (h1 ++ [Called exec])%list in
          match world h1 exec with
          | Throw e => trace s' = h2 ∧ out = Throw e
          | Ok tx =>
              trace s' = (h2 ++ [Called (prefund_wait account tx)])%list
              ∧ match world h2 (prefund_wait account tx) with
                | Throw e => out = Throw e
                | Ok None =>
                    out = Throw "Transaction did not complete successfully."
                | Ok (Some result) => out = Ok result
                end
          end
      end.
Proof.
  unfold prefundAccount, transfer_call, prefund_execute, prefund_wait. mrun.
  destruct (world (trace s) (GetNonce account)) as [n|e]; mrun; state_simpl.
  2: { eexists _, _. split; [reflexivity|]. solve [split_and!; try reflexivity]. }
  match goal with |- context [world ?h (Execute ?a ?c ?d)] =>
    destruct (world h (Execute a c d)) as [tx|e] end; mrun; state_simpl.
  2: { eexists _, _. split; [reflexivity|]. solve [split_and!; try reflexivity]. }
  match goal with |- context [world ?h (WaitForTransaction ?a ?c ?d)] =>
    destruct (world h (WaitForTransaction a c d)) as [[r|]|e] end;
    mrun; state_simpl;
    (eexists _, _; split; [reflexivity|]; solve [split_and!; try reflexivity]).
Qed.

End Prefund.

(** ** Computations that keep the store *)

Section Steps.

Context (R : State → State → Prop) `{!PreOrder R}.

Local Abbreviation steps := (steps R).

Lemma steps_ret {A} (a : A) : steps (ret a).
Proof. intros s r s' [= <- <-]. reflexivity. Qed.

Lemma steps_throw {A} e : steps (@throw A e).
Proof. intros s r s' [= <- <-]. reflexivity. Qed.

Lemma steps_gets {A} (f : State → A) : steps (gets f).
Proof. intros s r s' [= <- <-]. reflexivity. Qed.

Lemma steps_bind {A B} (m : M A) (k : A → M B) :
  steps m → (∀ a, steps (k a)) → steps (bind m k).
Proof.
  intros Hm Hk s r s'. unfold bind.
  destruct (m s) as [[a|e] s1] eqn:E.
  - intros H. etrans; [eapply Hm, E | eapply Hk, H].
  - intros [= <- <-]. eapply Hm, E.
Qed.

Lemma steps_try_catch {A} (m : M A) (h : string → M A) :
  steps m → (∀ e, steps (h e)) → steps (try_catch m h).
Proof.
  intros Hm Hh s r s'. unfold try_catch.
  destruct (m s) as [[a|e] s1] eqn:E.
  - intros [= <- <-]. eapply Hm, E.
  - intros H. etrans; [eapply Hm, E | eapply Hh, H].
Qed.

Lemma steps_modify (f : State → State) :
  (∀ s, R s (f s)) → steps (modify f).
Proof. intros H s r s' [= <- <-]. apply H. Qed.

End Steps.

Global Instance only_calls_preorder : PreOrder only_calls.
Proof.
  split.
  - intros s. by repeat split.
  - intros s1 s2 s3 (?&?&?&?&?) (?&?&?&?&?). repeat split; congruence.
Qed.

Lemma only_calls_key s s' : only_calls s s' → burner_key s' = burner_key s.
Proof. intros (_ & H & _). unfold burner_key. by rewrite H. Qed.

Lemma steps_call world c : steps only_calls (call world c).
Proof. intros s r s' [= <- <-]. by repeat split. Qed.

Lemma steps_console_log msg : steps only_calls (console_log msg).
Proof. apply steps_modify. intros s. by repeat split. Qed.

Lemma steps_set_isDeploying b : steps only_calls (modify (set_isDeploying b)).
Proof. apply steps_modify. intros s. by repeat split. Qed.

Ltac frames :=
  repeat first
    [ apply (steps_bind only_calls) | apply (steps_try_catch only_calls)
    | apply (steps_ret only_calls) | apply (steps_throw only_calls)
    | apply (steps_gets only_calls)
    | match goal with |- steps _ (call ?w ?c) => exact (steps_call w c) end
    | apply steps_console_log | apply steps_set_isDeploying
    | match goal with |- ∀ _, _ => intro end ].

Lemma steps_updateIsDeploying world b :
  steps only_calls (BurnerManager.updateIsDeploying world b).
Proof.
  unfold BurnerManager.updateIsDeploying. frames.
  match goal with |- steps _ (if ?cb then _ else _) => destruct cb end; frames.
Qed.

Lemma steps_prefundAccount world starknet to account fee amount td :
  steps only_calls (prefundAccount world starknet to account fee amount td).
Proof.
  unfold prefundAccount. frames.
  match goal with r : Resp _ |- _ => destruct r end; frames.
Qed.

Lemma steps_isBurnerDeployed world tx :
  steps only_calls (BurnerManager.isBurnerDeployed world tx).
Proof. unfold BurnerManager.isBurnerDeployed. frames. Qed.

Lemma steps_generateKeysAndAddress world starknet derive options :
  steps only_calls
    (BurnerManager.generateKeysAndAddress world starknet derive options).
Proof.
  unfold BurnerManager.generateKeysAndAddress. frames.
  destruct (truthy_string (secret options)); frames.
Qed.

(** ** Inversion of runs *)

Lemma bind_Ok_inv {A B} (m : M A) (k : A → M B) s b s' :
  bind m k s = (Ok b, s') →
  ∃ a s1, m s = (Ok a, s1) ∧ k a s1 = (Ok b, s').
Proof.
  unfold bind. destruct (m s) as [[a|e] s1]; [eauto | done].
Qed.

Lemma gets_inv {A} (f : State → A) s r s' :
  gets f s = (r, s') → r = Ok (f s) ∧ s' = s.
Proof. by intros [= <- <-]. Qed.

(** ** create *)

Section Create.

Variable world : Oracle.
Variable starknet : Starknet.
Variable derivePrivateKeyFromSeed : string → Z → string.

Abbreviation create :=
  (BurnerManager.create world starknet derivePrivateKeyFromSeed).
Abbreviation generateKeysAndAddress :=
  (BurnerManager.generateKeysAndAddress world starknet derivePrivateKeyFromSeed).

Lemma generateKeysAndAddress_inv options s k s1 :
  generateKeysAndAddress options s = (Ok k, s1) →
  ∃ privateKey, k = keys_of starknet (this_accountClassHash (config s)) privateKey.
Proof.
  unfold BurnerManager.generateKeysAndAddress. intros H.
  apply bind_Ok_inv in H as (pk & s2 & Hpk & H).
  apply bind_Ok_inv in H as (c & s3 & Hc & H).
  apply gets_inv in Hc as [[= ->] ->]. injection H as <- <-. exists pk.
  assert (O : only_calls s s2).
  { destruct (truthy_string (secret options)).
    - injection Hpk as <- <-. reflexivity.
    - exact (steps_call world RandomAddress _ _ _ Hpk). }
  destruct O as (-> & _). reflexivity.
Qed.

(** What a successful [create] has done, read off its run. *)
Lemma create_Ok_inv options s burner s' :
  create options s = (Ok burner, s') →
  ∃ privateKey tx h d,
    let k := keys_of starknet (this_accountClassHash (config s)) privateKey in
    let master := this_masterAccount (config s) in
    this_isInitialized s = true
    ∧ burner = mkAccount (keys_address k) (keys_privateKey k)
    ∧ world h
        (DeployAccount burner
           (mkPayload (this_accountClassHash (config s))
              (CallData_compile starknet [keys_publicKey k]) (keys_publicKey k))
           d) = Ok tx
    ∧ config s' = config s
    ∧ this_chainId s' = this_chainId s
    ∧ this_isInitialized s' = true
    ∧ this_account s' = Some burner
    ∧ localStorage s'
      = <[burner_key s :=
            assign_burner (keys_address k)
              (BurnerManager.new_record options (this_chainId s) k tx
                 (address master))
              (deactivate_all (stored s))]> (localStorage s).
Proof.
  unfold BurnerManager.create. intros H.
  apply bind_Ok_inv in H as (ini & s0 & Hini & H).
  apply gets_inv in Hini as [[= ->] ->].
  destruct (this_isInitialized s) eqn:Ei; [|done]. cbn [negb] in H.
  apply bind_Ok_inv in H as ([] & s1 & H1 & H).
  apply steps_updateIsDeploying in H1 as O1.
  apply bind_Ok_inv in H as (k & s2 & H2 & H).
  apply steps_generateKeysAndAddress in H2 as O2.
  apply generateKeysAndAddress_inv in H2 as [privateKey ->].
  apply bind_Ok_inv in H as (master & s3 & H3 & H).
  apply gets_inv in H3 as [[= ->] ->].
  apply bind_Ok_inv in H as (feeToken & s3 & H3 & H).
  apply gets_inv in H3 as [[= ->] ->].
  apply bind_Ok_inv in H as ([] & s4 & H4 & H).
  assert (O4 : only_calls s2 s4).
  { revert H4. apply (steps_try_catch only_calls).
    - apply (steps_bind only_calls); [apply steps_prefundAccount | frames].
    - intros e. apply (steps_bind only_calls);
        [apply steps_console_log | intros _; apply steps_updateIsDeploying]. }
  apply bind_Ok_inv in H as (accountClassHash & s5 & H5 & H).
  apply gets_inv in H5 as [[= ->] ->]. cbv zeta in H.
  apply bind_Ok_inv in H as (tx & s6 & H6 & H).
  assert (O6 : only_calls s4 s6).
  { revert H6. apply (steps_try_catch only_calls).
    - frames. destruct a; frames.
    - intros e. apply (steps_bind only_calls);
        [apply steps_updateIsDeploying | frames]. }
  assert (D6 : ∃ h d,
    world h
      (DeployAccount
         {| address := keys_address (keys_of starknet (this_accountClassHash (config s1)) privateKey);
            signer := keys_privateKey (keys_of starknet (this_accountClassHash (config s1)) privateKey) |}
         (mkPayload (this_accountClassHash (config s4))
            (CallData_compile starknet
               [keys_publicKey (keys_of starknet (this_accountClassHash (config s1)) privateKey)])
            (keys_publicKey (keys_of starknet (this_accountClassHash (config s1)) privateKey)))
         d) = Ok tx).
  { clear H. unfold try_catch in H6.
    match type of H6 with (match ?m s4 with _ => _ end) = _ =>
      destruct (m s4) as [[tx'|e] s7] eqn:E end.
    - injection H6 as -> ->.
      apply bind_Ok_inv in E as (cur & s8 & _ & E).
      apply bind_Ok_inv in E as (n & s9 & _ & E).
      unfold call in E. injection E as E _. eauto.
    - unfold bind in H6.
      destruct (BurnerManager.updateIsDeploying world false s7) as [[[]|?] ?];
        discriminate H6. }
  destruct D6 as (h & d & D6).
  apply bind_Ok_inv in H as (isDeployed & s7 & H7 & H).
  assert (O7 : only_calls s6 s7).
  { revert H7. apply (steps_try_catch only_calls);
      [apply steps_isBurnerDeployed | frames]. }
  apply bind_Ok_inv in H as ([] & s8 & H8 & H).
  assert (O8 : only_calls s7 s8).
  { revert H8. destruct isDeployed; frames. destruct a; frames. }
  assert (O : only_calls s s8).
  { etrans; [exact O1|]. etrans; [exact O2|]. etrans; [exact O4|].
    etrans; [exact O6|]. etrans; [exact O7|]. exact O8. }
  apply bind_Ok_inv in H as (storage & s9 & H9 & H).
  rewrite getBurnerStorage_eq in H9. injection H9 as <- <-.
  apply bind_Ok_inv in H as (chain & s9 & H9 & H).
  apply gets_inv in H9 as [[= ->] ->]. cbv zeta in H.
  apply bind_Ok_inv in H as ([] & s9 & H9 & H).
  injection H9 as <-.
  apply bind_Ok_inv in H as ([] & s10 & H10 & H).
  apply steps_updateIsDeploying in H10 as O10.
  apply bind_Ok_inv in H as (key & s11 & H11 & H).
  apply gets_inv in H11 as [[= ->] ->].
  apply bind_Ok_inv in H as ([] & s11 & H11 & H).
  unfold Storage_set, bind, modify, emit in H11. injection H11 as <-.
  apply bind_Ok_inv in H as (cb & s12 & H12 & H).
  apply gets_inv in H12 as [[= ->] ->].
  apply bind_Ok_inv in H as ([] & s12 & H12 & H).
  injection H as <- <-.
  match type of H12 with _ ?s0 = _ =>
    assert (O12 : only_calls s0 s12) end.
  { revert H12. match goal with |- context [if ?c then _ else _] => destruct c end;
      frames. }
  assert (O2' : only_calls s s2) by (etrans; [exact O1 | exact O2]).
  assert (O4' : only_calls s s4) by (etrans; [exact O2' | exact O4]).
  destruct O1 as (Ec1 & _), O2' as (Ec2 & _), O4' as (Ec4 & _).
  rewrite Ec1, Ec4 in D6. rewrite Ec1.
  pose proof (only_calls_stored _ _ O) as Es.
  destruct O as (Ec & Eh & Ea & Ein & El).
  destruct O10 as (Ec10 & Eh10 & Ea10 & Ein10 & El10).
  destruct O12 as (Ec12 & Eh12 & Ea12 & Ein12 & El12).
  clear H1 H4 H6 H7 H8 H10 H12 O2 O4 O6 O7 O8.
  state_simpl. rewrite Ec1 in Ea10, El12. rewrite Ec2, Es, Eh in El12.
  exists privateKey, tx, h, d. cbv zeta. split_and!.
  - reflexivity.
  - reflexivity.
  - exact D6.
  - congruence.
  - congruence.
  - congruence.
  - congruence.
  - rewrite El12, El10, El. unfold burner_key. rewrite Eh10, Eh. reflexivity.
Qed.

End Create.

(** ** init *)

Section Init.

Variable world : Oracle.
Variable starknet : Starknet.

Lemma isBurnerDeployed_run tx s :
  ∃ b s', BurnerManager.isBurnerDeployed world tx s = (Ok b, s')
    ∧ only_calls s s'.
Proof.
  destruct (BurnerManager.isBurnerDeployed world tx s) as [r s'] eqn:E.
  pose proof (steps_isBurnerDeployed _ _ _ _ _ E) as O.
  revert E. unfold BurnerManager.isBurnerDeployed. mrun.
  destruct (world _ _) as [[?|]|?]; intros [= <- <-]; eauto.
Qed.

Lemma checks_run storage s :
  ∃ answers s', BurnerManager.checks world storage s = (Ok answers, s')
    ∧ only_calls s s'.
Proof.
  revert s. induction storage as [|[a b] storage IH]; intros s.
  - exists [], s. split; reflexivity.
  - cbn [BurnerManager.checks].
    destruct (isBurnerDeployed_run (deployTx b) s) as (d & s1 & H1 & O1).
    destruct (IH s1) as (answers & s2 & H2 & O2).
    eexists _, s2. split.
    + unfold bind at 1. rewrite H1. unfold bind at 1. rewrite H2. reflexivity.
    + by etrans.
Qed.

Lemma remove_each_run keepNonDeployed toRemove storage s :
  ∃ storage' s',
    BurnerManager.remove_each keepNonDeployed toRemove storage s
    = (Ok storage', s')
    ∧ only_calls s s'
    ∧ (well_formed storage → well_formed storage').
Proof.
  revert storage s. induction toRemove as [|a toRemove IH]; intros storage s.
  - exists storage, s. split_and!; [reflexivity | reflexivity | done].
  - cbn [BurnerManager.remove_each]. destruct keepNonDeployed; [apply IH|].
    unfold bind, console_log, modify.
    match goal with |- context [BurnerManager.remove_each _ _ ?st ?s1] =>
      destruct (IH st s1) as (storage' & s' & H & O & W) end.
    exists storage', s'. split; [exact H|]. split.
    + etrans; [|exact O]. by repeat split.
    + intros Hw. by apply W, well_formed_remove.
Qed.

Lemma first_active_lookup storage a b :
  BurnerManager.first_active storage = Some (a, b) → a ∈ keys storage.
Proof.
  intros H. apply first_active_elem in H as [H _].
  unfold keys. apply list_elem_of_fmap. by exists (a, b).
Qed.

(** What [init] does on a manager that is not initialized: it fails with
    the chain id, or it succeeds. *)
Lemma init_run keepNonDeployed s :
  this_isInitialized s = false →
  match world (trace s) GetChainId with
  | Throw e =>
      BurnerManager.init world starknet keepNonDeployed s
      = (Throw e, set_trace (trace s ++ [Called GetChainId]) s)
  | Ok id =>
      let s0 := set_chainId (decodeShortString starknet id) s in
      ∃ detached s',
        BurnerManager.init world starknet keepNonDeployed s
        = (Ok detached, s')
        ∧ config s' = config s
        ∧ this_chainId s' = decodeShortString starknet id
        ∧ this_isInitialized s' = true
        ∧ delete (burner_key s0) (localStorage s')
          = delete (burner_key s0) (localStorage s)
        ∧ (well_formed (stored s0) → well_formed (stored s'))
        ∧ match detached with
          | Some ps =>
              Forall awaiting ps
              ∧ (well_formed (stored s0) → Forall snapshot_ok ps)
          | None => True
          end
  end.
Proof.
  intros Hi. unfold BurnerManager.init.
  destruct (world (trace s) GetChainId) as [id|e] eqn:Ew.
  2: { mrun. rewrite Hi. mrun. rewrite Ew. reflexivity. }
  mrun. rewrite Hi. mrun. rewrite Ew. mrun.
  match goal with |- context [BurnerManager.checks world ?st ?s1] =>
    destruct (checks_run st s1) as (answers & s2 & H2 & O2);
    assert (O1 : only_calls (set_chainId (decodeShortString starknet id) s) s1)
      by (by repeat split)
  end.
  rewrite H2. mrun.
  match goal with |- context [BurnerManager.remove_each ?k ?l ?st ?s2] =>
    destruct (remove_each_run k l st s2) as (storage' & s3 & H3 & O3 & W3)
  end.
  rewrite H3. mrun.
  assert (O : only_calls (set_chainId (decodeShortString starknet id) s) s3).
  { etrans; [exact O1|]. etrans; [exact O2 | exact O3]. }
  erewrite (stored_same (set_chainId (decodeShortString starknet id) s)) in W3;
    [|reflexivity|reflexivity].
  pose proof (only_calls_key _ _ O) as Ek.
  pose proof (only_calls_stored _ _ O) as Es.
  destruct O as (Ec & Eh & _ & Ei & El). state_simpl.
  clear H2 H3 O1 O2 O3.
  destruct (keys storage') as [|first others] eqn:Ekeys.
  - destruct (clear_begin_ok world None s3) as (ps & s4 & H4 & O4 & A4 & S4).
    rewrite H4. mrun.
    pose proof (only_calls_stored _ _ O4) as Es4.
    destruct O4 as (Ec4 & Eh4 & _ & _ & El4).
    eexists _, _. split; [reflexivity|]. state_simpl.
    split_and!; try congruence.
    + intros Hw. erewrite (stored_same s4); [|reflexivity|reflexivity].
      by rewrite Es4, Es.
    + intros [ND _]. apply S4. by rewrite Es.
  - mrun. unfold BurnerManager.setActiveBurnerAccount.
    destruct (BurnerManager.first_active storage') as [[a b]|]; mrun;
      (eexists _, _; split; [reflexivity|]; state_simpl;
       split_and!; try congruence;
       [ rewrite Ek, El; apply delete_insert_eq
       | intros Hw; erewrite stored_written; [exact (W3 Hw)| |reflexivity];
         unfold burner_key; state_simpl; by rewrite Eh
       | exact I ]).
Qed.

End Init.

(** ** The order of the prefund and of the deploy transaction *)

Global Instance emits_preorder P : PreOrder (emits P).
Proof.
  split.
  - intros s. exists []. split; [by rewrite app_nil_r | constructor].
  - intros s1 s2 s3 (e1 & H1 & F1) (e2 & H2 & F2). exists (e1 ++ e2)%list.
    split; [by rewrite H2, H1, app_assoc | by apply Forall_app].
Qed.

Lemma emits_call P world c : P (Called c) → steps (emits P) (call world c).
Proof.
  intros HP s r s' [= <- <-]. exists [Called c]. split; [done|].
  by constructor.
Qed.

Lemma emits_quiet P (f : State → State) :
  (∀ s, trace (f s) = trace s) → steps (emits P) (modify f).
Proof.
  intros H. apply steps_modify. intros s. exists [].
  split; [by rewrite H, app_nil_r | constructor].
Qed.

Lemma emits_Storage_set P key value :
  P (StorageSet key value) → steps (emits P) (Storage_set key value).
Proof.
  intros HP s r s' [= <- <-]. exists [StorageSet key value].
  split; [done | by constructor].
Qed.

Lemma emits_getBurnerStorage P :
  steps (emits P) BurnerManager.getBurnerStorage.
Proof. intros s r s'. rewrite getBurnerStorage_eq. intros [= <- <-]. reflexivity. Qed.

(** Decompose a computation into its steps; what is left is that the calls
    it issues satisfy [P], and the case analyses of the code. *)
Ltac emits_steps P :=
  repeat first
    [ match goal with
      | |- steps _ (call ?w ?c) => apply (emits_call P w c); exact I
      | |- steps _ (Storage_set ?k ?v) => apply (emits_Storage_set P k v); exact I
      | |- steps _ (modify _) => apply (emits_quiet P); reflexivity
      | |- steps _ (console_log _) => apply (emits_quiet P); reflexivity
      | |- steps _ (BurnerManager.getBurnerKey) => apply (steps_gets (emits P))
      | |- steps _ (BurnerManager.getBurnerStorage) => apply (emits_getBurnerStorage P)
      | |- steps _ (if ?b then _ else _) => destruct b
      | |- steps _ (match ?x with Some _ => _ | None => _ end) => destruct x
      | |- ∀ _, _ => intro
      end
    | apply (steps_ret (emits P)) | apply (steps_throw (emits P))
    | apply (steps_gets (emits P))
    | apply (steps_bind (emits P)) | apply (steps_try_catch (emits P)) ].

(** [H] is a run of [m]: it is enough that [m] takes such steps. *)
Ltac by_steps P H :=
  match type of H with
  | ?m ?s = (?r, ?s') =>
      let X := fresh in
      assert (X : steps (emits P) m);
      [ unfold BurnerManager.updateIsDeploying, BurnerManager.isBurnerDeployed,
          BurnerManager.generateKeysAndAddress, prefundAccount;
        emits_steps P
      | exact (X s r s' H) ]
  end.

Lemma bind_inv {A B} (m : M A) (k : A → M B) s r s' :
  bind m k s = (r, s') →
  (∃ e, m s = (Throw e, s') ∧ r = Throw e)
  ∨ (∃ a s1, m s = (Ok a, s1) ∧ k a s1 = (r, s')).
Proof.
  unfold bind. destruct (m s) as [[a|e] s1]; [eauto|].
  intros [= <- <-]. eauto.
Qed.

Section Order.

Variable world : Oracle.
Variable starknet : Starknet.
Variable derivePrivateKeyFromSeed : string → Z → string.

(** In every run of [create], whatever it returns or throws, what it adds
    to the trace splits in two: no [deployAccount] is issued in the first
    part and no [execute] in the second.  So the transfer of the prefund,
    when [create] gets to issue it, comes before the deploy transaction, and
    the deploy transaction is never issued ahead of it. *)
Theorem create_transfer_precedes_deploy options s r s' :
  BurnerManager.create world starknet derivePrivateKeyFromSeed options s
  = (r, s') →
  ∃ before after,
    trace s' = (trace s ++ before ++ after)%list
    ∧ Forall not_deploy before
    ∧ Forall not_execute after.
Proof.
  intros H.
  assert (stop : ∀ s1, emits not_deploy s s1 → s1 = s' →
            ∃ before after, trace s' = (trace s ++ before ++ after)%list
              ∧ Forall not_deploy before ∧ Forall not_execute after).
  { intros s1 (evs & E & F) <-. exists evs, [].
    rewrite app_nil_r. split_and!; [done | done | constructor]. }
  unfold BurnerManager.create in H.
  apply bind_inv in H as [(e & H & _)|(ini & s0 & H0 & H)]; [done|].
  apply gets_inv in H0 as [[= ->] ->].
  destruct (negb (this_isInitialized s)).
  { injection H as _ <-. by apply (stop s). }
  apply bind_inv in H as [(e & H & _)|([] & s1 & H1 & H)].
  { apply (stop s'); [|done]. by_steps not_deploy H. }
  assert (E1 : emits not_deploy s s1) by by_steps not_deploy H1.
  apply bind_inv in H as [(e & H & _)|(k & s2 & H2 & H)].
  { apply (stop s'); [|done]. etrans; [exact E1|]. by_steps not_deploy H. }
  assert (E2 : emits not_deploy s s2).
  { etrans; [exact E1|]. by_steps not_deploy H2. }
  apply bind_inv in H as [(e & H & _)|(master & s3 & H3 & H)]; [done|].
  apply gets_inv in H3 as [[= ->] ->].
  apply bind_inv in H as [(e & H & _)|(feeToken & s3 & H3 & H)]; [done|].
  apply gets_inv in H3 as [[= ->] ->].
  apply bind_inv in H as [(e & H & _)|([] & s4 & H4 & H)].
  { apply (stop s'); [|done]. etrans; [exact E2|]. by_steps not_deploy H. }
  assert (E4 : emits not_deploy s s4).
  { etrans; [exact E2|]. by_steps not_deploy H4. }
  destruct E4 as (before & E4 & F4).
  assert (E : emits not_execute s4 s') by by_steps not_execute H.
  destruct E as (after & E & F).
  exists before, after. split_and!; [|done|done].
  by rewrite E, E4, app_assoc.
Qed.

End Order.

(** ** At most one active burner *)

Lemma all_well_formed_stored s : all_well_formed s → well_formed (stored s).
Proof.
  intros H. unfold stored.
  destruct (localStorage s !! burner_key s) as [storage|] eqn:E.
  - exact (H _ _ E).
  - apply well_formed_nil.
Qed.

Lemma all_well_formed_same s s' :
  localStorage s' = localStorage s → all_well_formed s → all_well_formed s'.
Proof. intros E H key storage. rewrite E. apply H. Qed.

Lemma all_well_formed_insert s s' key storage :
  localStorage s' = <[key := storage]> (localStorage s) →
  well_formed storage → all_well_formed s → all_well_formed s'.
Proof.
  intros E W H key' storage'. rewrite E, lookup_insert.
  case_decide; [by intros [= <-] | apply H].
Qed.

Lemma all_well_formed_delete s s' key :
  localStorage s' = delete key (localStorage s) →
  all_well_formed s → all_well_formed s'.
Proof.
  intros E H key' storage'. rewrite E, lookup_delete.
  case_decide; [done | apply H].
Qed.

Lemma all_well_formed_rewritten s s' :
  delete (burner_key s') (localStorage s') = delete (burner_key s') (localStorage s) →
  well_formed (stored s') →
  all_well_formed s → all_well_formed s'.
Proof.
  intros Hd W H key storage E.
  destruct (decide (key = burner_key s')) as [->|Hne].
  - unfold stored in W. rewrite E in W. exact W.
  - apply (H key).
    rewrite <- (lookup_delete_ne (localStorage s) (burner_key s') key) by done.
    rewrite <- Hd. by rewrite lookup_delete_ne.
Qed.

Lemma all_well_formed_keeps s s' :
  keeps s s' → well_formed (stored s') →
  all_well_formed s → all_well_formed s'.
Proof.
  intros K W H. pose proof (keeps_key _ _ K) as Hk.
  destruct K as (_ & _ & _ & Hd).
  apply (all_well_formed_rewritten s); [by rewrite Hk | done | done].
Qed.

Lemma well_formed_assign a b storage :
  NoDup (keys storage) →
  well_formed (assign_burner a b (deactivate_all storage)).
Proof.
  intros ND. split.
  - apply NoDup_assign_burner. by rewrite keys_deactivate_all.
  - unfold at_most_one_active.
    rewrite count_active_assign_burner by apply count_active_deactivate_all.
    destruct (active b); lia.
Qed.

Lemma select_present a b s :
  lookup_burner a (stored s) = Some b →
  ∃ s', BurnerManager.select a s = (Ok tt, s')
    ∧ config s' = config s
    ∧ this_chainId s' = this_chainId s
    ∧ this_isInitialized s' = this_isInitialized s
    ∧ localStorage s'
      = <[burner_key s := activate a (deactivate_all (stored s))]> (localStorage s)
    ∧ this_account s' = Some (mkAccount a (privateKey b))
    ∧ trace s'
      = (trace s ++ [StorageSet (burner_key s)
                       (activate a (deactivate_all (stored s)))])%list.
Proof.
  intros Hb. eexists. split.
  { unfold BurnerManager.select, bind. rewrite getBurnerStorage_eq, Hb.
    reflexivity. }
  split_and!; reflexivity.
Qed.

Lemma select_absent a s :
  lookup_burner a (stored s) = None →
  inherited a = false →
  BurnerManager.select a s = (Throw "burner not found", s).
Proof.
  intros Hn Hi. unfold BurnerManager.select, bind.
  rewrite getBurnerStorage_eq, Hn, Hi. reflexivity.
Qed.

Lemma select_builtin a s :
  lookup_burner a (stored s) = None →
  inherited a = true →
  ∃ s', BurnerManager.select a s = (Ok tt, s')
    ∧ config s' = config s
    ∧ this_chainId s' = this_chainId s
    ∧ this_isInitialized s' = this_isInitialized s
    ∧ localStorage s'
      = <[burner_key s := deactivate_all (stored s)]> (localStorage s)
    ∧ this_account s' = Some (mkAccount a undefined)
    ∧ trace s'
      = (trace s ++ [BuiltinSetActive a;
                     StorageSet (burner_key s) (deactivate_all (stored s))])%list.
Proof.
  intros Hn Hi. eexists. split.
  { unfold BurnerManager.select, bind. rewrite getBurnerStorage_eq, Hn, Hi.
    reflexivity. }
  split_and!; try reflexivity.
  state_simpl. by rewrite <- app_assoc.
Qed.

Lemma select_well_formed a s r s' :
  BurnerManager.select a s = (r, s') →
  all_well_formed s → all_well_formed s'.
Proof.
  intros H W. destruct (lookup_burner a (stored s)) as [b|] eqn:E.
  - destruct (select_present _ _ _ E) as (s'' & R & _ & _ & _ & Hl & _).
    rewrite R in H. injection H as _ <-.
    eapply all_well_formed_insert; [exact Hl | | exact W].
    destruct (all_well_formed_stored _ W) as [ND _].
    apply well_formed_select; [done|]. apply lookup_burner_is_Some. eauto.
  - destruct (inherited a) eqn:Hi.
    + destruct (select_builtin _ _ E Hi) as (s'' & R & _ & _ & _ & Hl & _).
      rewrite R in H. injection H as _ <-.
      eapply all_well_formed_insert; [exact Hl | | exact W].
      apply well_formed_deactivate. by destruct (all_well_formed_stored _ W).
    + rewrite (select_absent _ _ E Hi) in H. by injection H as _ <-.
Qed.

Section Preserved.

Variable world : Oracle.
Variable starknet : Starknet.
Variable derivePrivateKeyFromSeed : string → Z → string.

Lemma delete_begin_snapshot a td s p s1 :
  BurnerManager.delete_begin world a td s = (p, s1) →
  only_calls s s1
  ∧ (NoDup (keys (stored s)) → snapshot_ok p)
  ∧ (awaiting p ∨ p = BurnerManager.Rejected "burner not found").
Proof.
  destruct (lookup_burner a (stored s)) as [b|] eqn:E.
  - rewrite (delete_begin_present _ _ _ _ _ E). intros [= <- <-].
    split_and!; [by repeat split | done | by left].
  - destruct (inherited a) eqn:Hi.
    + rewrite (delete_begin_builtin _ _ _ _ E Hi). intros [= <- <-].
      split_and!; [by repeat split | done | by left].
    + rewrite (delete_begin_absent _ _ _ _ E Hi). intros [= <- <-].
      split_and!; [reflexivity | done | by right].
Qed.

Lemma delete_well_formed a td s r s' :
  BurnerManager.delete world a td s = (r, s') →
  all_well_formed s → all_well_formed s'.
Proof.
  unfold BurnerManager.delete. intros H W.
  destruct (BurnerManager.delete_begin world a td s) as [p s1] eqn:E.
  apply delete_begin_snapshot in E as (O & S & [A| ->]).
  - destruct (settle_awaiting p s1 A) as (s2 & R & K & Hw).
    rewrite R in H. injection H as _ <-.
    assert (W1 : all_well_formed s1).
    { destruct O as (_&_&_&_&El). by eapply all_well_formed_same. }
    eapply all_well_formed_keeps; [exact K | | exact W1].
    apply Hw; [|by apply all_well_formed_stored].
    apply S. by destruct (all_well_formed_stored _ W).
  - injection H as _ <-. destruct O as (_&_&_&_&El).
    by eapply all_well_formed_same.
Qed.

Lemma clear_well_formed td order s r s' :
  BurnerManager.clear world td order s = (r, s') →
  all_well_formed s → all_well_formed s'.
Proof.
  unfold BurnerManager.clear. intros H W.
  destruct (clear_begin_ok world td s) as (ps & s1 & H1 & O & A & _).
  rewrite H1 in H.
  destruct (clear_finish_ok order ps s1 A) as (s2 & H2 & _ & _ & _ & Hl).
  rewrite H2 in H. injection H as _ <-.
  eapply all_well_formed_delete; [exact Hl|].
  destruct O as (_&_&_&_&El). by eapply all_well_formed_same.
Qed.

Lemma deselect_well_formed s r s' :
  BurnerManager.deselect s = (r, s') →
  all_well_formed s → all_well_formed s'.
Proof.
  unfold BurnerManager.deselect. mrun. intros [= _ <-] W.
  eapply all_well_formed_insert; [reflexivity | | exact W].
  apply well_formed_deactivate. by destruct (all_well_formed_stored _ W).
Qed.

(** Whatever [create] does, local storage is as it was or holds the old
    burners, none of them active, and one more. *)
Lemma create_storage options s r s' :
  BurnerManager.create world starknet derivePrivateKeyFromSeed options s
  = (r, s') →
  localStorage s' = localStorage s
  ∨ ∃ a b, localStorage s'
           = <[burner_key s := assign_burner a b (deactivate_all (stored s))]>
               (localStorage s).
Proof.
  intros H.
  assert (stop : ∀ s1, only_calls s s1 → localStorage s' = localStorage s1 →
            localStorage s' = localStorage s
            ∨ ∃ a b, localStorage s'
                = <[burner_key s := assign_burner a b (deactivate_all (stored s))]>
                    (localStorage s)).
  { intros s1 (_&_&_&_&El) E. left. congruence. }
  unfold BurnerManager.create in H.
  apply bind_inv in H as [(e & H & _)|(ini & s0 & H0 & H)]; [done|].
  apply gets_inv in H0 as [[= ->] ->].
  destruct (negb (this_isInitialized s)).
  { injection H as _ <-. by apply (stop s). }
  apply bind_inv in H as [(e & H & _)|([] & s1 & H1 & H)].
  { apply (stop s'); [|done]. eapply steps_updateIsDeploying, H. }
  apply steps_updateIsDeploying in H1 as O1.
  apply bind_inv in H as [(e & H & _)|(k & s2 & H2 & H)].
  { apply (stop s'); [|done]. etrans; [exact O1|].
    eapply steps_generateKeysAndAddress, H. }
  apply steps_generateKeysAndAddress in H2 as O2.
  apply bind_inv in H as [(e & H & _)|(master & s3 & H3 & H)]; [done|].
  apply gets_inv in H3 as [[= ->] ->].
  apply bind_inv in H as [(e & H & _)|(feeToken & s3 & H3 & H)]; [done|].
  apply gets_inv in H3 as [[= ->] ->].
  assert (O2' : only_calls s s2) by (etrans; [exact O1 | exact O2]).
  clear H1 H2 O1 O2.
  assert (prefund : ∀ r4 s4,
    try_catch
      (prefundAccount world starknet (keys_address k)
         (this_masterAccount (config s2)) (this_feeTokenAddress (config s2))
         (if truthy_string (prefundedAmount options)
          then default "" (prefundedAmount options)
          else BurnerManager.PREFUND_AMOUNT)
         (transactionDetails options) ;;; ret ())
      (λ e, console_log ("burner manager create() error: " +:+ e) ;;;
            BurnerManager.updateIsDeploying world false) s2 = (r4, s4) →
    only_calls s s4).
  { intros r4 s4 H4. etrans; [exact O2'|]. revert H4.
    apply (steps_try_catch only_calls).
    - apply (steps_bind only_calls); [apply steps_prefundAccount | frames].
    - intros e. apply (steps_bind only_calls);
        [apply steps_console_log | intros _; apply steps_updateIsDeploying]. }
  apply bind_inv in H as [(e & H & _)|([] & s4 & H4 & H)].
  { apply (stop s'); [by eapply prefund | done]. }
  apply prefund in H4 as O4. clear prefund O2'.
  apply bind_inv in H as [(e & H & _)|(accountClassHash & s5 & H5 & H)]; [done|].
  apply gets_inv in H5 as [[= ->] ->]. cbv zeta in H.
  assert (deploy : ∀ r6 s6,
    try_catch
      (current <- gets this_account ;;
       n <- match current with
            | Some a => x <- call world (GetNonce a) ;; ret (Some x)
            | None => ret None
            end ;;
       call world
         (DeployAccount (mkAccount (keys_address k) (keys_privateKey k))
            (mkPayload (this_accountClassHash (config s4))
               (CallData_compile starknet [keys_publicKey k]) (keys_publicKey k))
            (with_details n (transactionDetails options))))
      (λ error, BurnerManager.updateIsDeploying world false ;;; throw error) s4
    = (r6, s6) → only_calls s s6).
  { intros r6 s6 H6. etrans; [exact O4|]. revert H6.
    apply (steps_try_catch only_calls).
    - frames. destruct a; frames.
    - intros e. apply (steps_bind only_calls);
        [apply steps_updateIsDeploying | frames]. }
  apply bind_inv in H as [(e & H & _)|(tx & s6 & H6 & H)].
  { apply (stop s'); [by eapply deploy | done]. }
  apply deploy in H6 as O6. clear deploy O4.
  assert (deployed : ∀ r7 s7,
    try_catch (BurnerManager.isBurnerDeployed world tx) (λ _, ret false) s6
    = (r7, s7) → only_calls s s7).
  { intros r7 s7 H7. etrans; [exact O6|]. revert H7.
    apply (steps_try_catch only_calls); [apply steps_isBurnerDeployed | frames]. }
  apply bind_inv in H as [(e & H & _)|(isDeployed & s7 & H7 & H)].
  { apply (stop s'); [by eapply deployed | done]. }
  apply deployed in H7 as O7. clear deployed O6.
  assert (waited : ∀ r8 s8,
    (if isDeployed then ret ()
     else receipt <- call world
                       (WaitForTransaction (this_masterAccount (config s2)) tx
                          (mkWait 100 None)) ;;
          match receipt with
          | Some _ => ret ()
          | None => throw "Transaction did not complete successfully."
          end) s7 = (r8, s8) → only_calls s s8).
  { intros r8 s8 H8. etrans; [exact O7|]. revert H8.
    destruct isDeployed; frames. destruct a; frames. }
  apply bind_inv in H as [(e & H & _)|([] & s8 & H8 & H)].
  { apply (stop s'); [by eapply waited | done]. }
  apply waited in H8 as O. clear waited O7.
  apply bind_inv in H as [(e & H & _)|(storage & s9 & H9 & H)].
  { by rewrite getBurnerStorage_eq in H. }
  rewrite getBurnerStorage_eq in H9. injection H9 as <- <-.
  apply bind_inv in H as [(e & H & _)|(chain & s9 & H9 & H)]; [done|].
  apply gets_inv in H9 as [[= ->] ->]. cbv zeta in H.
  apply bind_inv in H as [(e & H & _)|([] & s9 & H9 & H)]; [done|].
  injection H9 as <-.
  pose proof (only_calls_stored _ _ O) as Es.
  pose proof (only_calls_key _ _ O) as Ek.
  destruct O as (_ & Eh & _ & _ & El).
  apply bind_inv in H as [(e & H & _)|([] & s10 & H10 & H)].
  { apply steps_updateIsDeploying in H as (_&_&_&_&El10). left.
    rewrite El10. exact El. }
  apply steps_updateIsDeploying in H10 as O10.
  assert (Ek10 : burner_key s10 = burner_key s).
  { rewrite (only_calls_key _ _ O10). exact Ek. }
  destruct O10 as (_ & _ & _ & _ & El10). state_simpl.
  apply bind_inv in H as [(e & H & _)|(key & s11 & H11 & H)]; [done|].
  apply gets_inv in H11 as [[= ->] ->].
  apply bind_inv in H as [(e & H & _)|([] & s11 & H11 & H)]; [done|].
  unfold Storage_set, bind, modify, emit in H11. injection H11 as <-.
  apply bind_inv in H as [(e & H & _)|(cb & s12 & H12 & H)]; [done|].
  apply gets_inv in H12 as [[= ->] ->].
  assert (O12 : ∀ r12 s12,
    (if this_afterDeploying (config s10)
     then try_catch
            (call world
               (AfterDeployingCallback
                  (mkAccount (keys_address k) (keys_privateKey k)) tx))
            (λ e, console_log ("error on afterDeploying " +:+ e))
     else ret ())
      (set_trace
         (trace s10 ++
            [StorageSet (burner_key s10)
               (assign_burner (keys_address k)
                  (BurnerManager.new_record options (this_chainId s8) k tx
                     (address (this_masterAccount (config s2))))
                  (deactivate_all (stored s8)))])
         (set_localStorage
            (<[burner_key s10 :=
                 assign_burner (keys_address k)
                   (BurnerManager.new_record options (this_chainId s8) k tx
                      (address (this_masterAccount (config s2))))
                   (deactivate_all (stored s8))]> (localStorage s10)) s10))
    = (r12, s12) →
    localStorage s12
    = <[burner_key s10 :=
          assign_burner (keys_address k)
            (BurnerManager.new_record options (this_chainId s8) k tx
               (address (this_masterAccount (config s2))))
            (deactivate_all (stored s8))]> (localStorage s10)).
  { intros r12 s12 H12.
    match type of H12 with ?m ?s0 = _ =>
      assert (O12 : only_calls s0 s12) end.
    { revert H12. destruct (this_afterDeploying (config s10)); frames. }
    by destruct O12 as (_&_&_&_&->). }
  right. eexists _, _.
  apply bind_inv in H as [(e & H & _)|([] & s12 & H12 & H)].
  - apply O12 in H. rewrite H, Ek10, El10, Es, El. reflexivity.
  - injection H as _ <-. apply O12 in H12.
    rewrite H12, Ek10, El10, Es, El. reflexivity.
Qed.

Lemma create_well_formed options s r s' :
  BurnerManager.create world starknet derivePrivateKeyFromSeed options s
  = (r, s') →
  all_well_formed s → all_well_formed s'.
Proof.
  intros H W. apply create_storage in H as [E|(a & b & E)].
  - by eapply all_well_formed_same.
  - eapply all_well_formed_insert; [exact E | | exact W].
    apply well_formed_assign. by destruct (all_well_formed_stored _ W).
Qed.

Lemma init_well_formed keep s r s' :
  BurnerManager.init world starknet keep s = (r, s') →
  all_well_formed s →
  all_well_formed s'
  ∧ ∀ ps order r' s'',
      r = Ok (Some ps) →
      BurnerManager.clear_finish order ps s' = (r', s'') →
      all_well_formed s''.
Proof.
  intros H W. destruct (this_isInitialized s) eqn:Hi.
  { unfold BurnerManager.init, bind, gets in H. rewrite Hi in H.
    injection H as <- <-. split; [done|]. intros ps order r' s'' [=]. }
  pose proof (init_run world starknet keep s Hi) as R.
  destruct (world (trace s) GetChainId) as [id|e].
  - destruct R as (d & s1 & R & Hc & Hch & _ & Hd & Hw & Hps).
    rewrite R in H. injection H as <- <-.
    set (s0 := set_chainId (decodeShortString starknet id) s) in *.
    assert (W0 : all_well_formed s0) by (by apply (all_well_formed_same s)).
    assert (Hk : burner_key s1 = burner_key s0).
    { unfold burner_key. by rewrite Hch. }
    assert (W1 : all_well_formed s1).
    { apply (all_well_formed_rewritten s0); [by rewrite Hk | | done].
      by apply Hw, all_well_formed_stored. }
    split; [exact W1|]. intros ps order r' s'' [= ->] Hfin.
    destruct Hps as [A _].
    destruct (clear_finish_ok order ps s1 A) as (s2 & H2 & _ & _ & _ & Hl).
    rewrite H2 in Hfin. injection Hfin as _ <-.
    by eapply all_well_formed_delete.
  - rewrite R in H. injection H as <- <-. split; [done|].
    intros ps order r' s'' [=].
Qed.

Lemma setBurnersFromClipboard_well_formed s r s' :
  parses_addresses starknet →
  BurnerManager.setBurnersFromClipboard world starknet s = (r, s') →
  all_well_formed s → all_well_formed s'.
Proof.
  intros HP H W. revert H. unfold BurnerManager.setBurnersFromClipboard.
  mrun. destruct (world (trace s) ClipboardReadText) as [text|e]; mrun.
  2: { intros [= _ <-]. done. }
  destruct (JSON_parse starknet text) as [burners|e] eqn:Ep; mrun.
  2: { intros [= _ <-]. done. }
  destruct (HP _ _ Ep) as [ND Hne].
  destruct (BurnerManager.first_active burners) as [[a b]|] eqn:Ef;
    cbn [fmap option_fmap option_map fst truthy_string default from_option id].
  - assert (Ha : a ∈ keys burners) by by eapply first_active_lookup.
    assert (a ≠ "") as ->%String.eqb_neq by (intros ->; done).
    cbn [negb].
    match goal with |- context [BurnerManager.select a ?s1] =>
      assert (Hs : stored s1 = burners)
        by (eapply stored_written; reflexivity);
      destruct (lookup_burner a (stored s1)) as [b'|] eqn:Eb;
      [ destruct (select_present _ _ _ Eb) as (s2 & R & _ & _ & _ & Hl & _)
      | rewrite Hs in Eb; apply lookup_burner_None in Eb; done ]
    end.
    rewrite R. intros [= _ <-]. rewrite Hs in Hl.
    eapply (all_well_formed_insert s);
      [ | by apply well_formed_select | exact W].
    rewrite Hl. unfold burner_key. state_simpl. apply insert_insert_eq.
  - intros [= _ <-].
    eapply all_well_formed_insert; [reflexivity | | exact W].
    split; [done|]. unfold at_most_one_active.
    rewrite (first_active_None _ Ef). lia.
Qed.

End Preserved.

(** ** Only init writes [isInitialized] *)

Global Instance same_flag_preorder : PreOrder same_flag.
Proof.
  split; [by intros s | intros s1 s2 s3 H1 H2; unfold same_flag in *; congruence].
Qed.

Lemma flag_call world c : steps same_flag (call world c).
Proof. by intros s r s' [= <- <-]. Qed.

Lemma flag_modify (f : State → State) :
  (∀ s, this_isInitialized (f s) = this_isInitialized s) →
  steps same_flag (modify f).
Proof. intros H. apply steps_modify. exact H. Qed.

Ltac flag_steps :=
  repeat first
    [ match goal with
      | |- steps _ (call ?w ?c) => exact (flag_call w c)
      | |- steps _ (modify _) => apply flag_modify; reflexivity
      | |- steps _ (emit _) => unfold emit
      | |- steps _ (console_log _) => unfold console_log
      | |- steps _ (if ?b then _ else _) => destruct b
      | |- steps _ (match ?x with Some _ => _ | None => _ end) => destruct x
      | |- steps _ (match ?x with Ok _ => _ | Throw _ => _ end) => destruct x
      | |- ∀ _, _ => intro
      end
    | apply (steps_ret same_flag) | apply (steps_throw same_flag)
    | apply (steps_gets same_flag)
    | apply (steps_bind same_flag) | apply (steps_try_catch same_flag) ].

Section Flag.

Variable world : Oracle.
Variable starknet : Starknet.
Variable derivePrivateKeyFromSeed : string → Z → string.

Lemma flag_select a : steps same_flag (BurnerManager.select a).
Proof. unfold BurnerManager.select. flag_steps. Qed.

Lemma flag_deselect : steps same_flag BurnerManager.deselect.
Proof. unfold BurnerManager.deselect. flag_steps. Qed.

Lemma flag_create options :
  steps same_flag
    (BurnerManager.create world starknet derivePrivateKeyFromSeed options).
Proof.
  unfold BurnerManager.create, BurnerManager.updateIsDeploying,
    BurnerManager.generateKeysAndAddress, BurnerManager.isBurnerDeployed,
    prefundAccount.
  flag_steps.
Qed.

Lemma flag_setBurnersFromClipboard :
  steps same_flag (BurnerManager.setBurnersFromClipboard world starknet).
Proof.
  unfold BurnerManager.setBurnersFromClipboard. flag_steps.
Qed.

Lemma flag_delete a td : steps same_flag (BurnerManager.delete world a td).
Proof.
  intros s r s'. unfold BurnerManager.delete.
  destruct (BurnerManager.delete_begin world a td s) as [p s1] eqn:E.
  apply delete_begin_snapshot in E as ((_&_&_&Ei&_) & _ & [A| ->]).
  - destruct (settle_awaiting p s1 A) as (s2 & R & (_&_&Ei2&_) & _).
    rewrite R. intros [= _ <-]. unfold same_flag. congruence.
  - by intros [= _ <-].
Qed.

Lemma flag_clear td order :
  steps same_flag (BurnerManager.clear world td order).
Proof.
  intros s r s'. unfold BurnerManager.clear.
  destruct (clear_begin_ok world td s) as (ps & s1 & H1 & (_&_&_&Ei&_) & A & _).
  rewrite H1.
  destruct (clear_finish_ok order ps s1 A) as (s2 & H2 & _ & _ & Ei2 & _).
  rewrite H2. intros [= _ <-]. unfold same_flag. congruence.
Qed.

End Flag.

(** ** What create persists *)

Section CreatePersists.

Variable world : Oracle.
Variable starknet : Starknet.
Variable derivePrivateKeyFromSeed : string → Z → string.

(** C3, as amended: when [create()] returns an account, the manager was
    initialized, the account is the new burner's (the address computed from
    its keys and its private key) and is [this.account]; local storage
    holds, under the burner key, the burners stored before under another
    address with [active] set to false and their other fields kept, and
    under the new address the record of the new burner: the chain id, its
    private and public key, the hash [deployAccount] returned, the address
    of the master account and [active] set to true, with [accountIndex]
    when a secret was given and [metadata] when it is truthy.  An entry
    stored before under the new address itself is replaced by that
    record, so that the new burner is the only active one. *)
Theorem create_persists_new_burner options s burner s' :
  BurnerManager.create world starknet derivePrivateKeyFromSeed options s
  = (Ok burner, s') →
  ∃ privateKey tx,
    let k := keys_of starknet (this_accountClassHash (config s)) privateKey in
    let master := address (this_masterAccount (config s)) in
    this_isInitialized s = true
    ∧ burner = mkAccount (keys_address k) privateKey
    ∧ this_account s' = Some burner
    ∧ (∃ h d, world h
         (DeployAccount burner
            (mkPayload (this_accountClassHash (config s))
               (CallData_compile starknet [keys_publicKey k]) (keys_publicKey k))
            d) = Ok tx)
    ∧ localStorage s' = <[burner_key s := stored s']> (localStorage s)
    ∧ burner_key s' = burner_key s
    ∧ lookup_burner (keys_address k) (stored s')
      = Some (mkBurnerRecord (this_chainId s) privateKey (keys_publicKey k) tx
                master true
                (if truthy_string (secret options) then index options else None)
                (if truthy_string (opt_metadata options)
                 then opt_metadata options else None))
    ∧ (∀ a b, a ≠ keys_address k → lookup_burner a (stored s) = Some b →
         lookup_burner a (stored s') = Some (set_active false b))
    ∧ (∀ a b, lookup_burner a (stored s') = Some b → active b = true →
         a = keys_address k)
    ∧ (∀ a, a ≠ keys_address k → lookup_burner a (stored s) = None →
         lookup_burner a (stored s') = None).
Proof.
  intros H.
  apply create_Ok_inv in H
    as (privateKey & tx & h & d & Hi & -> & Hd & Hc & Hch & Hi' & Ha & Hl).
  exists privateKey, tx. cbv zeta.
  set (k := keys_of starknet (this_accountClassHash (config s)) privateKey) in *.
  assert (Hk : burner_key s' = burner_key s).
  { unfold burner_key. by rewrite Hch. }
  assert (Hs : stored s'
    = assign_burner (keys_address k)
        (BurnerManager.new_record options (this_chainId s) k tx
           (address (this_masterAccount (config s))))
        (deactivate_all (stored s))).
  { by eapply stored_written. }
  split_and!; try done.
  - eauto.
  - by rewrite Hs.
  - rewrite Hs, lookup_assign_burner, String.eqb_refl. reflexivity.
  - intros a b Hne Hb. rewrite Hs, lookup_assign_burner.
    apply String.eqb_neq in Hne as ->.
    by rewrite lookup_deactivate_all, Hb.
  - intros a b. rewrite Hs, lookup_assign_burner.
    destruct (String.eqb a (keys_address k)) eqn:E.
    + by apply String.eqb_eq in E.
    + rewrite lookup_deactivate_all.
      destruct (lookup_burner a (stored s)); [|done].
      intros [= <-]. done.
  - intros a Hne Hn. rewrite Hs, lookup_assign_burner.
    apply String.eqb_neq in Hne as ->.
    by rewrite lookup_deactivate_all, Hn.
Qed.

(** C10: [create()] on a manager whose [init()] has not completed (a new
    manager, or one whose [init()] threw) throws ["BurnerManager is not
    initialized"], and [init()] on a manager a previous [init()] returned
    from throws ["BurnerManager is already initialized"]; in both cases the
    state is left as it was: nothing is written and nothing is called.
    [isInitialized] is false on a new manager, an [init()] that throws
    leaves it and local storage as they were, an [init()] that returns
    sets it, and no other operation writes it. *)
Theorem initialization_guard :
  (∀ c l, this_isInitialized (new_BurnerManager c l) = false)
  ∧ (∀ options s, this_isInitialized s = false →
       BurnerManager.create world starknet derivePrivateKeyFromSeed options s
       = (Throw "BurnerManager is not initialized", s))
  ∧ (∀ keep s e s', this_isInitialized s = false →
       BurnerManager.init world starknet keep s = (Throw e, s') →
       this_isInitialized s' = false ∧ localStorage s' = localStorage s)
  ∧ (∀ keep s detached s',
       BurnerManager.init world starknet keep s = (Ok detached, s') →
       this_isInitialized s' = true)
  ∧ (∀ keep s, this_isInitialized s = true →
       BurnerManager.init world starknet keep s
       = (Throw "BurnerManager is already initialized", s))
  ∧ (∀ options, steps same_flag
       (BurnerManager.create world starknet derivePrivateKeyFromSeed options))
  ∧ (∀ a, steps same_flag (BurnerManager.select a))
  ∧ steps same_flag BurnerManager.deselect
  ∧ (∀ a td, steps same_flag (BurnerManager.delete world a td))
  ∧ (∀ td order, steps same_flag (BurnerManager.clear world td order))
  ∧ steps same_flag (BurnerManager.setBurnersFromClipboard world starknet).
Proof.
  split_and!.
  - reflexivity.
  - intros options s Hi. unfold BurnerManager.create, bind, gets.
    rewrite Hi. reflexivity.
  - intros keep s e s' Hi H. pose proof (init_run world starknet keep s Hi) as R.
    destruct (world (trace s) GetChainId) as [id|e'].
    + destruct R as (d & s'' & R & _). congruence.
    + rewrite R in H. injection H as <- <-. done.
  - intros keep s d s' H. destruct (this_isInitialized s) eqn:Hi.
    + unfold BurnerManager.init, bind, gets in H. rewrite Hi in H. done.
    + pose proof (init_run world starknet keep s Hi) as R.
      destruct (world (trace s) GetChainId) as [id|e'].
      * destruct R as (d' & s'' & R & _ & _ & Hi' & _). congruence.
      * congruence.
  - intros keep s Hi. unfold BurnerManager.init, bind, gets.
    rewrite Hi. reflexivity.
  - apply flag_create.
  - apply flag_select.
  - apply flag_deselect.
  - apply flag_delete.
  - apply flag_clear.
  - apply flag_setBurnersFromClipboard.
Qed.






End CreatePersists.

(** Every public operation that writes the store keeps it well formed, so
    with at most one burner marked active, whatever the outside world
    answers and whether the operation returns or throws; this covers the
    [clear()] that [init] leaves running.  For [setBurnersFromClipboard]
    this holds when no pasted burner sits under the empty string. *)
Theorem at_most_one_active_preserved world starknet derive s :
  all_well_formed s →
  at_most_one_active (stored s)
  ∧ (∀ a r s', BurnerManager.select a s = (r, s') → all_well_formed s')
  ∧ (∀ r s', BurnerManager.deselect s = (r, s') → all_well_formed s')
  ∧ (∀ a td r s',
       BurnerManager.delete world a td s = (r, s') → all_well_formed s')
  ∧ (∀ td order r s',
       BurnerManager.clear world td order s = (r, s') → all_well_formed s')
  ∧ (∀ options r s',
       BurnerManager.create world starknet derive options s = (r, s') →
       all_well_formed s')
  ∧ (∀ keep r s',
       BurnerManager.init world starknet keep s = (r, s') →
       all_well_formed s'
       ∧ ∀ ps order r' s'',
           r = Ok (Some ps) →
           BurnerManager.clear_finish order ps s' = (r', s'') →
           all_well_formed s'')
  ∧ (parses_addresses starknet →
     ∀ r s',
       BurnerManager.setBurnersFromClipboard world starknet s = (r, s') →
       all_well_formed s').
Proof.
  intros W. split_and!.
  - by destruct (all_well_formed_stored _ W).
  - intros a r s' H. by eapply select_well_formed.
  - intros r s' H. by eapply deselect_well_formed.
  - intros a td r s' H. by eapply delete_well_formed.
  - intros td order r s' H. by eapply clear_well_formed.
  - intros options r s' H. by eapply create_well_formed.
  - intros keep r s' H. by eapply init_well_formed.
  - intros HP r s' H. by eapply setBurnersFromClipboard_well_formed.
Qed.


(** ** The claims on concrete runs *)


(** C3, as stated, fails when the address of the new burner is already
    stored: a second [create()] with the same secret and index returns the
    same account, and the burner stored before under its address is stored
    with [active] true, not false. *)
Lemma create_again_keeps_previous_burner_active :
  ¬ persists_with_others_inactive world_ok katana derive_example options_seed
      (BurnerManager.create world_ok katana derive_example options_seed
         manager_ready).2.
Proof.
  set (s := (BurnerManager.create world_ok katana derive_example options_seed
               manager_ready).2).
  intros H.
  set (run := BurnerManager.create world_ok katana derive_example options_seed s).
  assert (E : run = (Ok (mkAccount "0xpub0xkeyseed" "0xkeyseed"), run.2))
    by (vm_compute; reflexivity).
  destruct (H _ _ E) as (_ & Hold & _).
  assert (Hb : ∃ b, lookup_burner "0xpub0xkeyseed" (stored s) = Some b)
    by (vm_compute; eexists; reflexivity).
  destruct Hb as [b Hb].
  destruct (Hold _ _ Hb) as (b' & Hb' & Hf).
  assert (Ht : active <$> lookup_burner "0xpub0xkeyseed" (stored run.2)
               = Some true) by (vm_compute; reflexivity).
  rewrite Hb' in Ht. cbn in Ht. congruence.
Qed.

(** C1 on a master account that cannot pay: the transfer of the prefund is
    refused, [create()] logs the error, goes on to [deployAccount] and
    returns the new burner, which it has stored; no transfer was completed
    before the deploy transaction. *)
Theorem create_deploys_after_refused_prefund :
  let master := mkAccount "0xmaster" "0xmasterkey" in
  let burner := mkAccount "0xpub0xrandom" "0xrandom" in
  let transfer :=
    Execute master
      [mkCall "0xfee" "transfer" ["0xpub0xrandom"; "0x2386f26fc10000"; "0x0"]]
      (mkDetails (Some "0x7") (Some 0%Z) None) in
  let deploy :=
    DeployAccount burner (mkPayload "0xclass" ["pub0xrandom"] "pub0xrandom")
      (mkDetails (Some "0x7") (Some 0%Z) None) in
  let run :=
    BurnerManager.create world_no_funds katana derive_example noOptions
      manager_ready in
  (∀ h, world_no_funds h transfer = Throw "rejected")
  ∧ run.1 = Ok burner
  ∧ calls_of (new_events manager_ready run.2)
    = [RandomAddress; GetNonce master; transfer;
       GetNonce (mkAccount "0x1" "0xk1"); deploy;
       GetTransactionReceipt master "0xdeploy"]
  ∧ is_Some (lookup_burner "0xpub0xrandom" (stored run.2))
  ∧ this_isDeploying run.2 = false.
Proof.
  cbv zeta. split_and!.
  - reflexivity.
  - vm_compute. reflexivity.
  - vm_compute. reflexivity.
  - vm_compute. eauto.
  - vm_compute. reflexivity.
Qed.

(** C9 on a clipboard that holds two burners marked active, the first one
    under the empty string: the burners are stored as they are, the first
    active address is falsy, [select] is not called, and the store is left
    with two active burners. *)
Theorem setBurnersFromClipboard_leaves_two_active :
  let run := BurnerManager.setBurnersFromClipboard world_ok katana manager_empty in
  at_most_one_active (stored manager_empty)
  ∧ JSON_parse katana (answer ClipboardReadText) = Ok pasted
  ∧ NoDup (keys pasted)
  ∧ run.1 = Ok tt
  ∧ stored run.2 = pasted
  ∧ count_active (stored run.2) = 2%nat
  ∧ ¬ at_most_one_active (stored run.2).
Proof.
  cbv zeta. split_and!.
  - vm_compute. lia.
  - reflexivity.
  - apply (bool_decide_unpack _). vm_compute. exact I.
  - vm_compute. reflexivity.
  - vm_compute. reflexivity.
  - vm_compute. reflexivity.
  - unfold at_most_one_active.
    assert (E : count_active
              (stored (BurnerManager.setBurnersFromClipboard world_ok katana
                         manager_empty).2) = 2%nat) by (vm_compute; reflexivity).
    rewrite E. lia.
Qed.

(** ** The theorems at concrete inputs *)

Lemma select_marks_exactly_one_witness :
  (∃ s', BurnerManager.select "0x2" manager_ready = (Ok tt, s')
     ∧ count_active (stored s') = 1%nat
     ∧ this_account s' = Some (mkAccount "0x2" "0xk2"))
  ∧ BurnerManager.select "0x3" manager_ready
    = (Throw "burner not found", manager_ready)
  ∧ (∃ s', BurnerManager.select "toString" manager_ready = (Ok tt, s')
       ∧ keys (stored s') = ["0x1"; "0x2"]
       ∧ count_active (stored s') = 0%nat
       ∧ this_account s' = Some (mkAccount "toString" undefined)).
Proof.
  destruct (select_marks_exactly_one "0x2" manager_ready) as [Hin _].
  destruct (select_marks_exactly_one "0x3" manager_ready) as [_ Hout].
  destruct (select_marks_exactly_one "toString" manager_ready) as [_ Hbuiltin].
  split_and!.
  - destruct (Hin burner_0x2) as (s' & Hrun & _ & _ & Hone & _ & _ & Hacc).
    { vm_compute. reflexivity. }
    exists s'. split_and!; [exact Hrun | | exact Hacc].
    apply Hone. apply (bool_decide_unpack _). vm_compute. exact I.
  - apply Hout. vm_compute. reflexivity.
  - destruct Hbuiltin as (s' & Hrun & _ & Hkeys & Hnone & _ & _ & Hacc).
    { vm_compute. reflexivity. }
    exists s'. split_and!; [exact Hrun | | exact Hnone | exact Hacc].
    rewrite Hkeys. vm_compute. reflexivity.
Defined.

Lemma delete_drains_before_removing_witness :
  (∃ s', BurnerManager.delete world_no_drain "0x1" None manager_ready = (Ok tt, s')
     ∧ localStorage s' = localStorage manager_ready
     ∧ lookup_burner "0x1" (stored s') = Some burner_0x1)
  ∧ (∃ s', BurnerManager.delete world_ok "0x1" None manager_ready = (Ok tt, s')
       ∧ lookup_burner "0x1" (stored s') = None)
  ∧ BurnerManager.delete world_ok "0x3" None manager_ready
    = (Throw "burner not found", manager_ready)
  ∧ (∃ s', BurnerManager.delete world_ok "__proto__" None manager_ready
           = (Ok tt, s')
       ∧ keys (stored s') = ["0x1"; "0x2"]
       ∧ calls_of (new_events manager_ready s')
         = [EmptyAccount "0xmaster" (mkAccount "__proto__" undefined) "0xfee"
              None]).
Proof.
  split_and!.
  - destruct (delete_drains_before_removing world_no_drain "0x1" None manager_ready)
      as [_ H].
    destruct (H burner_0x1) as [Hfail _]; [vm_compute; reflexivity|].
    destruct (Hfail "rejected") as (s' & Hrun & Hl & Hb & _); [reflexivity|].
    exists s'. done.
  - destruct (delete_drains_before_removing world_ok "0x1" None manager_ready)
      as [_ H].
    destruct (H burner_0x1) as [_ Hok]; [vm_compute; reflexivity|].
    destruct (Hok tt) as (s' & rest & Hrun & _ & Hb & _); [reflexivity|].
    exists s'. done.
  - apply (delete_drains_before_removing world_ok "0x3" None manager_ready).
    vm_compute. reflexivity.
  - destruct (delete_drains_before_removing world_ok "__proto__" None
                manager_ready) as [H _].
    destruct H as [_ Hok]; [vm_compute; reflexivity|].
    destruct (Hok tt) as (s' & rest & Hrun & _ & Hkeys & _); [reflexivity|].
    exists s'. split_and!; [exact Hrun | |].
    + rewrite Hkeys. vm_compute. reflexivity.
    + assert (E : s' = (BurnerManager.delete world_ok "__proto__" None
                          manager_ready).2) by (by rewrite Hrun).
      rewrite E. vm_compute. reflexivity.
Defined.

Lemma create_persists_new_burner_witness :
  let burner := mkAccount "0xpub0xrandom" "0xrandom" in
  let run :=
    BurnerManager.create world_ok katana derive_example noOptions manager_ready in
  run.1 = Ok burner
  ∧ this_account run.2 = Some burner
  ∧ (∃ tx, lookup_burner "0xpub0xrandom" (stored run.2)
           = Some (mkBurnerRecord "KATANA" "0xrandom" "pub0xrandom" tx
                     "0xmaster" true None None))
  ∧ lookup_burner "0x1" (stored run.2) = Some (set_active false burner_0x1).
Proof.
  cbv zeta.
  set (run := BurnerManager.create world_ok katana derive_example noOptions
                manager_ready).
  assert (E : run = (Ok (mkAccount "0xpub0xrandom" "0xrandom"), run.2))
    by (vm_compute; reflexivity).
  destruct (create_persists_new_burner world_ok katana derive_example noOptions
              manager_ready _ _ E)
    as (pk & tx & _ & Hb & Ha & _ & _ & _ & Hnew & Hold & _).
  injection Hb as _ <-.
  split_and!.
  - by rewrite E.
  - exact Ha.
  - exists tx. exact Hnew.
  - apply Hold; [vm_compute; discriminate | vm_compute; reflexivity].
Defined.

Lemma initialization_guard_witness :
  let fresh := new_BurnerManager config_example ∅ in
  BurnerManager.create world_ok katana derive_example noOptions fresh
  = (Throw "BurnerManager is not initialized", fresh)
  ∧ this_isInitialized manager_ready = true
  ∧ BurnerManager.init world_ok katana false manager_ready
    = (Throw "BurnerManager is already initialized", manager_ready).
Proof.
  cbv zeta.
  destruct (initialization_guard world_ok katana derive_example)
    as (Hnew & Hcreate & _ & Hdone & Hagain & _).
  assert (Hready : this_isInitialized manager_ready = true).
  { apply (Hdone false manager_new None). vm_compute. reflexivity. }
  split_and!.
  - apply Hcreate, Hnew.
  - exact Hready.
  - apply Hagain, Hready.
Defined.
Lemma manager_ready_well_formed : all_well_formed manager_ready.
Proof.
  assert (E : localStorage manager_ready
              = {[ "burners_KATANA" := [("0x1", burner_0x1); ("0x2", burner_0x2)] ]})
    by (vm_compute; reflexivity).
  intros key storage. rewrite E. intros [_ <-]%lookup_singleton_Some.
  split.
  - apply (bool_decide_unpack _). vm_compute. exact I.
  - unfold at_most_one_active. vm_compute. lia.
Defined.

Lemma at_most_one_active_preserved_witness :
  all_well_formed
    (BurnerManager.create world_ok katana derive_example noOptions
       manager_ready).2
  ∧ all_well_formed
      (BurnerManager.delete world_no_drain "0x1" None manager_ready).2.
Proof.
  destruct (at_most_one_active_preserved world_ok katana derive_example
              manager_ready manager_ready_well_formed)
    as (_ & _ & _ & _ & _ & Hcreate & _).
  destruct (at_most_one_active_preserved world_no_drain katana derive_example
              manager_ready manager_ready_well_formed)
    as (_ & _ & _ & Hdelete & _).
  split.
  - eapply Hcreate. apply surjective_pairing.
  - eapply Hdelete. apply surjective_pairing.
Defined.

Lemma create_transfer_precedes_deploy_witness :
  let run :=
    BurnerManager.create world_ok katana derive_example noOptions manager_ready in
  ∃ before after,
    trace run.2 = (trace manager_ready ++ before ++ after)%list
    ∧ Forall not_deploy before
    ∧ Forall not_execute after.
Proof.
  cbv zeta.
  apply (create_transfer_precedes_deploy world_ok katana derive_example
           noOptions manager_ready
           (BurnerManager.create world_ok katana derive_example noOptions
              manager_ready).1).
  apply surjective_pairing.
Defined.

Lemma list_returns_own_burners_witness :
  (BurnerManager.list manager_ready).1
  = Ok [mkBurner "0x1" true "0xmaster" None]
  ∧ NoDup (burner_address <$> [mkBurner "0x1" true "0xmaster" None]).
Proof.
  destruct (list_returns_own_burners manager_ready) as (l & Hrun & Hl & _ & Hnd).
  assert (E : l = [mkBurner "0x1" true "0xmaster" None])
    by (rewrite Hl; vm_compute; reflexivity).
  rewrite Hrun. rewrite E in *. split; [reflexivity|].
  apply Hnd. apply (bool_decide_unpack _). vm_compute. exact I.
Defined.

Lemma clear_removes_burner_key_witness :
  let run := BurnerManager.clear world_no_drain None ["0x2"] manager_ready in
  run.1 = Ok tt
  ∧ localStorage run.2 !! "burners_KATANA" = None
  ∧ (BurnerManager.list run.2).1 = Ok [].
Proof.
  cbv zeta.
  destruct (clear_removes_burner_key world_no_drain None ["0x2"] manager_ready)
    as (s' & Hrun & Hk & Hnone & _ & Hlist).
  rewrite Hrun. cbn [fst snd]. split_and!.
  - reflexivity.
  - rewrite <- Hnone, Hk. reflexivity.
  - by rewrite Hlist.
Defined.

Lemma prefundAccount_calls_in_order_witness :
  let master := mkAccount "0xmaster" "0xmasterkey" in
  let run :=
    prefundAccount world_ok katana "0xburner" master "0xfee" "0x10" None
      manager_ready in
  run.1 = Ok "receipt"
  ∧ calls_of (new_events manager_ready run.2)
    = [GetNonce master;
       Execute master [mkCall "0xfee" "transfer" ["0xburner"; "0x10"; "0x0"]]
         (mkDetails (Some "0x7") (Some 0%Z) None);
       WaitForTransaction master "0xtransfer"
         (mkWait 1000 (Some ["ACCEPTED_ON_L2"]))].
Proof.
  cbv zeta.
  destruct (prefundAccount_calls_in_order world_ok katana "0xburner"
              (mkAccount "0xmaster" "0xmasterkey") "0xfee" "0x10" None
              manager_ready)
    as (out & s' & Hrun & _ & _ & H).
  rewrite Hrun. cbn [fst snd]. cbv zeta in H.
  change (trace s' = ((trace manager_ready
            ++ [Called (GetNonce (mkAccount "0xmaster" "0xmasterkey"))])
            ++ [Called (prefund_execute katana "0xburner"
                          (mkAccount "0xmaster" "0xmasterkey") "0xfee" "0x10"
                          None "0x7")])
            ++ [Called (prefund_wait (mkAccount "0xmaster" "0xmasterkey")
                          "0xtransfer")]
          ∧ out = Ok "receipt")%list in H.
  destruct H as [Ht ->]. split; [reflexivity|].
  unfold new_events. rewrite Ht, <- !app_assoc, drop_app_length. reflexivity.
Defined.

(** * Further properties of the manager *)

(** ** Reading back what an operation stored *)

Section ReadBack.

Implicit Types (s : BurnerStorage) (a k : string) (b : BurnerRecord).

Lemma first_active_deactivate_all s :
  BurnerManager.first_active (deactivate_all s) = None.
Proof. induction s as [|[k b] s IH]; [done | exact IH]. Qed.

Lemma first_active_select a b s :
  lookup_burner a s = Some b →
  BurnerManager.first_active (activate a (deactivate_all s))
  = Some (a, set_active true b).
Proof.
  induction s as [|[k b'] s IH]; simpl; [done|].
  destruct (String.eqb k a) eqn:E.
  - apply String.eqb_eq in E as ->. by intros [= ->].
  - intros H. by apply IH.
Qed.

Lemma first_active_assign a b s :
  active b = true →
  BurnerManager.first_active (assign_burner a b (deactivate_all s)) = Some (a, b).
Proof.
  intros Hb. induction s as [|[k b'] s IH]; simpl.
  - by rewrite Hb.
  - destruct (String.eqb k a) eqn:E; simpl.
    + apply String.eqb_eq in E as ->. by rewrite Hb.
    + exact IH.
Qed.

Lemma elem_assign_burner a b s (x : string * BurnerRecord) :
  x ∈ assign_burner a b s → x = (a, b) ∨ x ∈ s.
Proof.
  induction s as [|[k b'] s IH]; simpl.
  - intros ->%list_elem_of_singleton. by left.
  - destruct (String.eqb k a) eqn:E.
    + apply String.eqb_eq in E as ->.
      intros [->|H]%elem_of_cons; [by left | right; by right].
    + intros [->|H]%elem_of_cons; [right; left|].
      destruct (IH H); [by left | right; by right].
Qed.

Lemma elem_deactivate_all s (x : string * BurnerRecord) :
  x ∈ deactivate_all s → active x.2 = false.
Proof.
  unfold deactivate_all. intros ([k b] & -> & _)%list_elem_of_fmap. done.
Qed.

Lemma select_twice a s :
  activate a (deactivate_all (activate a (deactivate_all s)))
  = activate a (deactivate_all s).
Proof.
  induction s as [|[k b] s IH]; [done|].
  change (deactivate_all ((k, b) :: s))
    with ((k, set_active false b) :: deactivate_all s).
  change (activate a ((k, set_active false b) :: deactivate_all s))
    with ((if String.eqb k a then (k, set_active true (set_active false b))
           else (k, set_active false b)) :: activate a (deactivate_all s)).
  destruct (String.eqb k a) eqn:E; simpl; rewrite E; f_equal; exact IH.
Qed.

Lemma lookup_burner_elem_key a b s : (a, b) ∈ s → a ∈ keys s.
Proof. intros H. unfold keys. apply list_elem_of_fmap. by exists (a, b). Qed.

End ReadBack.

(** A hex string is not the name of a property of [Object.prototype]. *)
Lemma hex_not_inherited digits : inherited ("0x" +:+ digits) = false.
Proof. reflexivity. Qed.

Lemma address_not_inherited (starknet : Starknet) accountClassHash privateKey :
  inherited (keys_address (keys_of starknet accountClassHash privateKey)) = false.
Proof.
  unfold keys_of. cbn [keys_address].
  destruct (address_is_hex starknet (getStarkKey starknet privateKey)
              accountClassHash
              (CallData_compile starknet [getStarkKey starknet privateKey]) 0)
    as [digits ->].
  apply hex_not_inherited.
Qed.

Lemma get_present a b s :
  lookup_burner a (stored s) = Some b →
  BurnerManager.get a s = (Ok (mkAccount a (privateKey b)), s).
Proof.
  intros H. unfold BurnerManager.get, bind.
  rewrite getBurnerStorage_eq, H. reflexivity.
Qed.

Lemma get_absent a s :
  lookup_burner a (stored s) = None →
  inherited a = false →
  BurnerManager.get a s = (Throw "burner not found", s).
Proof.
  intros H Hi. unfold BurnerManager.get, bind.
  rewrite getBurnerStorage_eq, H, Hi. reflexivity.
Qed.

Lemma get_builtin a s :
  lookup_burner a (stored s) = None →
  inherited a = true →
  BurnerManager.get a s = (Ok (mkAccount a undefined), s).
Proof.
  intros H Hi. unfold BurnerManager.get, bind.
  rewrite getBurnerStorage_eq, H, Hi. reflexivity.
Qed.

Lemma getActiveAccount_eq s :
  BurnerManager.getActiveAccount s = (Ok (active_account (stored s)), s).
Proof.
  unfold BurnerManager.getActiveAccount, bind. rewrite getBurnerStorage_eq.
  unfold ret, active_account.
  by destruct (BurnerManager.first_active (stored s)) as [[a b]|].
Qed.

(** After [select(address)] on a stored address, [getActiveAccount()] and
    [get(address)] both return the account [select] left in
    [this.account], and a second [select(address)] stores the same
    burners again. *)
Theorem select_then_read a b s :
  lookup_burner a (stored s) = Some b →
  ∃ s', BurnerManager.select a s = (Ok tt, s')
    ∧ this_account s' = Some (mkAccount a (privateKey b))
    ∧ BurnerManager.getActiveAccount s' = (Ok (this_account s'), s')
    ∧ BurnerManager.get a s' = (Ok (mkAccount a (privateKey b)), s')
    ∧ ∃ s'', BurnerManager.select a s' = (Ok tt, s'')
        ∧ stored s'' = stored s'
        ∧ this_account s'' = this_account s'.
Proof.
  intros Hb.
  destruct (select_present _ _ _ Hb) as (s' & R & _ & Hch & _ & Hl & Ha & _).
  assert (Hs : stored s' = activate a (deactivate_all (stored s))).
  { eapply stored_written; [|exact Hl]. unfold burner_key. by rewrite Hch. }
  assert (Hb' : lookup_burner a (stored s') = Some (set_active true b)).
  { rewrite Hs, lookup_activate, lookup_deactivate_all, Hb, String.eqb_refl.
    reflexivity. }
  exists s'. split_and!; try done.
  - rewrite getActiveAccount_eq, Ha. unfold active_account.
    by rewrite Hs, (first_active_select _ _ _ Hb).
  - by rewrite (get_present _ _ _ Hb').
  - destruct (select_present _ _ _ Hb') as (s'' & R' & _ & Hch' & _ & Hl' & Ha' & _).
    exists s''. split_and!; [done | | by rewrite Ha', Ha].
    erewrite (stored_written s''); [| |exact Hl'].
    2: { unfold burner_key. by rewrite Hch'. }
    rewrite Hs. apply select_twice.
Qed.

Section CreateReadBack.

Variable world : Oracle.
Variable starknet : Starknet.
Variable derivePrivateKeyFromSeed : string → Z → string.

(** After a [create()] that returned a burner, [get] on its address and
    [getActiveAccount()] both return that burner, and [list()] shows it as
    the only active entry, under the address of the master account. *)
Theorem create_then_read options s burner s' :
  BurnerManager.create world starknet derivePrivateKeyFromSeed options s
  = (Ok burner, s') →
  let entry :=
    mkBurner (address burner) true (address (this_masterAccount (config s)))
      (if truthy_string (secret options) then index options else None) in
  BurnerManager.get (address burner) s' = (Ok burner, s')
  ∧ BurnerManager.getActiveAccount s' = (Ok (Some burner), s')
  ∧ ∃ l, BurnerManager.list s' = (Ok l, s')
      ∧ entry ∈ l
      ∧ ∀ x, x ∈ l → burner_active x = true → x = entry.
Proof.
  intros H.
  apply create_Ok_inv in H
    as (pk & tx & h & d & _ & -> & _ & Hc & Hch & _ & _ & Hl).
  set (k := keys_of starknet (this_accountClassHash (config s)) pk) in *.
  set (rec := BurnerManager.new_record options (this_chainId s) k tx
                (address (this_masterAccount (config s)))) in *.
  assert (Hs : stored s' = assign_burner (keys_address k) rec
                             (deactivate_all (stored s))).
  { eapply stored_written; [|exact Hl]. unfold burner_key. by rewrite Hch. }
  assert (Hrec : lookup_burner (keys_address k) (stored s') = Some rec).
  { by rewrite Hs, lookup_assign_burner, String.eqb_refl. }
  cbv zeta. cbn [address]. split_and!.
  - by rewrite (get_present _ _ _ Hrec).
  - rewrite getActiveAccount_eq. unfold active_account.
    by rewrite Hs, first_active_assign.
  - eexists. split; [apply list_eq|]. rewrite Hc. split.
    + apply list_elem_of_fmap. exists (keys_address k, rec). split; [done|].
      apply list_elem_of_In, filter_In. split.
      * by apply list_elem_of_In, lookup_burner_Some_elem.
      * apply String.eqb_refl.
    + intros x ([a r] & -> & Hx)%list_elem_of_fmap Hact.
      apply list_elem_of_In, filter_In in Hx as [Hx _].
      apply list_elem_of_In in Hx. rewrite Hs in Hx.
      apply elem_assign_burner in Hx as [[= -> ->]|Hx]; [done|].
      apply elem_deactivate_all in Hx. cbn in Hact, Hx. congruence.
Qed.

End CreateReadBack.

(** ** What a run leaves untouched *)

Global Instance preserves_preorder {X} (f : State → X) : PreOrder (preserves f).
Proof.
  split; [by intros s|].
  intros s1 s2 s3 H1 H2. unfold preserves in *. congruence.
Qed.

Lemma preserves_call {X} (f : State → X) world c :
  (∀ t s, f (set_trace t s) = f s) → steps (preserves f) (call world c).
Proof. intros H s r s' [= <- <-]. apply H. Qed.

Lemma preserves_modify {X} (f : State → X) (g : State → State) :
  (∀ s, f (g s) = f s) → steps (preserves f) (modify g).
Proof. intros H. apply steps_modify. exact H. Qed.

(** Decompose a computation into its steps, each of which keeps [f]. *)
Ltac preserves_steps f :=
  repeat first
    [ match goal with
      | |- steps _ (call ?w ?c) => apply (preserves_call f w c); reflexivity
      | |- steps _ (modify _) => apply (preserves_modify f); reflexivity
      | |- steps _ (emit _) => unfold emit
      | |- steps _ (console_log _) => unfold console_log
      | |- steps _ (if ?b then _ else _) => destruct b
      | |- steps _ (match ?x with Some _ => _ | None => _ end) => destruct x
      | |- steps _ (match ?x with Ok _ => _ | Throw _ => _ end) => destruct x
      | |- ∀ _, _ => intro
      end
    | apply (steps_ret (preserves f)) | apply (steps_throw (preserves f))
    | apply (steps_gets (preserves f))
    | apply (steps_bind (preserves f)) | apply (steps_try_catch (preserves f)) ].

Section Throws.

Context (R : State → State → Prop) `{!PreOrder R}.

Lemma throws_within_steps {A} (m : M A) : steps R m → throws_within R m.
Proof. intros H s e s' E. exact (H _ _ _ E). Qed.

Lemma throws_within_never {A} (m : M A) : never_throws m → throws_within R m.
Proof. intros H s e s' E. by destruct (H _ _ _ E) as [a ?]. Qed.

Lemma throws_within_bind {A B} (m : M A) (k : A → M B) :
  steps R m → (∀ a, throws_within R (k a)) → throws_within R (bind m k).
Proof.
  intros Hm Hk s e s' H.
  apply bind_inv in H as [(e' & H & _)|(a & s1 & H1 & H)].
  - exact (Hm _ _ _ H).
  - etrans; [exact (Hm _ _ _ H1) | exact (Hk _ _ _ _ H)].
Qed.

End Throws.

Lemma never_throws_ret {A} (a : A) : never_throws (ret a).
Proof. intros s r s' [= <- <-]. eauto. Qed.

Lemma never_throws_gets {A} (f : State → A) : never_throws (gets f).
Proof. intros s r s' [= <- <-]. eauto. Qed.

Lemma never_throws_modify f : never_throws (modify f).
Proof. intros s r s' [= <- <-]. eauto. Qed.

Lemma never_throws_bind {A B} (m : M A) (k : A → M B) :
  never_throws m → (∀ a, never_throws (k a)) → never_throws (bind m k).
Proof.
  intros Hm Hk s r s' H.
  apply bind_inv in H as [(e' & H & _)|(a & s1 & H1 & H)].
  - by destruct (Hm _ _ _ H).
  - exact (Hk _ _ _ _ H).
Qed.

Lemma never_throws_try_catch {A} (m : M A) (h : string → M A) :
  (∀ e, never_throws (h e)) → never_throws (try_catch m h).
Proof.
  intros Hh s r s'. unfold try_catch.
  destruct (m s) as [[a|e] s1]; [intros [= <- <-]; eauto | apply Hh].
Qed.

Ltac never_throws_steps :=
  repeat first
    [ match goal with
      | |- never_throws (emit _) => unfold emit
      | |- never_throws (console_log _) => unfold console_log
      | |- never_throws (if ?b then _ else _) => destruct b
      | |- ∀ _, _ => intro
      end
    | apply never_throws_ret | apply never_throws_gets
    | apply never_throws_modify
    | apply never_throws_try_catch | apply never_throws_bind ].

Lemma ensures_bind {A B} (Q : Result B → State → Prop) (m : M A) (k : A → M B) :
  (∀ e s, Q (Throw e) s) → (∀ a, ensures Q (k a)) → ensures Q (bind m k).
Proof.
  intros Ht Hk s r s' H.
  apply bind_inv in H as [(e' & H & ->)|(a & s1 & H1 & H)].
  - apply Ht.
  - exact (Hk _ _ _ _ H).
Qed.

Lemma updateIsDeploying_sets world b s s' :
  BurnerManager.updateIsDeploying world b s = (Ok tt, s') →
  this_isDeploying s' = b.
Proof.
  unfold BurnerManager.updateIsDeploying. mrun. state_simpl.
  destruct (this_setIsDeploying (config s)); mrun.
  - match goal with |- context [world ?h ?c] => destruct (world h c) end;
      intros [= E]; subst; reflexivity.
  - intros [= E]; subst; reflexivity.
Qed.

Section CreateOutcome.

Variable world : Oracle.
Variable starknet : Starknet.
Variable derivePrivateKeyFromSeed : string → Z → string.

Lemma create_throws_before_writing options :
  throws_within (preserves localStorage)
    (BurnerManager.create world starknet derivePrivateKeyFromSeed options).
Proof.
  unfold BurnerManager.create.
  apply (throws_within_bind (preserves localStorage));
    [preserves_steps localStorage | intros ini].
  destruct (negb ini).
  { apply (throws_within_steps (preserves localStorage)).
    preserves_steps localStorage. }
  do 12 (apply (throws_within_bind (preserves localStorage));
         [ unfold BurnerManager.updateIsDeploying,
             BurnerManager.generateKeysAndAddress, prefundAccount,
             BurnerManager.isBurnerDeployed, BurnerManager.getBurnerStorage,
             BurnerManager.getBurnerKey, Storage_get;
           solve [preserves_steps localStorage]
         | intro ]; cbv zeta).
  apply (throws_within_bind (preserves localStorage));
    [ unfold BurnerManager.updateIsDeploying;
      solve [preserves_steps localStorage] | intros _ ].
  apply (throws_within_never (preserves localStorage)).
  unfold BurnerManager.getBurnerKey, Storage_set. never_throws_steps.
Qed.

Lemma create_returns_idle options :
  ensures (λ r s', match r with
                   | Ok _ => this_isDeploying s' = false
                   | Throw _ => True
                   end)
    (BurnerManager.create world starknet derivePrivateKeyFromSeed options).
Proof.
  unfold BurnerManager.create.
  apply ensures_bind; [done | intros ini].
  destruct (negb ini); [by intros s r s' [= <- <-]|].
  do 12 (apply ensures_bind; [done | intro]; cbv zeta).
  intros s r s' H.
  apply bind_inv in H as [(e' & H & ->)|([] & s1 & H1 & H)]; [done|].
  apply updateIsDeploying_sets in H1.
  assert (K : preserves this_isDeploying s1 s').
  { revert H. match goal with |- ?m s1 = _ → _ =>
      assert (X : steps (preserves this_isDeploying) m);
      [ unfold BurnerManager.getBurnerKey, Storage_set;
        preserves_steps this_isDeploying
      | exact (X s1 r s') ] end. }
  destruct r; [|done]. by rewrite K.
Qed.

(** A [create()] that throws has written nothing to local storage, and a
    [create()] that returns has reset [isDeploying] to false. *)
Theorem create_outcome options s r s' :
  BurnerManager.create world starknet derivePrivateKeyFromSeed options s
  = (r, s') →
  match r with
  | Throw _ => localStorage s' = localStorage s
  | Ok _ => this_isDeploying s' = false
  end.
Proof.
  intros H. destruct r as [burner|e].
  - exact (create_returns_idle options _ _ _ H).
  - exact (create_throws_before_writing options _ _ _ H).
Qed.

End CreateOutcome.

(** ** deselect, delete and clear, read back *)

(** [deselect()] always returns; afterwards no stored burner is marked
    active, every burner is still stored with its other fields,
    [this.account] is null and so is [getActiveAccount()].  The burners are
    written back under the burner key even when none was stored. *)
Theorem deselect_clears_active s :
  ∃ s', BurnerManager.deselect s = (Ok tt, s')
    ∧ this_account s' = None
    ∧ localStorage s'
      = <[burner_key s := deactivate_all (stored s)]> (localStorage s)
    ∧ (∀ a, lookup_burner a (stored s')
            = set_active false <$> lookup_burner a (stored s))
    ∧ keys (stored s') = keys (stored s)
    ∧ count_active (stored s') = 0%nat
    ∧ BurnerManager.getActiveAccount s' = (Ok None, s').
Proof.
  eexists. split; [reflexivity|].
  match goal with |- context [stored ?s1] =>
    assert (Hs : stored s1 = deactivate_all (stored s))
      by (eapply stored_written; reflexivity)
  end.
  split_and!; try reflexivity.
  - intros a. rewrite Hs. apply lookup_deactivate_all.
  - rewrite Hs. apply keys_deactivate_all.
  - rewrite Hs. apply count_active_deactivate_all.
  - rewrite getActiveAccount_eq. unfold active_account.
    by rewrite Hs, first_active_deactivate_all.
Qed.

Section DeleteReadBack.

Variable world : Oracle.

(** When the drain succeeds, [delete(address)] leaves the other burners in
    their order, makes the first of them the only active one, whichever
    was active before, and sets [this.account] to it; when none is left
    [this.account] is null. *)
Theorem delete_selects_first_remaining a td s b u :
  lookup_burner a (stored s) = Some b →
  world (trace s) (drain_of s a b td) = Ok u →
  ∃ s', BurnerManager.delete world a td s = (Ok tt, s')
    ∧ keys (stored s')
      = List.filter (λ k, negb (String.eqb k a)) (keys (stored s))
    ∧ match keys (stored s') with
      | [] => this_account s' = None
      | first :: _ =>
          (∃ r, lookup_burner first (stored s) = Some r
                ∧ this_account s' = Some (mkAccount first (privateKey r)))
          ∧ BurnerManager.getActiveAccount s' = (Ok (this_account s'), s')
          ∧ ∀ k, lookup_burner k (stored s')
                 = if String.eqb k a then None
                   else set_active (String.eqb k first)
                          <$> lookup_burner k (stored s)
      end.
Proof.
  intros Hb Hu. unfold BurnerManager.delete.
  rewrite (delete_begin_present _ _ _ _ _ Hb), Hu.
  cbn [BurnerManager.settle]. unfold BurnerManager.delete_resume.
  set (s1 := set_trace _ s).
  assert (Es1 : stored s1 = stored s) by (by apply stored_same).
  assert (Ek1 : burner_key s1 = burner_key s) by reflexivity.
  set (rest := remove_burner a (stored s)).
  destruct (keys rest) as [|first others] eqn:Ek.
  - mrun.
    match goal with |- ∃ s', (Ok tt, ?S) = _ ∧ _ => exists S; set (s2 := S) end.
    split; [reflexivity|].
    assert (Hs : stored s2 = rest) by (eapply stored_written; reflexivity).
    rewrite Hs. unfold rest at 1. rewrite <- keys_remove_burner. fold rest.
    rewrite Ek. split; reflexivity.
  - mrun.
    match goal with |- context [BurnerManager.select first ?s2] =>
      assert (Hs2 : stored s2 = rest) by (eapply stored_written; reflexivity);
      assert (Ek2 : burner_key s2 = burner_key s) by reflexivity;
      destruct (lookup_first first rest others Ek) as [r Hr];
      rewrite <- Hs2 in Hr;
      destruct (select_present _ _ _ Hr) as (s3 & R & _ & Hch & _ & Hl & Ha & _)
    end.
    rewrite R. exists s3. split; [reflexivity|].
    assert (Hs3 : stored s3 = activate first (deactivate_all rest)).
    { rewrite <- Hs2. eapply stored_written; [|exact Hl].
      unfold burner_key. by rewrite Hch. }
    assert (Hk3 : keys (stored s3) = first :: others).
    { by rewrite Hs3, keys_activate, keys_deactivate_all. }
    rewrite Hk3. rewrite Hs2 in Hr.
    assert (Hr0 : lookup_burner first (stored s) = Some r).
    { unfold rest in Hr. rewrite lookup_remove_burner in Hr.
      by destruct (String.eqb first a). }
    split_and!.
    + rewrite <- Ek. apply keys_remove_burner.
    + exists r. done.
    + rewrite getActiveAccount_eq, Ha. unfold active_account.
      by rewrite Hs3, (first_active_select _ _ _ Hr).
    + intros k. rewrite Hs3, lookup_activate, lookup_deactivate_all.
      unfold rest. rewrite lookup_remove_burner.
      destruct (String.eqb k a); [done|].
      destruct (lookup_burner k (stored s)) as [r'|]; [|done]. cbn.
      by destruct (String.eqb k first).
Qed.

(** Once [clear()] has resolved no burner is stored and
    [getActiveAccount()] returns null.  [get], [select] and [delete] then
    throw ["burner not found"] on every address that does not name a
    property of [Object.prototype].  On one that does, [storage[address]]
    is a built-in of the empty object and none of them throws: [get]
    returns an account of that address with no private key, [select]
    makes it [this.account], and [delete] returns with still nothing
    stored. *)
Theorem clear_then_read td order s :
  ∃ s', BurnerManager.clear world td order s = (Ok tt, s')
    ∧ stored s' = []
    ∧ BurnerManager.getActiveAccount s' = (Ok None, s')
    ∧ ∀ a td',
        if inherited a
        then BurnerManager.get a s' = (Ok (mkAccount a undefined), s')
             ∧ (∃ s'', BurnerManager.select a s' = (Ok tt, s'')
                  ∧ stored s'' = []
                  ∧ this_account s'' = Some (mkAccount a undefined))
             ∧ (∃ s'', BurnerManager.delete world a td' s' = (Ok tt, s'')
                  ∧ stored s'' = [])
        else BurnerManager.get a s' = (Throw "burner not found", s')
             ∧ BurnerManager.select a s' = (Throw "burner not found", s')
             ∧ BurnerManager.delete world a td' s'
               = (Throw "burner not found", s').
Proof.
  unfold BurnerManager.clear.
  destruct (clear_begin_ok world td s) as (ps & s1 & H1 & O & A & _).
  rewrite H1.
  destruct (clear_finish_ok order ps s1 A) as (s' & H' & _ & Hi & _ & Hl).
  exists s'. split; [exact H'|].
  assert (Hs : stored s' = []).
  { eapply stored_removed; [|exact Hl]. unfold burner_key. by rewrite Hi. }
  split_and!; [done | | ].
  - rewrite getActiveAccount_eq. by rewrite Hs.
  - intros a td'.
    assert (Hn : lookup_burner a (stored s') = None) by (by rewrite Hs).
    destruct (inherited a) eqn:Ha; split_and!.
    + by apply get_builtin.
    + destruct (select_builtin _ _ Hn Ha) as (s'' & R & _ & Hc & _ & Hl' & Hacc & _).
      exists s''. split_and!; [exact R | | exact Hacc].
      erewrite (stored_written s''); [| | exact Hl'].
      * by rewrite Hs.
      * unfold burner_key. by rewrite Hc.
    + unfold BurnerManager.delete.
      rewrite (delete_begin_builtin _ _ _ _ Hn Ha).
      destruct (world (trace s') (drain_of_builtin s' a td')) as [u|e];
        cbn [BurnerManager.settle].
      * destruct (delete_resume_drained a (stored s') u
                    (set_trace (trace s' ++ [Called (drain_of_builtin s' a td')]) s'))
          as (s'' & R & _ & Hc & _ & Hl' & _).
        exists s''. split; [exact R|].
        erewrite (stored_written s''); [| | exact Hl'].
        -- by rewrite Hs.
        -- unfold burner_key. by rewrite Hc.
      * rewrite delete_resume_failed. eexists. split; [reflexivity|].
        erewrite stored_same; [exact Hs | reflexivity | reflexivity].
    + by apply get_absent.
    + by apply select_absent.
    + unfold BurnerManager.delete.
      by rewrite (delete_begin_absent _ _ _ _ Hn Ha).
Qed.

End DeleteReadBack.

(** ** What init keeps *)

Section InitKeeps.

Variable world : Oracle.
Variable starknet : Starknet.

Lemma isBurnerDeployed_stable deployed tx s :
  stable_receipts world (this_masterAccount (config s)) deployed →
  ∃ s', BurnerManager.isBurnerDeployed world tx s = (Ok (deployed tx), s')
    ∧ only_calls s s'.
Proof.
  intros Hst. pose proof (Hst (trace s) tx) as Hd.
  unfold BurnerManager.isBurnerDeployed. mrun.
  destruct (world (trace s) (GetTransactionReceipt _ tx)) as [[r|]|e];
    rewrite Hd; (eexists; split; [reflexivity | by repeat split]).
Qed.

Lemma checks_stable deployed storage s :
  stable_receipts world (this_masterAccount (config s)) deployed →
  ∃ s', BurnerManager.checks world storage s
        = (Ok (map (λ kb : string * BurnerRecord,
                         if deployed (deployTx kb.2) then None else Some kb.1)
                 storage), s')
    ∧ only_calls s s'.
Proof.
  revert s. induction storage as [|[a b] storage IH]; intros s Hst.
  - exists s. split; reflexivity.
  - cbn [BurnerManager.checks].
    destruct (isBurnerDeployed_stable deployed (deployTx b) s Hst)
      as (s1 & H1 & O1).
    destruct (IH s1) as (s2 & H2 & O2).
    { destruct O1 as (-> & _). exact Hst. }
    exists s2. split; [|by etrans].
    unfold bind at 1. rewrite H1. unfold bind at 1. rewrite H2. reflexivity.
Qed.

Lemma remove_each_kept toRemove storage s :
  BurnerManager.remove_each true toRemove storage s = (Ok storage, s).
Proof. induction toRemove as [|a l IH]; [reflexivity | exact IH]. Qed.

Lemma remove_each_removed toRemove storage s :
  ∃ s', BurnerManager.remove_each false toRemove storage s
        = (Ok (List.filter (λ kb, negb (bool_decide (kb.1 ∈ toRemove))) storage),
           s')
    ∧ only_calls s s'.
Proof.
  revert storage s. induction toRemove as [|a l IH]; intros storage s.
  - exists s. split; [|reflexivity]. cbn [BurnerManager.remove_each].
    unfold ret. f_equal. f_equal. symmetry.
    apply forallb_filter_id, forallb_forall.
    intros x _. rewrite bool_decide_eq_false_2; [done | apply not_elem_of_nil].
  - cbn [BurnerManager.remove_each]. unfold bind, console_log, modify.
    match goal with |- context [BurnerManager.remove_each _ _ ?st ?s1] =>
      destruct (IH st s1) as (s' & H & O) end.
    exists s'. split; [|etrans; [|exact O]; by repeat split].
    rewrite H. f_equal. f_equal. unfold remove_burner.
    clear. induction storage as [|[k b] st IHst]; [done|].
    cbn. destruct (String.eqb k a) eqn:E; cbn.
    + apply String.eqb_eq in E as ->.
      rewrite (bool_decide_eq_true_2 (a ∈ a :: l)) by left. cbn. exact IHst.
    + apply String.eqb_neq in E. rewrite IHst.
      destruct (bool_decide (k ∈ l)) eqn:El.
      * apply bool_decide_eq_true in El.
        rewrite (bool_decide_eq_true_2 (k ∈ a :: l)) by (by right). done.
      * apply bool_decide_eq_false in El.
        rewrite (bool_decide_eq_false_2 (k ∈ a :: l)); [done|].
        rewrite not_elem_of_cons. done.
Qed.

Lemma same_key_same_burner (storage : BurnerStorage) a b1 b2 :
  NoDup (keys storage) → (a, b1) ∈ storage → (a, b2) ∈ storage → b1 = b2.
Proof.
  intros ND H1 H2. apply (elem_lookup_burner _ _ _ ND) in H1, H2. congruence.
Qed.

(** Removing the addresses of the burners without a receipt leaves the
    burners with one. *)
Lemma removed_undeployed (deployed : string → bool) (storage : BurnerStorage) :
  NoDup (keys storage) →
  List.filter
    (λ kb : string * BurnerRecord, negb (bool_decide
       (kb.1 ∈ omap (λ x : option string, x)
                 (map (λ kb : string * BurnerRecord,
                         if deployed (deployTx kb.2) then None else Some kb.1)
                    storage))))
    storage
  = deployed_burners deployed storage.
Proof.
  intros ND. unfold deployed_burners. apply filter_ext_in. intros [a b] Hin.
  apply list_elem_of_In in Hin. cbn [fst snd].
  destruct (deployed (deployTx b)) eqn:Ed.
  - rewrite bool_decide_eq_false_2; [done|].
    intros (o & Hin' & Ho)%list_elem_of_omap. cbn in Ho. subst o.
    apply list_elem_of_fmap in Hin' as ([a' b'] & E & Hin'). cbn in E.
    destruct (deployed (deployTx b')) eqn:Ed'; [done|]. injection E as <-.
    rewrite (same_key_same_burner _ _ _ _ ND Hin Hin') in Ed. congruence.
  - rewrite bool_decide_eq_true_2; [done|].
    apply list_elem_of_omap. exists (Some a). split; [|done].
    apply list_elem_of_fmap. exists (a, b). cbn. by rewrite Ed.
Qed.

Lemma start_all_length addresses td s :
  length (BurnerManager.start_all world addresses td s).1 = length addresses.
Proof.
  revert s. induction addresses as [|a l IH]; intros s; [done|].
  cbn [BurnerManager.start_all].
  destruct (BurnerManager.delete_begin world a td s) as [p s1].
  specialize (IH s1).
  destruct (BurnerManager.start_all world l td s1) as [ps s2]. cbn in *.
  by rewrite IH.
Qed.

(** When the chain id resolves, [init] stores under the key of that chain
    the burners whose deploy transaction has a receipt (all of them with
    [keepNonDeployed]), in their order and as they were, and sets
    [this.account] to the first active one of them, if any.  When none is
    kept it writes nothing: the burners are still stored when [init]
    returns, and it has started, without awaiting it, a [clear()] that
    asks for a drain of each of them. *)
Theorem init_keeps_deployed (keep : bool) (s : State) (id : string)
    (deployed : string → bool) :
  let s0 := set_chainId (decodeShortString starknet id) s in
  let kept := if keep then stored s0
              else deployed_burners deployed (stored s0) in
  this_isInitialized s = false →
  world (trace s) GetChainId = Ok id →
  stable_receipts world (this_masterAccount (config s)) deployed →
  NoDup (keys (stored s0)) →
  ∃ detached s',
    BurnerManager.init world starknet keep s = (Ok detached, s')
    ∧ this_chainId s' = decodeShortString starknet id
    ∧ match kept with
      | [] =>
          localStorage s' = localStorage s
          ∧ this_account s' = this_account s
          ∧ ∃ ps, detached = Some ps ∧ length ps = length (stored s0)
      | _ :: _ =>
          detached = None
          ∧ stored s' = kept
          ∧ this_account s'
            = match active_account kept with
              | Some account => Some account
              | None => this_account s
              end
      end.
Proof.
  intros s0 kept Hi Ew Hst ND. unfold BurnerManager.init.
  mrun. rewrite Hi. mrun. rewrite Ew. mrun.
  match goal with |- context [BurnerManager.checks world ?st ?s1] =>
    assert (Es1 : st = stored s0) by (by apply stored_same);
    assert (O1 : only_calls s0 s1) by (by repeat split);
    rewrite Es1;
    destruct (checks_stable deployed (stored s0) s1 Hst) as (s2 & H2 & O2)
  end.
  rewrite H2. mrun.
  assert (O02 : only_calls s0 s2) by (etrans; [exact O1 | exact O2]).
  assert (∃ s3, BurnerManager.remove_each keep
              (omap (λ x : option string, x)
                 (map (λ kb : string * BurnerRecord,
                         if deployed (deployTx kb.2) then None else Some kb.1)
                    (stored s0)))
              (stored s0) s2 = (Ok kept, s3) ∧ only_calls s0 s3)
    as (s3 & H3 & O3).
  { unfold kept. destruct keep.
    - rewrite remove_each_kept. eauto.
    - destruct (remove_each_removed
                  (omap (λ x : option string, x)
                     (map (λ kb : string * BurnerRecord,
                             if deployed (deployTx kb.2) then None
                             else Some kb.1) (stored s0)))
                  (stored s0) s2) as (s3 & H3 & O3).
      exists s3. rewrite H3, (removed_undeployed _ _ ND).
      split; [done | by etrans]. }
  rewrite H3. mrun. clear H2 H3 O1 O2 O02 Es1.
  pose proof (only_calls_stored _ _ O3) as Es3.
  pose proof (only_calls_key _ _ O3) as Ek3.
  destruct O3 as (Ec & Eh & Ea & _ & El). unfold s0 in Ec, Eh, Ea, El.
  state_simpl.
  destruct kept as [|[a b] kept'] eqn:Ekept; cbn [keys fmap list_fmap].
  - destruct (BurnerManager.clear_begin world None s3) as [ps s4] eqn:H4.
    destruct (clear_begin_ok world None s3) as (ps' & s4' & H4' & O4 & _).
    rewrite H4 in H4'. injection H4' as <- <-. mrun.
    eexists _, _. split; [reflexivity|]. state_simpl.
    destruct O4 as (_ & Eh4 & Ea4 & _ & El4).
    split_and!; [congruence | congruence | congruence |].
    exists ps. split; [done|].
    assert (E : ps = (BurnerManager.clear_begin world None s3).1) by (by rewrite H4).
    rewrite E. unfold BurnerManager.clear_begin. rewrite getBurnerStorage_eq.
    rewrite start_all_length. unfold keys. by rewrite length_fmap, Es3.
  - mrun. unfold BurnerManager.setActiveBurnerAccount, active_account.
    destruct (BurnerManager.first_active ((a, b) :: kept')) as [[a' b']|];
      mrun; (eexists _, _; split; [reflexivity|]); state_simpl;
      (split_and!; [done | done | | done]);
      (eapply stored_written; [|reflexivity]);
      unfold burner_key; state_simpl; by rewrite Eh.
Qed.

End InitKeeps.

(** ** Pasting burners *)

Section Paste.

Variable world : Oracle.
Variable starknet : Starknet.

(** [setBurnersFromClipboard()] rethrows what reading the clipboard or
    parsing its text throws, and has then changed neither local storage nor
    [this.account].  Otherwise it returns and the pasted burners have
    replaced the stored ones.  When one of them is marked active under a
    non-empty address, the first such burner is selected: it is the only
    active one and [this.account] is its account.  When none is, or the
    first one sits under the empty string, the burners are stored as pasted
    and [this.account] is left as it was. *)
Theorem setBurnersFromClipboard_replaces_store s :
  let run := BurnerManager.setBurnersFromClipboard world starknet s in
  let untouched e :=
    run.1 = Throw e
    ∧ localStorage run.2 = localStorage s
    ∧ this_account run.2 = this_account s in
  match world (trace s) ClipboardReadText with
  | Throw e => untouched e
  | Ok text =>
      match JSON_parse starknet text with
      | Throw e => untouched e
      | Ok burners =>
          run.1 = Ok tt
          ∧ keys (stored run.2) = keys burners
          ∧ match BurnerManager.first_active burners with
            | Some (a, b) =>
                if String.eqb a ""
                then stored run.2 = burners
                     ∧ this_account run.2 = this_account s
                else stored run.2 = activate a (deactivate_all burners)
                     ∧ ∃ b', lookup_burner a burners = Some b'
                         ∧ this_account run.2
                           = Some (mkAccount a (privateKey b'))
            | None => stored run.2 = burners
                      ∧ this_account run.2 = this_account s
            end
      end
  end.
Proof.
  cbv zeta. unfold BurnerManager.setBurnersFromClipboard. mrun.
  destruct (world (trace s) ClipboardReadText) as [text|e]; mrun;
    [|by split_and!].
  destruct (JSON_parse starknet text) as [burners|e] eqn:Ep; mrun;
    [|by split_and!].
  destruct (BurnerManager.first_active burners) as [[a b]|] eqn:Ef;
    cbn [fmap option_fmap option_map fst truthy_string default from_option id].
  - destruct (String.eqb a "") eqn:Ea; cbn [negb].
    + cbn [fst snd].
      match goal with |- context [stored ?s1] =>
        assert (Hs : stored s1 = burners) by (eapply stored_written; reflexivity)
      end.
      rewrite Hs. by split_and!.
    + assert (Ha : a ∈ keys burners) by by eapply first_active_lookup.
      apply lookup_burner_is_Some in Ha as [b' Hb'].
      match goal with |- context [BurnerManager.select a ?s1] =>
        assert (Hs : stored s1 = burners) by (eapply stored_written; reflexivity);
        rewrite <- Hs in Hb';
        destruct (select_present _ _ _ Hb') as (s2 & R & _ & Hch & _ & Hl & Hacc & _);
        rewrite Hs in Hb', Hl
      end.
      rewrite R. cbn [fst snd].
      assert (Hs2 : stored s2 = activate a (deactivate_all burners)).
      { eapply stored_written; [|exact Hl]. unfold burner_key. by rewrite Hch. }
      rewrite Hs2, keys_activate, keys_deactivate_all.
      split_and!; try done. by exists b'.
  - cbn [fst snd].
    match goal with |- context [stored ?s1] =>
      assert (Hs : stored s1 = burners) by (eapply stored_written; reflexivity)
    end.
    rewrite Hs. by split_and!.
Qed.

End Paste.

(** ** Keys derived from a secret *)

Section Secret.

Variable world : Oracle.
Variable starknet : Starknet.
Variable derivePrivateKeyFromSeed : string → Z → string.

(** With a secret, the burner [create] returns is the one of the key
    derived from the secret and from [index || 0]. *)
Lemma create_derived_burner options s burner s' :
  truthy_string (secret options) = true →
  BurnerManager.create world starknet derivePrivateKeyFromSeed options s
  = (Ok burner, s') →
  let k := keys_of starknet (this_accountClassHash (config s))
             (derivePrivateKeyFromSeed (default "" (secret options))
                (default 0%Z (index options))) in
  burner = mkAccount (keys_address k) (keys_privateKey k).
Proof.
  intros Ht H. cbv zeta. unfold BurnerManager.create in H.
  apply bind_Ok_inv in H as (ini & s0 & H0 & H).
  apply gets_inv in H0 as [[= ->] ->].
  destruct (negb (this_isInitialized s)); [done|].
  apply bind_Ok_inv in H as ([] & s1 & H1 & H).
  apply steps_updateIsDeploying in H1 as (Ec & _).
  apply bind_Ok_inv in H as (k & s2 & H2 & H).
  unfold BurnerManager.generateKeysAndAddress in H2. rewrite Ht in H2.
  revert H2. mrun. intros [= <- <-]. rewrite Ec in H.
  revert H.
  match goal with |- ?m s1 = _ → _ = ?E =>
    assert (X : ensures (λ r _, match r with
                                | Ok b => b = E
                                | Throw _ => True
                                end) m);
    [ | intros H; exact (X _ _ _ H) ]
  end.
  do 15 (apply ensures_bind; [done | intro]; cbv zeta).
  intros s3 r s4 [= <- <-]. reflexivity.
Qed.

(** Two [create()] with the same secret and the same [index || 0] give the
    same burner: when both return, the second has replaced the record of
    the first in place, and the stored addresses are those the first
    left. *)
Theorem create_same_secret_replaces options1 options2 s b1 s1 b2 s2 :
  truthy_string (secret options1) = true →
  secret options2 = secret options1 →
  default 0%Z (index options2) = default 0%Z (index options1) →
  BurnerManager.create world starknet derivePrivateKeyFromSeed options1 s
  = (Ok b1, s1) →
  BurnerManager.create world starknet derivePrivateKeyFromSeed options2 s1
  = (Ok b2, s2) →
  b2 = b1
  ∧ keys (stored s2) = keys (stored s1)
  ∧ this_account s2 = Some b1.
Proof.
  intros Ht Hsec Hidx H1 H2.
  pose proof (create_derived_burner _ _ _ _ Ht H1) as E1.
  assert (Ht2 : truthy_string (secret options2) = true) by (by rewrite Hsec).
  pose proof (create_derived_burner _ _ _ _ Ht2 H2) as E2.
  apply create_Ok_inv in H1
    as (pk1 & tx1 & h1 & d1 & _ & Eb1 & _ & Hc1 & Hch1 & _ & _ & Hl1).
  apply create_Ok_inv in H2
    as (pk2 & tx2 & h2 & d2 & _ & Eb2 & _ & Hc2 & Hch2 & _ & Ha2 & Hl2).
  cbv zeta in *. rewrite Hc1, Hsec, Hidx in E2.
  assert (E : b2 = b1) by congruence. split; [exact E|].
  assert (Hs1 : address b1 ∈ keys (stored s1)).
  { apply lookup_burner_is_Some.
    erewrite (stored_written s1); [| |exact Hl1].
    2: { unfold burner_key. by rewrite Hch1. }
    rewrite Eb1 at 1. cbn [address].
    rewrite lookup_assign_burner, String.eqb_refl. eauto. }
  split; [|by rewrite Ha2, E].
  erewrite (stored_written s2); [| |exact Hl2].
  2: { unfold burner_key. by rewrite Hch2. }
  rewrite keys_assign_burner, keys_deactivate_all.
  rewrite bool_decide_eq_true_2; [done|].
  rewrite E in Eb2. rewrite Eb2 in Hs1. exact Hs1.
Qed.

End Secret.

Section SecretEdge.

Variable world : Oracle.
Variable starknet : Starknet.
Variable derivePrivateKeyFromSeed : string → Z → string.

(** Without a truthy secret (none, or the empty string) [create] does not
    look at [index]: two calls that differ only there, or in which falsy
    secret they carry, run alike. *)
Theorem create_without_secret_ignores_index options1 options2 s :
  truthy_string (secret options1) = false →
  truthy_string (secret options2) = false →
  opt_metadata options1 = opt_metadata options2 →
  prefundedAmount options1 = prefundedAmount options2 →
  transactionDetails options1 = transactionDetails options2 →
  BurnerManager.create world starknet derivePrivateKeyFromSeed options1 s
  = BurnerManager.create world starknet derivePrivateKeyFromSeed options2 s.
Proof.
  intros H1 H2 Hm Hp Ht.
  unfold BurnerManager.create, BurnerManager.generateKeysAndAddress,
    BurnerManager.new_record.
  rewrite H1, H2, Hm, Hp, Ht. reflexivity.
Qed.

(** The [clear()] that [init] starts without awaiting it settles after
    [init] has returned.  When a [create()] has returned in between, the
    burner it stored is removed with the others once that [clear()]
    settles, in whatever order its drains do: the burner key is gone,
    [get] on the address of the new burner throws and [list()] is empty. *)
Theorem dropped_clear_removes_later_burner keep s ps s1 options burner s2 order :
  BurnerManager.init world starknet keep s = (Ok (Some ps), s1) →
  BurnerManager.create world starknet derivePrivateKeyFromSeed options s1
  = (Ok burner, s2) →
  lookup_burner (address burner) (stored s2) ≠ None
  ∧ ∃ s3, BurnerManager.clear_finish order ps s2 = (Ok tt, s3)
      ∧ localStorage s3 !! burner_key s3 = None
      ∧ BurnerManager.get (address burner) s3
        = (Throw "burner not found", s3)
      ∧ BurnerManager.list s3 = (Ok [], s3).
Proof.
  intros Hinit Hcreate.
  assert (Hhex : inherited (address burner) = false).
  { apply create_Ok_inv in Hcreate as (pk & tx & h & d & _ & -> & _).
    apply address_not_inherited. }
  assert (A : Forall awaiting ps).
  { destruct (this_isInitialized s) eqn:Hi.
    - unfold BurnerManager.init, bind, gets in Hinit. by rewrite Hi in Hinit.
    - pose proof (init_run world starknet keep s Hi) as R.
      destruct (world (trace s) GetChainId) as [id|e]; [|congruence].
      destruct R as (d & s' & R & _ & _ & _ & _ & _ & Hps).
      rewrite R in Hinit. injection Hinit as -> ->. by destruct Hps. }
  split.
  - apply create_Ok_inv in Hcreate
      as (pk & tx & h & d & _ & -> & _ & _ & Hch & _ & _ & Hl).
    erewrite (stored_written s2); [| |exact Hl].
    2: { unfold burner_key. by rewrite Hch. }
    cbn [address]. by rewrite lookup_assign_burner, String.eqb_refl.
  - destruct (clear_finish_ok order ps s2 A) as (s3 & H3 & _ & Hch & _ & Hl).
    assert (Hk : burner_key s3 = burner_key s2).
    { unfold burner_key. by rewrite Hch. }
    assert (Hs : stored s3 = []) by (by eapply stored_removed).
    exists s3. split_and!; [done | | | ].
    + rewrite Hk, Hl. apply lookup_delete_eq.
    + apply get_absent; [by rewrite Hs | exact Hhex].
    + by rewrite list_eq, Hs.
Qed.

End SecretEdge.

(** ** The further theorems at concrete inputs *)

Lemma select_then_read_witness :
  ∃ s', BurnerManager.select "0x2" manager_ready = (Ok tt, s')
    ∧ this_account s' = Some (mkAccount "0x2" "0xk2")
    ∧ BurnerManager.get "0x2" s' = (Ok (mkAccount "0x2" "0xk2"), s')
    ∧ BurnerManager.getActiveAccount s'
      = (Ok (Some (mkAccount "0x2" "0xk2")), s').
Proof.
  destruct (select_then_read "0x2" burner_0x2 manager_ready)
    as (s' & Hrun & Hacc & Hactive & Hget & _).
  { vm_compute. reflexivity. }
  exists s'. split_and!; [exact Hrun | exact Hacc | exact Hget |].
  by rewrite Hactive, Hacc.
Defined.

Lemma create_then_read_witness :
  let burner := mkAccount "0xpub0xrandom" "0xrandom" in
  let run :=
    BurnerManager.create world_ok katana derive_example noOptions manager_ready in
  run.1 = Ok burner
  ∧ BurnerManager.get "0xpub0xrandom" run.2 = (Ok burner, run.2)
  ∧ BurnerManager.getActiveAccount run.2 = (Ok (Some burner), run.2)
  ∧ ∃ l, BurnerManager.list run.2 = (Ok l, run.2)
      ∧ mkBurner "0xpub0xrandom" true "0xmaster" None ∈ l.
Proof.
  cbv zeta.
  set (run := BurnerManager.create world_ok katana derive_example noOptions
                manager_ready).
  assert (E : run = (Ok (mkAccount "0xpub0xrandom" "0xrandom"), run.2))
    by (vm_compute; reflexivity).
  destruct (create_then_read world_ok katana derive_example noOptions
              manager_ready _ _ E) as (Hget & Hactive & l & Hlist & Hin & _).
  split_and!; [by rewrite E | exact Hget | exact Hactive |].
  exists l. split; [exact Hlist | exact Hin].
Defined.

Lemma create_outcome_witness :
  let failed :=
    BurnerManager.create world_no_deploy katana derive_example noOptions
      manager_ready in
  let run :=
    BurnerManager.create world_ok katana derive_example noOptions manager_ready in
  (failed.1 = Throw "rejected" ∧ localStorage failed.2 = localStorage manager_ready)
  ∧ (run.1 = Ok (mkAccount "0xpub0xrandom" "0xrandom")
     ∧ this_isDeploying run.2 = false).
Proof.
  cbv zeta. split.
  - set (failed := BurnerManager.create world_no_deploy katana derive_example
                     noOptions manager_ready).
    assert (E : failed = (Throw "rejected", failed.2)) by (vm_compute; reflexivity).
    split; [by rewrite E|].
    exact (create_outcome world_no_deploy katana derive_example noOptions
             manager_ready _ _ E).
  - set (run := BurnerManager.create world_ok katana derive_example noOptions
                  manager_ready).
    assert (E : run = (Ok (mkAccount "0xpub0xrandom" "0xrandom"), run.2))
      by (vm_compute; reflexivity).
    split; [by rewrite E|].
    exact (create_outcome world_ok katana derive_example noOptions
             manager_ready _ _ E).
Defined.

Lemma delete_selects_first_remaining_witness :
  ∃ s', BurnerManager.delete world_ok "0x1" None manager_ready = (Ok tt, s')
    ∧ keys (stored s') = ["0x2"]
    ∧ this_account s' = Some (mkAccount "0x2" "0xk2")
    ∧ lookup_burner "0x2" (stored s') = Some (set_active true burner_0x2).
Proof.
  destruct (delete_selects_first_remaining world_ok "0x1" None manager_ready
              burner_0x1 tt) as (s' & Hrun & Hkeys & Hrest).
  { vm_compute. reflexivity. }
  { reflexivity. }
  assert (K : List.filter (λ k, negb (String.eqb k "0x1"))
                (keys (stored manager_ready)) = ["0x2"])
    by (vm_compute; reflexivity).
  rewrite K in Hkeys. rewrite Hkeys in Hrest.
  destruct Hrest as ((r & Hr & Hacc) & _ & Hlook).
  assert (L : lookup_burner "0x2" (stored manager_ready) = Some burner_0x2)
    by (vm_compute; reflexivity).
  exists s'. split_and!; [exact Hrun | exact Hkeys | |].
  - rewrite L in Hr. injection Hr as <-. exact Hacc.
  - rewrite (Hlook "0x2"), L. reflexivity.
Defined.

Lemma init_keeps_deployed_witness :
  (∃ s', BurnerManager.init world_ok katana false manager_new = (Ok None, s')
     ∧ stored s' = [("0x1", burner_0x1); ("0x2", burner_0x2)]
     ∧ this_account s' = Some (mkAccount "0x1" "0xk1"))
  ∧ (∃ ps s', BurnerManager.init world_no_receipts katana false manager_new
              = (Ok (Some ps), s')
       ∧ length ps = 2%nat
       ∧ localStorage s' = localStorage manager_new)
  ∧ (∃ s', BurnerManager.init world_no_receipts katana true manager_new
           = (Ok None, s')
       ∧ stored s' = [("0x1", burner_0x1); ("0x2", burner_0x2)]).
Proof.
  assert (N : NoDup (keys (stored (set_chainId (decodeShortString katana "KATANA")
                                     manager_new)))).
  { apply (bool_decide_unpack _). vm_compute. exact I. }
  split_and!.
  - destruct (init_keeps_deployed world_ok katana false manager_new "KATANA"
                (λ _, true)) as (d & s' & Hrun & _ & Hkept);
      [reflexivity | reflexivity | intros h tx; reflexivity | exact N |].
    destruct Hkept as (-> & Hs & Ha).
    exists s'. split_and!; [exact Hrun | exact Hs | exact Ha].
  - destruct (init_keeps_deployed world_no_receipts katana false manager_new
                "KATANA" (λ _, false)) as (d & s' & Hrun & _ & Hkept);
      [reflexivity | reflexivity | intros h tx; reflexivity | exact N |].
    destruct Hkept as (Hl & _ & ps & -> & Hn).
    exists ps, s'. split_and!; [exact Hrun | exact Hn | exact Hl].
  - destruct (init_keeps_deployed world_no_receipts katana true manager_new
                "KATANA" (λ _, false)) as (d & s' & Hrun & _ & Hkept);
      [reflexivity | reflexivity | intros h tx; reflexivity | exact N |].
    destruct Hkept as (-> & Hs & _).
    exists s'. split; [exact Hrun | exact Hs].
Defined.

Lemma create_same_secret_replaces_witness :
  let first :=
    BurnerManager.create world_ok katana derive_example options_seed
      manager_ready in
  let again :=
    BurnerManager.create world_ok katana derive_example options_seed first.2 in
  first.1 = Ok (mkAccount "0xpub0xkeyseed" "0xkeyseed")
  ∧ again.1 = first.1
  ∧ keys (stored again.2) = keys (stored first.2)
  ∧ this_account again.2 = Some (mkAccount "0xpub0xkeyseed" "0xkeyseed").
Proof.
  cbv zeta.
  set (first := BurnerManager.create world_ok katana derive_example options_seed
                  manager_ready).
  set (again := BurnerManager.create world_ok katana derive_example options_seed
                  first.2).
  assert (E1 : first = (Ok (mkAccount "0xpub0xkeyseed" "0xkeyseed"), first.2))
    by (vm_compute; reflexivity).
  assert (E2 : again = (Ok (mkAccount "0xpub0xkeyseed" "0xkeyseed"), again.2))
    by (vm_compute; reflexivity).
  destruct (create_same_secret_replaces world_ok katana derive_example
              options_seed options_seed manager_ready _ _ _ _
              eq_refl eq_refl eq_refl E1 E2) as (_ & Hkeys & Hacc).
  split_and!; [by rewrite E1 | by rewrite E2, E1 | exact Hkeys | exact Hacc].
Defined.

Lemma create_without_secret_ignores_index_witness :
  BurnerManager.create world_ok katana derive_example
    (mkOptions (Some "") (Some 5%Z) None None None) manager_ready
  = BurnerManager.create world_ok katana derive_example noOptions manager_ready.
Proof.
  apply (create_without_secret_ignores_index world_ok katana derive_example
           (mkOptions (Some "") (Some 5%Z) None None None) noOptions
           manager_ready); reflexivity.
Defined.

Lemma dropped_clear_removes_later_burner_witness :
  let started := BurnerManager.init world_no_receipts katana false manager_new in
  let run :=
    BurnerManager.create world_no_receipts katana derive_example noOptions
      started.2 in
  run.1 = Ok (mkAccount "0xpub0xrandom" "0xrandom")
  ∧ lookup_burner "0xpub0xrandom" (stored run.2) ≠ None
  ∧ ∃ ps s3, started.1 = Ok (Some ps)
      ∧ BurnerManager.clear_finish ["0x2"; "0x1"] ps run.2 = (Ok tt, s3)
      ∧ BurnerManager.get "0xpub0xrandom" s3 = (Throw "burner not found", s3)
      ∧ BurnerManager.list s3 = (Ok [], s3).
Proof.
  cbv zeta.
  set (started := BurnerManager.init world_no_receipts katana false manager_new).
  set (run := BurnerManager.create world_no_receipts katana derive_example
                noOptions started.2).
  assert (E0 : ∃ ps, started = (Ok (Some ps), started.2))
    by (vm_compute; eexists; reflexivity).
  destruct E0 as [ps E0].
  assert (E1 : run = (Ok (mkAccount "0xpub0xrandom" "0xrandom"), run.2))
    by (vm_compute; reflexivity).
  destruct (dropped_clear_removes_later_burner world_no_receipts katana
              derive_example false manager_new ps started.2 noOptions _ run.2
              ["0x2"; "0x1"] E0 E1) as (Hin & s3 & Hrun & _ & Hget & Hlist).
  split_and!; [by rewrite E1 | exact Hin |].
  exists ps, s3. split_and!; [by rewrite E0 | exact Hrun | exact Hget | exact Hlist].
Defined.

